(** * 3D printing analytics: the REST server and the client reconciliation sweep

    A shallow embedding of [server/server-mongodb.js] (the Express handlers
    over the Mongoose collections) and of the synchronisation code of
    [client/js/app-fixed.js], followed by the properties of the written
    specification that concern them.

    Conventions of the embedding.
    - A handler is a function from the store, the request and the instant at
      which it runs to the new store and the response.  All the clock reads
      of one handler run yield the same instant.
    - A JavaScript Number is an exact rational, or NaN, or an infinity; no
      rounding takes place and there is no negative zero.  This coincides
      with binary64 on the integers below 2^53 and on the dyadic fractions
      that occur in the statements below.  The sums that the database
      computes are not computed here: they are taken as the database gives
      them.
    - Strings are sequences of ASCII characters.
    - Request bodies are typed after the paths of the schemas: a numeric
      path holds a JSON number or is absent, a text path holds a string or
      is absent, a date holds a string that is not empty or is absent.  No
      body carries an [_id].
    - The rate limiters, helmet and cors are not part of the embedding, and
      the database connection never drops. *)

From Stdlib Require Import ZArith QArith Qround Qabs String Ascii List Lia Bool.
From Stdlib Require Import DecimalString DecimalZ Sorting.Sorted Permutation.
From Stdlib Require Qcanon.
From stdpp Require Import base option list gmap strings sorting.

Import ListNotations.
Local Open Scope Z_scope.
Local Open Scope string_scope.

(** ** The fragment of JavaScript the handlers rely on *)

Module JS.

(** Number values. *)
Inductive Number :=
| NaN
| Inf (neg : bool)
| Fin (q : Q).

Definition Qneg (q : Q) : bool := (Qnum q <? 0)%Z.
Definition Qzero (q : Q) : bool := (Qnum q =? 0)%Z.

Definition of_Z (z : Z) : Number := Fin (inject_Z z).

(** [a - b] *)
Definition sub (a b : Number) : Number :=
  match a, b with
  | NaN, _ | _, NaN => NaN
  | Inf n, Inf m => if Bool.eqb n m then NaN else Inf n
  | Inf n, Fin _ => Inf n
  | Fin _, Inf m => Inf (negb m)
  | Fin p, Fin q => Fin (Qred (p - q))
  end.

(** [a * b] *)
Definition mul (a b : Number) : Number :=
  match a, b with
  | NaN, _ | _, NaN => NaN
  | Inf n, Inf m => Inf (xorb n m)
  | Inf n, Fin q => if Qzero q then NaN else Inf (xorb n (Qneg q))
  | Fin p, Inf m => if Qzero p then NaN else Inf (xorb (Qneg p) m)
  | Fin p, Fin q => Fin (Qred (p * q))
  end.

(** [a / b] *)
Definition div (a b : Number) : Number :=
  match a, b with
  | NaN, _ | _, NaN => NaN
  | Inf _, Inf _ => NaN
  | Inf n, Fin q => Inf (xorb n (Qneg q))
  | Fin _, Inf _ => Fin 0
  | Fin p, Fin q =>
      if Qzero q then (if Qzero p then NaN else Inf (Qneg p))
      else Fin (Qred (p / q))
  end.

(** [Math.ceil] *)
Definition ceil (a : Number) : Number :=
  match a with
  | Fin q => Fin (inject_Z (Qceiling q))
  | _ => a
  end.

(** The integer a Number denotes, when it denotes one. *)
Definition as_integer (a : Number) : option Z :=
  match a with
  | Fin q => let r := Qred q in
             if Pos.eqb (Qden r) 1 then Some (Qnum r) else None
  | _ => None
  end.

(** *** Characters and strings *)

(** WhiteSpace and LineTerminator, ASCII part: TAB, LF, VT, FF, CR, SP. *)
Definition is_space (c : ascii) : bool :=
  let n := nat_of_ascii c in
  ((9 <=? n)%nat && (n <=? 13)%nat) || (n =? 32)%nat.

Definition digit_val (c : ascii) : option N :=
  let n := N_of_ascii c in
  if ((48 <=? n) && (n <=? 57))%N then Some (n - 48)%N
  else if ((97 <=? n) && (n <=? 122))%N then Some (n - 87)%N
  else if ((65 <=? n) && (n <=? 90))%N then Some (n - 55)%N
  else None.

(** The value of [c] as a digit in [radix]. *)
Definition digit_in (radix : N) (c : ascii) : option N :=
  match digit_val c with
  | Some d => if (d <? radix)%N then Some d else None
  | None => None
  end.

Fixpoint drop_space (s : string) : string :=
  match s with
  | String c r => if is_space c then drop_space r else s
  | EmptyString => s
  end.

Fixpoint rev_string_onto (s acc : string) : string :=
  match s with
  | EmptyString => acc
  | String c r => rev_string_onto r (String c acc)
  end.

Definition rev_string (s : string) : string := rev_string_onto s EmptyString.

(** [String.prototype.trim] *)
Definition trim (s : string) : string :=
  rev_string (drop_space (rev_string (drop_space s))).

(** The longest prefix of digits of [radix], read as a number, with the
    number of digits read and the rest of the string. *)
Fixpoint read_digits (radix : N) (s : string) (acc : N) (count : nat)
  : N * nat * string :=
  match s with
  | String c r =>
      match digit_in radix c with
      | Some d => read_digits radix r (acc * radix + d)%N (S count)
      | None => (acc, count, s)
      end
  | EmptyString => (acc, count, s)
  end.

Definition read_sign (s : string) : bool * string :=
  match s with
  | String "-" r => (true, r)
  | String "+" r => (false, r)
  | _ => (false, s)
  end.

Definition signed (neg : bool) (q : Q) : Q := if neg then Qopp q else q.

(** [0x], [0o] and [0b] literals: NonDecimalIntegerLiteral. *)
Definition non_decimal (s : string) : option Number :=
  match s with
  | String "0" (String p r) =>
      let radix :=
        if (Ascii.eqb p "x" || Ascii.eqb p "X")%bool then Some 16%N
        else if (Ascii.eqb p "o" || Ascii.eqb p "O")%bool then Some 8%N
        else if (Ascii.eqb p "b" || Ascii.eqb p "B")%bool then Some 2%N
        else None in
      match radix with
      | Some rx =>
          match read_digits rx r 0%N 0%nat with
          | (n, S _, EmptyString) => Some (Fin (inject_Z (Z.of_N n)))
          | _ => Some NaN
          end
      | None => None
      end
  | _ => None
  end.

(** ExponentPart, when the whole of [s] is one. *)
Definition exponent_part (s : string) : option Z :=
  match s with
  | EmptyString => Some 0
  | String e r =>
      if (Ascii.eqb e "e" || Ascii.eqb e "E")%bool then
        let '(neg, r1) := read_sign r in
        match read_digits 10 r1 0%N 0%nat with
        | (n, S _, EmptyString) =>
            Some (if neg then - Z.of_N n else Z.of_N n)
        | _ => None
        end
      else None
  end.

(** StrUnsignedDecimalLiteral other than [Infinity]. *)
Definition unsigned_decimal (s : string) : option Q :=
  let '(ip, ni, r1) := read_digits 10 s 0%N 0%nat in
  let '(fp, nf, r2) :=
    match r1 with
    | String "." r => read_digits 10 r 0%N 0%nat
    | _ => (0%N, 0%nat, r1)
    end in
  match (ni + nf)%nat, exponent_part r2 with
  | S _, Some e =>
      Some ((inject_Z (Z.of_N ip)
             + inject_Z (Z.of_N fp) / inject_Z (10 ^ Z.of_nat nf))
            * Qpower (inject_Z 10) e)%Q
  | _, _ => None
  end.

(** StringToNumber: the value of [Number(s)], [s * 1], [s - 1]. *)
Definition StringToNumber (s : string) : Number :=
  let t := trim s in
  match t with
  | EmptyString => Fin 0
  | _ =>
      match non_decimal t with
      | Some n => n
      | None =>
          let '(neg, r) := read_sign t in
          if String.eqb r "Infinity" then Inf neg
          else match unsigned_decimal r with
               | Some q => Fin (Qred (signed neg q))
               | None => NaN
               end
      end
  end.

(** [parseInt(s)] without a radix. *)
Definition parseInt (s : string) : Number :=
  let '(neg, r) := read_sign (drop_space s) in
  let '(radix, r1) :=
    match r with
    | String "0" (String p r') =>
        if (Ascii.eqb p "x" || Ascii.eqb p "X")%bool then (16%N, r')
        else (10%N, r)
    | _ => (10%N, r)
    end in
  match read_digits radix r1 0%N 0%nat with
  | (n, S _, _) => Fin (signed neg (inject_Z (Z.of_N n)))
  | _ => NaN
  end.

(** A value that is either a string of the request or a numeric default. *)
Inductive Value :=
| VStr (s : string)
| VNum (n : Number).

Definition ToNumber (v : Value) : Number :=
  match v with
  | VStr s => StringToNumber s
  | VNum n => n
  end.

(** [parseInt(v)]; a numeric [v] is one of the integer defaults, which
    [parseInt] returns as it is. *)
Definition parseInt_value (v : Value) : Number :=
  match v with
  | VStr s => parseInt s
  | VNum n => n
  end.

(** Truthiness of a string that may be undefined. *)
Definition truthy (o : option string) : bool :=
  match o with
  | Some (String _ _) => true
  | _ => false
  end.

(** [s.split(sep)] for a separator of one character. *)
Fixpoint split_on (sep : ascii) (s : string) : list string :=
  match s with
  | EmptyString => [EmptyString]
  | String c r =>
      if Ascii.eqb c sep then EmptyString :: split_on sep r
      else match split_on sep r with
           | p :: ps => String c p :: ps
           | [] => [String c EmptyString]
           end
  end.

Fixpoint starts_with (p s : string) : bool :=
  match p, s with
  | EmptyString, _ => true
  | String a p', String b s' => Ascii.eqb a b && starts_with p' s'
  | String _ _, EmptyString => false
  end.

(** [s.includes(p)] *)
Fixpoint includes (s p : string) : bool :=
  starts_with p s ||
  match s with
  | EmptyString => false
  | String _ r => includes r p
  end.

(** [s] has no occurrence of the character [c]. *)
Fixpoint lacks (c : ascii) (s : string) : bool :=
  match s with
  | EmptyString => true
  | String a r => negb (Ascii.eqb a c) && lacks c r
  end.

(** [String(z)] for an integer. *)
Definition Z_to_string (z : Z) : string :=
  NilEmpty.string_of_int (Z.to_int z).

Definition Z_of_string (s : string) : option Z :=
  option_map Z.of_int (NilEmpty.int_of_string s).

(** *** What the forms of the client rely on *)

(** [a + b] on Numbers. *)
Definition add (a b : Number) : Number :=
  match a, b with
  | NaN, _ | _, NaN => NaN
  | Inf n, Inf m => if Bool.eqb n m then Inf n else NaN
  | Inf n, Fin _ => Inf n
  | Fin _, Inf m => Inf m
  | Fin p, Fin q => Fin (Qred (p + q))
  end.

(** [a || 0] on Numbers: NaN and 0 are falsy. *)
Definition or_zero (a : Number) : Number :=
  match a with
  | NaN => Fin 0
  | Inf _ => a
  | Fin q => if Qzero q then Fin 0 else a
  end.

(** [s.padStart(n, c)] for a filler of one character. *)
Definition padStart (n : nat) (c : ascii) (s : string) : string :=
  string_of_list_ascii (repeat c (n - String.length s)) ++ s.

End JS.

(** ** jsonwebtoken, symbolically

    A token is the text of its claims followed by a keyed digest of that
    text.  The digest is symbolic: it is the hexadecimal spelling of the
    secret followed by the text, so that two digests agree exactly when
    secret and text do. *)

Module Jwt.

Record Payload := {
  role : string;
  timestamp : Z;
  iat : Z;
  exp : Z
}.

Definition hex_digit (n : N) : ascii :=
  match n with
  | 0 => "0" | 1 => "1" | 2 => "2" | 3 => "3" | 4 => "4" | 5 => "5"
  | 6 => "6" | 7 => "7" | 8 => "8" | 9 => "9" | 10 => "a" | 11 => "b"
  | 12 => "c" | 13 => "d" | 14 => "e" | _ => "f"
  end%N%char.

Fixpoint hex (s : string) : string :=
  match s with
  | EmptyString => EmptyString
  | String c r =>
      String (hex_digit (N_of_ascii c / 16))
        (String (hex_digit (N_of_ascii c mod 16)) (hex r))
  end.

Fixpoint unhex (s : string) : option string :=
  match s with
  | EmptyString => Some EmptyString
  | String a (String b r) =>
      match JS.digit_in 16 a, JS.digit_in 16 b, unhex r with
      | Some h, Some l, Some t => Some (String (ascii_of_N (h * 16 + l)) t)
      | _, _, _ => None
      end
  | String _ EmptyString => None
  end.

Definition claims_text (p : Payload) : string :=
  hex (role p) ++ "." ++ JS.Z_to_string (timestamp p) ++ "."
  ++ JS.Z_to_string (iat p) ++ "." ++ JS.Z_to_string (exp p).

Definition digest (secret text : string) : string := hex (secret ++ text).

Definition encode (secret : string) (p : Payload) : string :=
  claims_text p ++ "." ++ digest secret (claims_text p).

(** [jwt.sign({ role, timestamp }, secret, { expiresIn })] run at [now]
    (milliseconds); [expiresIn] is in seconds. *)
Definition sign (role : string) (timestamp : Z) (secret : string)
    (expiresIn : Z) (now : Z) : string :=
  let issued := now / 1000 in
  encode secret {| role := role; timestamp := timestamp;
                   iat := issued; exp := issued + expiresIn |}.

Inductive Verified :=
| Decoded (p : Payload)
| JsonWebTokenError
| TokenExpiredError.

(** [jwt.verify(token, secret)] run at [now]: shape, digest, then expiry. *)
Definition verify (token secret : string) (now : Z) : Verified :=
  match JS.split_on "." token with
  | [r; t; i; e; d] =>
      match unhex r, JS.Z_of_string t, JS.Z_of_string i, JS.Z_of_string e with
      | Some rl, Some ts, Some ia, Some ex =>
          if String.eqb d (digest secret (r ++ "." ++ t ++ "." ++ i ++ "." ++ e))
          then if (ex <=? now / 1000)%Z then TokenExpiredError
               else Decoded {| role := rl; timestamp := ts; iat := ia; exp := ex |}
          else JsonWebTokenError
      | _, _, _, _ => JsonWebTokenError
      end
  | _ => JsonWebTokenError
  end.

End Jwt.

(** ** Regular expressions, by derivatives *)

Module Regex.

Inductive Re :=
| Void
| Eps
| Cls (p : ascii -> bool)
| Seq (r s : Re)
| Alt (r s : Re)
| Star (r : Re).

Fixpoint nullable (r : Re) : bool :=
  match r with
  | Void | Cls _ => false
  | Eps | Star _ => true
  | Seq a b => nullable a && nullable b
  | Alt a b => nullable a || nullable b
  end.

Definition seq (a b : Re) : Re :=
  match a, b with
  | Void, _ | _, Void => Void
  | Eps, _ => b
  | _, _ => Seq a b
  end.

Definition alt (a b : Re) : Re :=
  match a, b with
  | Void, _ => b
  | _, Void => a
  | _, _ => Alt a b
  end.

Fixpoint deriv (c : ascii) (r : Re) : Re :=
  match r with
  | Void | Eps => Void
  | Cls p => if p c then Eps else Void
  | Seq a b =>
      if nullable a then alt (seq (deriv c a) b) (deriv c b)
      else seq (deriv c a) b
  | Alt a b => alt (deriv c a) (deriv c b)
  | Star a => seq (deriv c a) (Star a)
  end.

(** [/^r$/.test(s)] *)
Fixpoint test (r : Re) (s : string) : bool :=
  match s with
  | EmptyString => nullable r
  | String c t => test (deriv c r) t
  end.

Definition plus (r : Re) : Re := Seq r (Star r).
Definition opt (r : Re) : Re := Alt Eps r.

(** [\w] *)
Definition word : Re :=
  Cls (fun c => let n := N_of_ascii c in
                ((48 <=? n) && (n <=? 57)) || ((65 <=? n) && (n <=? 90))
                || ((97 <=? n) && (n <=? 122)) || (n =? 95))%N.

Definition one_of (s : string) : Re :=
  Cls (fun c => existsb (Ascii.eqb c) (list_ascii_of_string s)).

End Regex.

(** ** express-validator: the validators and sanitizers of the chains *)

Module Validator.

Record ValidationError := {
  param : string;
  msg : string
}.

Definition invalid (path : string) : ValidationError :=
  {| param := path; msg := "Invalid value" |}.

(** The text a chain works on: an absent field reads as the empty string. *)
Definition text (o : option string) : string := default "" o.

Definition isLength (min max : nat) (s : string) : bool :=
  (min <=? String.length s)%nat && (String.length s <=? max)%nat.

Definition isIn (options : list string) (s : string) : bool :=
  existsb (String.eqb s) options.

(** [escape]: ampersand, the two quotes, the angle brackets, slash,
    backslash and backquote become entities. *)
Fixpoint escape (s : string) : string :=
  match s with
  | EmptyString => EmptyString
  | String c r =>
      (if Ascii.eqb c "&" then "&amp;"
       else if Ascii.eqb c (ascii_of_N 34) then "&quot;"
       else if Ascii.eqb c "'" then "&#x27;"
       else if Ascii.eqb c "<" then "&lt;"
       else if Ascii.eqb c ">" then "&gt;"
       else if Ascii.eqb c "/" then "&#x2F;"
       else if Ascii.eqb c "\" then "&#x5C;"
       else if Ascii.eqb c "`" then "&#96;"
       else String c EmptyString) ++ escape r
  end.

Definition is_integer (q : Q) : bool := Pos.eqb (Qden (Qred q)) 1.

(** [isInt({ min, max })] on a JSON number: the number is spelt without an
    exponent, which holds of the integers below 10^21 in magnitude. *)
Definition isInt (min : Z) (max : option Z) (v : option Q) : bool :=
  match v with
  | Some q =>
      is_integer q
      && Qle_bool (inject_Z (- 10 ^ 21 + 1)) q
      && Qle_bool q (inject_Z (10 ^ 21 - 1))
      && Qle_bool (inject_Z min) q
      && match max with
         | Some m => Qle_bool q (inject_Z m)
         | None => true
         end
  | None => false
  end.

(** [isFloat({ min })] on a JSON number. *)
Definition isFloat (min : Q) (v : option Q) : bool :=
  match v with
  | Some q => Qle_bool min q
  | None => false
  end.

(** The error of one validator of a chain, if it fails. *)
Definition check (path : string) (ok : bool) : list ValidationError :=
  if ok then [] else [invalid path].

End Validator.

(** ** Values of the settings bag *)

#[local] Unset Elimination Schemes.
Inductive JSON :=
| JNull
| JBool (b : bool)
| JNum (q : Q)
| JStr (s : string)
| JArr (items : list JSON)
| JObj (fields : list (string * JSON)).
#[local] Set Elimination Schemes.

(** ** What the handlers take from their environment *)

Abbreviation ObjectId := N.

(** [process.env] *)
Class Env := {
  JWT_SECRET : string;
  ADMIN_PASSWORD_HASH : string
}.

(** The library functions that are used as given: their results are read,
    never computed here. *)
Class Libs := {
  (** [bcrypt.compare(password, hash)] *)
  bcrypt_compare : string -> string -> bool;
  (** validator.js [isEmail], [normalizeEmail], [isISO8601], [toDate] *)
  isEmail : string -> bool;
  normalizeEmail : string -> string;
  isISO8601 : string -> bool;
  toDate : string -> option Z;
  (** Mongoose casts of a string to a Date and to an ObjectId *)
  castDate : string -> option Z;
  castObjectId : string -> option ObjectId;
  (** the driver on a cursor whose skip is not a natural number or whose
      limit is not a positive integer: the documents returned, or a throw *)
  cursor_other : forall A : Type, JS.Number -> JS.Number -> list A -> option (list A);
  (** the driver's ordering of the records by a path other than [createdAt] *)
  sort_other : forall A : Type, string -> bool -> list A -> list A;
  (** the accumulator [$sum] of the database over the numbers of a path of
      the documents of a group, in the order in which they are scanned *)
  aggregate_sum : list Q -> JS.Number
}.

(** ** Mongoose schema validators *)

Module Schema.

(** [type: String, required: true, maxlength] *)
Definition required_string (max : nat) (o : option string) : option string :=
  match o with
  | Some s =>
      if negb (String.eqb s "") && (String.length s <=? max)%nat
      then Some s else None
  | None => None
  end.

(** [type: String, maxlength] *)
Definition optional_string (max : nat) (o : option string)
  : option (option string) :=
  match o with
  | Some s => if (String.length s <=? max)%nat then Some (Some s) else None
  | None => Some None
  end.

(** [type: String, required: true, enum] *)
Definition required_enum (values : list string) (o : option string)
  : option string :=
  match o with
  | Some s => if Validator.isIn values s then Some s else None
  | None => None
  end.

(** [type: String, default, enum] *)
Definition default_enum (values : list string) (dflt : string)
    (o : option string) : option string :=
  match o with
  | Some s => if Validator.isIn values s then Some s else None
  | None => Some dflt
  end.

(** [type: Number, required: true] *)
Definition required_number (o : option Q) : option Q := o.

(** [type: Number, required: true, min] *)
Definition required_min (min : Q) (o : option Q) : option Q :=
  match o with
  | Some q => if Qle_bool min q then Some q else None
  | None => None
  end.

(** [type: Number, required: true, min, max] *)
Definition required_range (min max : Q) (o : option Q) : option Q :=
  match o with
  | Some q => if Qle_bool min q && Qle_bool q max then Some q else None
  | None => None
  end.

(** [type: Number, default: 0, min: 0] *)
Definition default_min (min dflt : Q) (o : option Q) : option Q :=
  match o with
  | Some q => if Qle_bool min q then Some q else None
  | None => Some dflt
  end.

(** [type: Date, default: Date.now]: the default when the path is not
    set, the cast of what is set otherwise. *)
Definition default_now `{Libs} (now : Z) (o : option string) : option Z :=
  match o with
  | Some s => castDate s
  | None => Some now
  end.

(** An update validates the paths it sets and keeps the others. *)
Definition on_update {A B : Type} (validate : option A -> option B)
    (sent : option A) : option (B -> B) :=
  match sent with
  | Some _ => (fun v _ => v) <$> validate sent
  | None => Some (fun old => old)
  end.

End Schema.

(** ** The collections *)

Module recordSchema.

(** The seven locations of [quantities]. *)
Inductive Location := bng | sampling | rcc | rd | kaa | bom | other.

Definition locations : list Location :=
  [bng; sampling; rcc; rd; kaa; bom; other].

Definition status_enum : list string :=
  ["pending"; "in-progress"; "completed"; "cancelled"].
Definition category_enum : list string :=
  ["prototype"; "production"; "research"; "maintenance"; "other"].

(** The body of a create or update request.  Every path of the schema
    is there but [updatedAt], which both handlers overwrite; a date that
    the body carries is a string that is not empty. *)
Module Body.
Record t := {
  date : option string;
  projectName : option string;
  partType : option string;
  partSize : option string;
  partName : option string;
  application : option string;
  sharepointLink : option string;
  materialUsed : option string;
  machineName : option string;
  printingTimeMins : option Q;
  printingTimeHrs : option Q;
  printPrice : option Q;
  electricityCost : option Q;
  printCost : option Q;
  oemCost : option Q;
  savingsPerProduct : option Q;
  status : option string;
  category : option string;
  quantities : option (Location -> option Q);
  totalQuantity : option Q;
  totalSavings : option Q;
  image : option string;
  createdAt : option string
}.
End Body.

(** A stored document. *)
Module Doc.
Record t := {
  date : Z;
  projectName : string;
  partType : string;
  partSize : string;
  partName : string;
  application : string;
  sharepointLink : option string;
  materialUsed : string;
  machineName : string;
  printingTimeMins : Q;
  printingTimeHrs : Q;
  printPrice : Q;
  electricityCost : Q;
  printCost : Q;
  oemCost : Q;
  savingsPerProduct : Q;
  status : string;
  category : string;
  quantities : Location -> Q;
  totalQuantity : Q;
  totalSavings : Q;
  image : option string;
  createdAt : Z;
  updatedAt : Z
}.
End Doc.

(** [quantities.*: { type: Number, default: 0, min: 0 }] *)
Definition counters (sent : option (Location -> option Q))
  : option (Location -> Q) :=
  let read l := Schema.default_min 0 0 (sent ≫= (fun f => f l)) in
  if forallb (fun l => bool_decide (is_Some (read l))) locations
  then Some (fun l => default 0%Q (read l))
  else None.

Section Casting.
Context `{Libs}.

(** [new Record(body)] followed by the validation of [save()], with
    [updatedAt] set by the handler and [createdAt] by the body, or by
    its default when the body carries none. *)
Definition create (now : Z) (b : Body.t) : option Doc.t :=
  d ← Body.date b ≫= castDate;
  projectName ← Schema.required_string 100 (Body.projectName b);
  partType ← Schema.required_string 50 (Body.partType b);
  partSize ← Schema.required_string 50 (Body.partSize b);
  partName ← Schema.required_string 100 (Body.partName b);
  application ← Schema.required_string 200 (Body.application b);
  sharepointLink ← Schema.optional_string 500 (Body.sharepointLink b);
  materialUsed ← Schema.required_string 50 (Body.materialUsed b);
  machineName ← Schema.required_string 50 (Body.machineName b);
  printingTimeMins ← Schema.required_min 0 (Body.printingTimeMins b);
  printingTimeHrs ← Schema.required_min 0 (Body.printingTimeHrs b);
  printPrice ← Schema.required_min 0 (Body.printPrice b);
  electricityCost ← Schema.required_min 0 (Body.electricityCost b);
  printCost ← Schema.required_min 0 (Body.printCost b);
  oemCost ← Schema.required_min 0 (Body.oemCost b);
  savingsPerProduct ← Schema.required_number (Body.savingsPerProduct b);
  status ← Schema.required_enum status_enum (Body.status b);
  category ← Schema.required_enum category_enum (Body.category b);
  quantities ← counters (Body.quantities b);
  totalQuantity ← Schema.required_min 1 (Body.totalQuantity b);
  totalSavings ← Schema.required_number (Body.totalSavings b);
  createdAt ← Schema.default_now now (Body.createdAt b);
  Some {| Doc.date := d; Doc.projectName := projectName;
          Doc.partType := partType; Doc.partSize := partSize;
          Doc.partName := partName; Doc.application := application;
          Doc.sharepointLink := sharepointLink;
          Doc.materialUsed := materialUsed; Doc.machineName := machineName;
          Doc.printingTimeMins := printingTimeMins;
          Doc.printingTimeHrs := printingTimeHrs;
          Doc.printPrice := printPrice;
          Doc.electricityCost := electricityCost;
          Doc.printCost := printCost; Doc.oemCost := oemCost;
          Doc.savingsPerProduct := savingsPerProduct;
          Doc.status := status; Doc.category := category;
          Doc.quantities := quantities;
          Doc.totalQuantity := totalQuantity;
          Doc.totalSavings := totalSavings;
          Doc.image := Body.image b;
          Doc.createdAt := createdAt; Doc.updatedAt := now |}.

(** The update [{ ...body, updatedAt: new Date() }] under
    [runValidators: true]: the validators of the paths that are set run,
    and the update replaces those paths. *)
Definition update (now : Z) (b : Body.t) : option (Doc.t -> Doc.t) :=
  date ← Schema.on_update (fun o => o ≫= castDate) (Body.date b);
  projectName ← Schema.on_update (Schema.required_string 100) (Body.projectName b);
  partType ← Schema.on_update (Schema.required_string 50) (Body.partType b);
  partSize ← Schema.on_update (Schema.required_string 50) (Body.partSize b);
  partName ← Schema.on_update (Schema.required_string 100) (Body.partName b);
  application ← Schema.on_update (Schema.required_string 200) (Body.application b);
  sharepointLink ← Schema.on_update (Schema.optional_string 500) (Body.sharepointLink b);
  materialUsed ← Schema.on_update (Schema.required_string 50) (Body.materialUsed b);
  machineName ← Schema.on_update (Schema.required_string 50) (Body.machineName b);
  printingTimeMins ← Schema.on_update (Schema.required_min 0) (Body.printingTimeMins b);
  printingTimeHrs ← Schema.on_update (Schema.required_min 0) (Body.printingTimeHrs b);
  printPrice ← Schema.on_update (Schema.required_min 0) (Body.printPrice b);
  electricityCost ← Schema.on_update (Schema.required_min 0) (Body.electricityCost b);
  printCost ← Schema.on_update (Schema.required_min 0) (Body.printCost b);
  oemCost ← Schema.on_update (Schema.required_min 0) (Body.oemCost b);
  savingsPerProduct ← Schema.on_update Schema.required_number (Body.savingsPerProduct b);
  status ← Schema.on_update (Schema.required_enum status_enum) (Body.status b);
  category ← Schema.on_update (Schema.required_enum category_enum) (Body.category b);
  quantities ← Schema.on_update counters (Body.quantities b);
  totalQuantity ← Schema.on_update (Schema.required_min 1) (Body.totalQuantity b);
  totalSavings ← Schema.on_update Schema.required_number (Body.totalSavings b);
  createdAt ← Schema.on_update (fun o => o ≫= castDate) (Body.createdAt b);
  Some (fun old =>
    {| Doc.date := date (Doc.date old);
       Doc.projectName := projectName (Doc.projectName old);
       Doc.partType := partType (Doc.partType old);
       Doc.partSize := partSize (Doc.partSize old);
       Doc.partName := partName (Doc.partName old);
       Doc.application := application (Doc.application old);
       Doc.sharepointLink := sharepointLink (Doc.sharepointLink old);
       Doc.materialUsed := materialUsed (Doc.materialUsed old);
       Doc.machineName := machineName (Doc.machineName old);
       Doc.printingTimeMins := printingTimeMins (Doc.printingTimeMins old);
       Doc.printingTimeHrs := printingTimeHrs (Doc.printingTimeHrs old);
       Doc.printPrice := printPrice (Doc.printPrice old);
       Doc.electricityCost := electricityCost (Doc.electricityCost old);
       Doc.printCost := printCost (Doc.printCost old);
       Doc.oemCost := oemCost (Doc.oemCost old);
       Doc.savingsPerProduct := savingsPerProduct (Doc.savingsPerProduct old);
       Doc.status := status (Doc.status old);
       Doc.category := category (Doc.category old);
       Doc.quantities := quantities (Doc.quantities old);
       Doc.totalQuantity := totalQuantity (Doc.totalQuantity old);
       Doc.totalSavings := totalSavings (Doc.totalSavings old);
       Doc.image := match Body.image b with
                    | Some i => Some i
                    | None => Doc.image old
                    end;
       Doc.createdAt := createdAt (Doc.createdAt old);
       Doc.updatedAt := now |}).
End Casting.

End recordSchema.

Module feedbackSchema.

Definition category_enum : list string :=
  ["general"; "technical"; "complaint"; "suggestion"; "bug-report"].
Definition status_enum : list string :=
  ["new"; "in-review"; "resolved"; "closed"].

(** [/^\w+([.-]?\w+)*@\w+([.-]?\w+)*(\.\w{2,3})+$/] *)
Definition email_match : Regex.Re :=
  let w := Regex.word in
  let words := Regex.plus w in
  let run := Regex.Star (Regex.Seq (Regex.opt (Regex.one_of ".-")) words) in
  let tld := Regex.Seq (Regex.one_of ".")
               (Regex.Seq w (Regex.Seq w (Regex.opt w))) in
  Regex.Seq words
    (Regex.Seq run
       (Regex.Seq (Regex.one_of "@")
          (Regex.Seq words (Regex.Seq run (Regex.plus tld))))).

Module Body.
Record t := {
  name : option string;
  partName : option string;
  email : option string;
  location : option string;
  category : option string;
  subject : option string;
  message : option string;
  rating : option Q;
  image : option string;
  status : option string;
  createdAt : option string;
  updatedAt : option string
}.
End Body.

Module Doc.
Record t := {
  name : string;
  partName : option string;
  email : string;
  location : string;
  category : string;
  subject : string;
  message : string;
  rating : Q;
  image : option string;
  status : string;
  createdAt : Z;
  updatedAt : Z
}.
End Doc.

(** [new Feedback(body)] followed by the validation of [save()]; the
    two instants are those of the body, or their defaults when the body
    carries none. *)
Definition create `{Libs} (now : Z) (b : Body.t) : option Doc.t :=
  name ← Schema.required_string 100 (Body.name b);
  partName ← Schema.optional_string 100 (Body.partName b);
  email ← Schema.required_string 100 (Body.email b);
  _ ← guard (Regex.test email_match email = true);
  location ← Schema.required_string 100 (Body.location b);
  category ← Schema.required_enum category_enum (Body.category b);
  subject ← Schema.required_string 200 (Body.subject b);
  message ← Schema.required_string 1000 (Body.message b);
  rating ← Schema.required_range 1 5 (Body.rating b);
  status ← Schema.default_enum status_enum "new" (Body.status b);
  createdAt ← Schema.default_now now (Body.createdAt b);
  updatedAt ← Schema.default_now now (Body.updatedAt b);
  Some {| Doc.name := name; Doc.partName := partName; Doc.email := email;
          Doc.location := location; Doc.category := category;
          Doc.subject := subject; Doc.message := message;
          Doc.rating := rating; Doc.image := Body.image b;
          Doc.status := status;
          Doc.createdAt := createdAt; Doc.updatedAt := updatedAt |}.

End feedbackSchema.

Module projectSchema.

Definition priority_enum : list string :=
  ["low"; "medium"; "high"; "critical"].
Definition status_enum : list string :=
  ["pending"; "in-progress"; "completed"; "cancelled"; "on-hold"].

Module Body.
Record t := {
  title : option string;
  description : option string;
  priority : option string;
  location : option string;
  dueDate : option string;
  image : option string;
  status : option string;
  assignedTo : option string;
  tags : option (list string);
  createdAt : option string;
  updatedAt : option string
}.
End Body.

Module Doc.
Record t := {
  title : string;
  description : string;
  priority : string;
  location : string;
  dueDate : Z;
  image : option string;
  status : string;
  assignedTo : option string;
  tags : list string;
  createdAt : Z;
  updatedAt : Z
}.
End Doc.

(** [tags: [{ type: String, maxlength: 50 }]] *)
Definition tag_list (o : option (list string)) : option (list string) :=
  let l := default [] o in
  if forallb (fun t => (String.length t <=? 50)%nat) l then Some l else None.

(** [new Project(body)] followed by the validation of [save()]; [due] is
    the Date that the [toDate] sanitizer has put in place of [dueDate],
    and the two instants are those of the body, or their defaults when the
    body carries none. *)
Definition create `{Libs} (now : Z) (b : Body.t) (due : option Z)
  : option Doc.t :=
  title ← Schema.required_string 200 (Body.title b);
  description ← Schema.required_string 1000 (Body.description b);
  priority ← Schema.required_enum priority_enum (Body.priority b);
  location ← Schema.required_string 100 (Body.location b);
  dueDate ← due;
  status ← Schema.default_enum status_enum "pending" (Body.status b);
  assignedTo ← Schema.optional_string 100 (Body.assignedTo b);
  tags ← tag_list (Body.tags b);
  createdAt ← Schema.default_now now (Body.createdAt b);
  updatedAt ← Schema.default_now now (Body.updatedAt b);
  Some {| Doc.title := title; Doc.description := description;
          Doc.priority := priority; Doc.location := location;
          Doc.dueDate := dueDate; Doc.image := Body.image b;
          Doc.status := status; Doc.assignedTo := assignedTo;
          Doc.tags := tags;
          Doc.createdAt := createdAt; Doc.updatedAt := updatedAt |}.

(** The update [{ ...body, updatedAt: new Date() }] under
    [runValidators: true]; the sanitizer always sets [dueDate], and the
    instant of the handler takes the place of an [updatedAt] of the
    body. *)
Definition update `{Libs} (now : Z) (b : Body.t) (due : option Z)
  : option (Doc.t -> Doc.t) :=
  title ← Schema.on_update (Schema.required_string 200) (Body.title b);
  description ← Schema.on_update (Schema.required_string 1000) (Body.description b);
  priority ← Schema.on_update (Schema.required_enum priority_enum) (Body.priority b);
  location ← Schema.on_update (Schema.required_string 100) (Body.location b);
  status ← Schema.on_update (Schema.required_enum status_enum) (Body.status b);
  assignedTo ← Schema.on_update (Schema.optional_string 100) (Body.assignedTo b);
  tags ← Schema.on_update tag_list (Body.tags b);
  dueDate ← due;
  createdAt ← Schema.on_update (fun o => o ≫= castDate) (Body.createdAt b);
  Some (fun old =>
    {| Doc.title := title (Doc.title old);
       Doc.description := description (Doc.description old);
       Doc.priority := priority (Doc.priority old);
       Doc.location := location (Doc.location old);
       Doc.dueDate := dueDate;
       Doc.image := match Body.image b with
                    | Some i => Some i
                    | None => Doc.image old
                    end;
       Doc.status := status (Doc.status old);
       Doc.assignedTo := assignedTo (Doc.assignedTo old);
       Doc.tags := tags (Doc.tags old);
       Doc.createdAt := createdAt (Doc.createdAt old);
       Doc.updatedAt := now |}).

End projectSchema.

Module settingsSchema.
(** A document of the collection; [key] is its index in the store. *)
Record Doc := {
  value : JSON;
  description : option string;
  updatedAt : Z
}.
End settingsSchema.

Module authLogSchema.
Record Doc := {
  ip : string;
  userAgent : option string;
  action : string;
  success : bool;
  timestamp : Z
}.
End authLogSchema.

(** The database: every collection is indexed by [_id], except the settings,
    which carry a unique index on [key], and the log of authentications,
    which is only appended to. *)
Record Store := {
  Records : gmap ObjectId recordSchema.Doc.t;
  Feedback : gmap ObjectId feedbackSchema.Doc.t;
  Project : gmap ObjectId projectSchema.Doc.t;
  Settings : gmap string settingsSchema.Doc;
  AuthLog : list authLogSchema.Doc
}.

(** ** Requests and responses *)

Record Request (B : Type) := {
  (** [req.headers['authorization']] *)
  authorization : option string;
  (** [req.ip || req.connection.remoteAddress] and [req.get('User-Agent')] *)
  ip : string;
  userAgent : option string;
  (** [req.params.id] *)
  params_id : string;
  (** [req.query] *)
  query : gmap string string;
  body : B;
  (** [req.user], set by [authenticateToken] *)
  user : option Jwt.Payload
}.
Arguments authorization {B} _.
Arguments ip {B} _.
Arguments userAgent {B} _.
Arguments params_id {B} _.
Arguments query {B} _.
Arguments body {B} _.
Arguments user {B} _.

Definition with_user {B} (req : Request B) (u : Jwt.Payload) : Request B :=
  {| authorization := authorization req; ip := ip req;
     userAgent := userAgent req; params_id := params_id req;
     query := query req; body := body req; user := Some u |}.

Definition with_body {B C} (req : Request B) (b : C) : Request C :=
  {| authorization := authorization req; ip := ip req;
     userAgent := userAgent req; params_id := params_id req;
     query := query req; body := b; user := user req |}.

Record Pagination := {
  page : JS.Number;
  limit : JS.Number;
  total : nat;
  pages : JS.Number
}.

Inductive Data :=
| NoData
| Token (token : string) (expiresAt : Z)
| Verified (valid : bool) (user : option Jwt.Payload)
| RecordData (id : ObjectId) (doc : recordSchema.Doc.t)
| RecordPage (docs : list (ObjectId * recordSchema.Doc.t)) (pagination : Pagination)
| FeedbackData (id : ObjectId) (doc : feedbackSchema.Doc.t)
| FeedbackPage (docs : list (ObjectId * feedbackSchema.Doc.t)) (pagination : Pagination)
| ProjectData (id : ObjectId) (doc : projectSchema.Doc.t)
| ProjectPage (docs : list (ObjectId * projectSchema.Doc.t)) (pagination : Pagination)
| SettingsData (settings : gmap string JSON).

(** A response: the status and the fields of the JSON envelope.  The
    [message] of an internal error is the text of the exception, which is not
    kept. *)
Record Response := {
  status : Z;
  success : bool;
  error : option string;
  message : option string;
  details : list Validator.ValidationError;
  data : Data
}.

Definition failure (code : Z) (err : string) : Response :=
  {| status := code; success := false; error := Some err; message := None;
     details := []; data := NoData |}.

Definition validation_failed (errors : list Validator.ValidationError) : Response :=
  {| status := 400; success := false; error := Some "Validation failed";
     message := None; details := errors; data := NoData |}.

Definition reply (code : Z) (msg : option string) (d : Data) : Response :=
  {| status := code; success := true; error := None; message := msg;
     details := []; data := d |}.

Definition Handler (B : Type) : Type := Store -> Request B -> Z -> Store * Response.

(** ** Queries *)

Module Query.

(** [sort({ createdAt: -1 })] and [sort({ createdAt: 1 })] *)
Definition newest_first {A} (createdAt : A -> Z) : relation (ObjectId * A) :=
  fun x y => (createdAt y.2 <= createdAt x.2)%Z.
Definition oldest_first {A} (createdAt : A -> Z) : relation (ObjectId * A) :=
  fun x y => (createdAt x.2 <= createdAt y.2)%Z.

#[global] Instance newest_first_dec {A} (c : A -> Z) x y :
  Decision (newest_first c x y) := Z_le_dec _ _.
#[global] Instance oldest_first_dec {A} (c : A -> Z) x y :
  Decision (oldest_first c x y) := Z_le_dec _ _.

Section Cursor.
Context `{Libs}.

(** [.limit(limit).skip(skip).exec()] on the sorted documents. *)
Definition exec {A} (limit skip : JS.Number) (docs : list A)
  : option (list A) :=
  match JS.as_integer skip, JS.as_integer limit with
  | Some k, Some n =>
      if ((0 <=? k) && (0 <? n))%Z
      then Some (take (Z.to_nat n) (drop (Z.to_nat k) docs))
      else cursor_other A skip limit docs
  | _, _ => cursor_other A skip limit docs
  end.

(** [.sort({ [sortBy]: sortOrder === 'desc' ? -1 : 1 })] *)
Definition sort {A} (createdAt : A -> Z) (sortBy : string) (desc : bool)
    (docs : list (ObjectId * A)) : list (ObjectId * A) :=
  if String.eqb sortBy "createdAt" then
    if desc then merge_sort (newest_first createdAt) docs
    else merge_sort (oldest_first createdAt) docs
  else sort_other _ sortBy desc docs.
End Cursor.

(** [const { page = 1 } = req.query] *)
Definition param {B} (req : Request B) (name : string) (dflt : JS.Value)
  : JS.Value :=
  match query req !! name with
  | Some s => JS.VStr s
  | None => dflt
  end.

Definition text_param {B} (req : Request B) (name : string) (dflt : string)
  : string :=
  default dflt (query req !! name).

(** The [pagination] object of a list response. *)
Definition pagination (page limit : JS.Value) (total : nat) : Pagination :=
  {| page := JS.parseInt_value page;
     limit := JS.parseInt_value limit;
     total := total;
     pages := JS.ceil (JS.div (JS.of_Z (Z.of_nat total)) (JS.ToNumber limit)) |}.

(** [{ status }] as a filter when [status] is truthy, [{}] otherwise. *)
Definition matches {A} (field : A -> string) (wanted : option string)
    (d : ObjectId * A) : bool :=
  if JS.truthy wanted then String.eqb (field d.2) (default "" wanted)
  else true.

End Query.

(** ** The server: middleware and routes of [server-mongodb.js] *)

Module Server.
Section Routes.
Context `{Env} `{Libs}.

(** *** Middleware *)

(** [authHeader && authHeader.split(' ')[1]] *)
Definition bearer_token (authHeader : option string) : option string :=
  match authHeader with
  | Some h => if JS.truthy (Some h) then JS.split_on " " h !! 1%nat else Some h
  | None => None
  end.

(** [authenticateToken]: the response that ends the request, or the
    decoded claims with which it goes on. *)
Definition authenticateToken {B} (req : Request B) (now : Z)
  : Response + Jwt.Payload :=
  let token := bearer_token (authorization req) in
  if negb (JS.truthy token) then inl (failure 401 "Access token required")
  else match Jwt.verify (default "" token) JWT_SECRET now with
       | Jwt.Decoded decoded => inr decoded
       | _ => inl (failure 401 "Invalid or expired token")
       end.

(** A route that runs [authenticateToken] before its handler. *)
Definition protected {B} (h : Handler B) : Handler B :=
  fun st req now =>
    match authenticateToken req now with
    | inl res => (st, res)
    | inr decoded => h st (with_user req decoded) now
    end.

(** A string field after [trim()] and [escape()]. *)
Definition clean (o : option string) : option string :=
  Some (Validator.escape (JS.trim (Validator.text o))).

(** A string field under [trim().isLength({ min: 1, max }).escape()]. *)
Definition check_text (path : string) (max : nat) (o : option string)
  : list Validator.ValidationError :=
  Validator.check path
    (Validator.isLength 1 max (JS.trim (Validator.text o))).

Definition check_in (path : string) (options : list string)
    (o : option string) : list Validator.ValidationError :=
  Validator.check path (Validator.isIn options (Validator.text o)).

(** [validateRecord]: the sanitized body and the errors. *)
Definition validateRecord (b : recordSchema.Body.t)
  : recordSchema.Body.t * list Validator.ValidationError :=
  let errors :=
    (check_text "projectName" 100 (recordSchema.Body.projectName b)
    ++ check_text "partName" 100 (recordSchema.Body.partName b)
    ++ check_text "partType" 50 (recordSchema.Body.partType b)
    ++ check_text "materialUsed" 50 (recordSchema.Body.materialUsed b)
    ++ check_text "machineName" 50 (recordSchema.Body.machineName b)
    ++ Validator.check "printingTimeMins"
         (Validator.isFloat 0 (recordSchema.Body.printingTimeMins b))
    ++ Validator.check "totalQuantity"
         (Validator.isInt 1 None (recordSchema.Body.totalQuantity b))
    ++ check_in "status" recordSchema.status_enum (recordSchema.Body.status b)
    ++ check_in "category" recordSchema.category_enum
         (recordSchema.Body.category b))%list in
  ({| recordSchema.Body.date := recordSchema.Body.date b;
      recordSchema.Body.projectName := clean (recordSchema.Body.projectName b);
      recordSchema.Body.partType := clean (recordSchema.Body.partType b);
      recordSchema.Body.partSize := recordSchema.Body.partSize b;
      recordSchema.Body.partName := clean (recordSchema.Body.partName b);
      recordSchema.Body.application := recordSchema.Body.application b;
      recordSchema.Body.sharepointLink := recordSchema.Body.sharepointLink b;
      recordSchema.Body.materialUsed := clean (recordSchema.Body.materialUsed b);
      recordSchema.Body.machineName := clean (recordSchema.Body.machineName b);
      recordSchema.Body.printingTimeMins := recordSchema.Body.printingTimeMins b;
      recordSchema.Body.printingTimeHrs := recordSchema.Body.printingTimeHrs b;
      recordSchema.Body.printPrice := recordSchema.Body.printPrice b;
      recordSchema.Body.electricityCost := recordSchema.Body.electricityCost b;
      recordSchema.Body.printCost := recordSchema.Body.printCost b;
      recordSchema.Body.oemCost := recordSchema.Body.oemCost b;
      recordSchema.Body.savingsPerProduct := recordSchema.Body.savingsPerProduct b;
      recordSchema.Body.status := recordSchema.Body.status b;
      recordSchema.Body.category := recordSchema.Body.category b;
      recordSchema.Body.quantities := recordSchema.Body.quantities b;
      recordSchema.Body.totalQuantity := recordSchema.Body.totalQuantity b;
      recordSchema.Body.totalSavings := recordSchema.Body.totalSavings b;
      recordSchema.Body.image := recordSchema.Body.image b;
      recordSchema.Body.createdAt := recordSchema.Body.createdAt b |},
   errors).

(** [validateFeedback] *)
Definition validateFeedback (b : feedbackSchema.Body.t)
  : feedbackSchema.Body.t * list Validator.ValidationError :=
  let errors :=
    (check_text "name" 100 (feedbackSchema.Body.name b)
    ++ Validator.check "email"
         (isEmail (Validator.text (feedbackSchema.Body.email b)))
    ++ check_text "subject" 200 (feedbackSchema.Body.subject b)
    ++ check_text "message" 1000 (feedbackSchema.Body.message b)
    ++ Validator.check "rating"
         (Validator.isInt 1 (Some 5) (feedbackSchema.Body.rating b))
    ++ check_in "category" feedbackSchema.category_enum
         (feedbackSchema.Body.category b))%list in
  ({| feedbackSchema.Body.name := clean (feedbackSchema.Body.name b);
      feedbackSchema.Body.partName := feedbackSchema.Body.partName b;
      feedbackSchema.Body.email :=
        Some (normalizeEmail (Validator.text (feedbackSchema.Body.email b)));
      feedbackSchema.Body.location := feedbackSchema.Body.location b;
      feedbackSchema.Body.category := feedbackSchema.Body.category b;
      feedbackSchema.Body.subject := clean (feedbackSchema.Body.subject b);
      feedbackSchema.Body.message := clean (feedbackSchema.Body.message b);
      feedbackSchema.Body.rating := feedbackSchema.Body.rating b;
      feedbackSchema.Body.image := feedbackSchema.Body.image b;
      feedbackSchema.Body.status := feedbackSchema.Body.status b;
      feedbackSchema.Body.createdAt := feedbackSchema.Body.createdAt b;
      feedbackSchema.Body.updatedAt := feedbackSchema.Body.updatedAt b |},
   errors).

(** [validateProject]: the sanitized body, the Date that [toDate] puts in
    place of [dueDate], and the errors. *)
Definition validateProject (b : projectSchema.Body.t)
  : projectSchema.Body.t * option Z * list Validator.ValidationError :=
  let errors :=
    (check_text "title" 200 (projectSchema.Body.title b)
    ++ check_text "description" 1000 (projectSchema.Body.description b)
    ++ check_in "priority" projectSchema.priority_enum
         (projectSchema.Body.priority b)
    ++ check_text "location" 100 (projectSchema.Body.location b)
    ++ Validator.check "dueDate"
         (isISO8601 (Validator.text (projectSchema.Body.dueDate b))))%list in
  ({| projectSchema.Body.title := clean (projectSchema.Body.title b);
      projectSchema.Body.description := clean (projectSchema.Body.description b);
      projectSchema.Body.priority := projectSchema.Body.priority b;
      projectSchema.Body.location := clean (projectSchema.Body.location b);
      projectSchema.Body.dueDate := projectSchema.Body.dueDate b;
      projectSchema.Body.image := projectSchema.Body.image b;
      projectSchema.Body.status := projectSchema.Body.status b;
      projectSchema.Body.assignedTo := projectSchema.Body.assignedTo b;
      projectSchema.Body.tags := projectSchema.Body.tags b;
      projectSchema.Body.createdAt := projectSchema.Body.createdAt b;
      projectSchema.Body.updatedAt := projectSchema.Body.updatedAt b |},
   toDate (Validator.text (projectSchema.Body.dueDate b)),
   errors).

(** [logAuthAttempt]: a failing [save()] is swallowed; [ip] is required. *)
Definition logAuthAttempt {B} (st : Store) (req : Request B) (now : Z)
    (action : string) (ok : bool) : Store :=
  if String.eqb (ip req) "" then st
  else {| Records := Records st; Feedback := Feedback st;
          Project := Project st; Settings := Settings st;
          AuthLog := AuthLog st ++
            [{| authLogSchema.ip := ip req;
                authLogSchema.userAgent := userAgent req;
                authLogSchema.action := action;
                authLogSchema.success := ok;
                authLogSchema.timestamp := now |}] |}.

(** *** Authentication *)

(** [POST /api/auth/login]; the body is [{ password }]. *)
Definition post_auth_login : Handler (option string) :=
  fun st req now =>
    let password := body req in
    if negb (JS.truthy password) then
      (logAuthAttempt st req now "login" false,
       failure 400 "Password is required")
    else if bcrypt_compare (default "" password) ADMIN_PASSWORD_HASH then
      let token := Jwt.sign "admin" now JWT_SECRET 3600 now in
      let expiresAt := now + 3600000 in
      (logAuthAttempt st req now "login" true,
       reply 200 (Some "Authentication successful") (Token token expiresAt))
    else
      (logAuthAttempt st req now "login" false,
       failure 401 "Invalid credentials").

(** [POST /api/auth/verify] *)
Definition post_auth_verify : Handler unit :=
  protected (fun st req now =>
    (st, reply 200 None (Verified true (user req)))).

(** *** Records *)

Definition set_Record (st : Store) (m : gmap ObjectId recordSchema.Doc.t) : Store :=
  {| Records := m; Feedback := Feedback st; Project := Project st;
     Settings := Settings st; AuthLog := AuthLog st |}.

Definition set_Feedback (st : Store) (m : gmap ObjectId feedbackSchema.Doc.t) : Store :=
  {| Records := Records st; Feedback := m; Project := Project st;
     Settings := Settings st; AuthLog := AuthLog st |}.

Definition set_Project (st : Store) (m : gmap ObjectId projectSchema.Doc.t) : Store :=
  {| Records := Records st; Feedback := Feedback st; Project := m;
     Settings := Settings st; AuthLog := AuthLog st |}.

Definition set_Settings (st : Store) (m : gmap string settingsSchema.Doc) : Store :=
  {| Records := Records st; Feedback := Feedback st; Project := Project st;
     Settings := m; AuthLog := AuthLog st |}.

(** [GET /api/records] *)
Definition get_records {B} : Handler B :=
  fun st req now =>
    let page := Query.param req "page" (JS.VNum (JS.of_Z 1)) in
    let limit := Query.param req "limit" (JS.VNum (JS.of_Z 100)) in
    let sortBy := Query.text_param req "sortBy" "createdAt" in
    let sortOrder := Query.text_param req "sortOrder" "desc" in
    let found := map_to_list (Records st) in
    match Query.exec
            (JS.mul (JS.ToNumber limit) (JS.of_Z 1))
            (JS.mul (JS.sub (JS.ToNumber page) (JS.of_Z 1)) (JS.ToNumber limit))
            (Query.sort recordSchema.Doc.createdAt sortBy
               (String.eqb sortOrder "desc") found) with
    | Some records =>
        (st, reply 200 None
               (RecordPage records (Query.pagination page limit (size (Records st)))))
    | None => (st, failure 500 "Failed to fetch records")
    end.

(** [POST /api/records] *)
Definition post_records : Handler recordSchema.Body.t :=
  protected (fun st req now =>
    let '(b, errors) := validateRecord (body req) in
    match errors with
    | _ :: _ => (st, validation_failed errors)
    | [] =>
        match recordSchema.create now b with
        | Some record =>
            let id := fresh (dom (Records st)) in
            (set_Record st (<[id := record]> (Records st)),
             reply 201 (Some "Record created successfully") (RecordData id record))
        | None => (st, failure 500 "Failed to create record")
        end
    end).

(** [PUT /api/records/:id] *)
Definition put_records : Handler recordSchema.Body.t :=
  protected (fun st req now =>
    let '(b, errors) := validateRecord (body req) in
    match errors with
    | _ :: _ => (st, validation_failed errors)
    | [] =>
        match castObjectId (params_id req), recordSchema.update now b with
        | Some id, Some change =>
            match Records st !! id with
            | Some old =>
                let record := change old in
                (set_Record st (<[id := record]> (Records st)),
                 reply 200 (Some "Record updated successfully") (RecordData id record))
            | None => (st, failure 404 "Record not found")
            end
        | _, _ => (st, failure 500 "Failed to update record")
        end
    end).

(** [DELETE /api/records/:id] *)
Definition delete_records {B} : Handler B :=
  protected (fun st req now =>
    match castObjectId (params_id req) with
    | Some id =>
        match Records st !! id with
        | Some _ =>
            (set_Record st (delete id (Records st)),
             reply 200 (Some "Record deleted successfully") NoData)
        | None => (st, failure 404 "Record not found")
        end
    | None => (st, failure 500 "Failed to delete record")
    end).

(** *** Feedback *)

(** [GET /api/feedback] *)
Definition get_feedback {B} : Handler B :=
  fun st req now =>
    let page := Query.param req "page" (JS.VNum (JS.of_Z 1)) in
    let limit := Query.param req "limit" (JS.VNum (JS.of_Z 100)) in
    let status := query req !! "status" in
    let found :=
      filter (fun d => Query.matches feedbackSchema.Doc.status status d = true)
        (map_to_list (Feedback st)) in
    match Query.exec
            (JS.mul (JS.ToNumber limit) (JS.of_Z 1))
            (JS.mul (JS.sub (JS.ToNumber page) (JS.of_Z 1)) (JS.ToNumber limit))
            (merge_sort (Query.newest_first feedbackSchema.Doc.createdAt) found) with
    | Some feedback =>
        (st, reply 200 None
               (FeedbackPage feedback (Query.pagination page limit (length found))))
    | None => (st, failure 500 "Failed to fetch feedback")
    end.

(** [POST /api/feedback] *)
Definition post_feedback : Handler feedbackSchema.Body.t :=
  fun st req now =>
    let '(b, errors) := validateFeedback (body req) in
    match errors with
    | _ :: _ => (st, validation_failed errors)
    | [] =>
        match feedbackSchema.create now b with
        | Some feedback =>
            let id := fresh (dom (Feedback st)) in
            (set_Feedback st (<[id := feedback]> (Feedback st)),
             reply 201 (Some "Feedback submitted successfully")
               (FeedbackData id feedback))
        | None => (st, failure 500 "Failed to submit feedback")
        end
    end.

(** [DELETE /api/feedback/:id] *)
Definition delete_feedback {B} : Handler B :=
  protected (fun st req now =>
    match castObjectId (params_id req) with
    | Some id =>
        match Feedback st !! id with
        | Some _ =>
            (set_Feedback st (delete id (Feedback st)),
             reply 200 (Some "Feedback deleted successfully") NoData)
        | None => (st, failure 404 "Feedback not found")
        end
    | None => (st, failure 500 "Failed to delete feedback")
    end).

(** *** Projects *)

(** [GET /api/projects] *)
Definition get_projects {B} : Handler B :=
  fun st req now =>
    let page := Query.param req "page" (JS.VNum (JS.of_Z 1)) in
    let limit := Query.param req "limit" (JS.VNum (JS.of_Z 100)) in
    let status := query req !! "status" in
    let priority := query req !! "priority" in
    let found :=
      filter (fun d => Query.matches projectSchema.Doc.status status d
                       && Query.matches projectSchema.Doc.priority priority d
                       = true)
        (map_to_list (Project st)) in
    match Query.exec
            (JS.mul (JS.ToNumber limit) (JS.of_Z 1))
            (JS.mul (JS.sub (JS.ToNumber page) (JS.of_Z 1)) (JS.ToNumber limit))
            (merge_sort (Query.newest_first projectSchema.Doc.createdAt) found) with
    | Some projects =>
        (st, reply 200 None
               (ProjectPage projects (Query.pagination page limit (length found))))
    | None => (st, failure 500 "Failed to fetch projects")
    end.

(** [POST /api/projects] *)
Definition post_projects : Handler projectSchema.Body.t :=
  protected (fun st req now =>
    let '(b, due, errors) := validateProject (body req) in
    match errors with
    | _ :: _ => (st, validation_failed errors)
    | [] =>
        match projectSchema.create now b due with
        | Some project =>
            let id := fresh (dom (Project st)) in
            (set_Project st (<[id := project]> (Project st)),
             reply 201 (Some "Project created successfully") (ProjectData id project))
        | None => (st, failure 500 "Failed to create project")
        end
    end).

(** [PUT /api/projects/:id] *)
Definition put_projects : Handler projectSchema.Body.t :=
  protected (fun st req now =>
    let '(b, due, errors) := validateProject (body req) in
    match errors with
    | _ :: _ => (st, validation_failed errors)
    | [] =>
        match castObjectId (params_id req), projectSchema.update now b due with
        | Some id, Some change =>
            match Project st !! id with
            | Some old =>
                let project := change old in
                (set_Project st (<[id := project]> (Project st)),
                 reply 200 (Some "Project updated successfully") (ProjectData id project))
            | None => (st, failure 404 "Project not found")
            end
        | _, _ => (st, failure 500 "Failed to update project")
        end
    end).

(** [DELETE /api/projects/:id] *)
Definition delete_projects {B} : Handler B :=
  protected (fun st req now =>
    match castObjectId (params_id req) with
    | Some id =>
        match Project st !! id with
        | Some _ =>
            (set_Project st (delete id (Project st)),
             reply 200 (Some "Project deleted successfully") NoData)
        | None => (st, failure 404 "Project not found")
        end
    | None => (st, failure 500 "Failed to delete project")
    end).

(** *** Settings *)

(** [GET /api/settings]: the documents reduced to one object. *)
Definition get_settings {B} : Handler B :=
  fun st req now =>
    (st, reply 200 None (SettingsData (settingsSchema.value <$> Settings st))).

(** [Settings.findOneAndUpdate({ key }, { key, value, updatedAt },
    { upsert: true, new: true })] *)
Definition upsert (now : Z) (entry : string * JSON)
    (m : gmap string settingsSchema.Doc) : gmap string settingsSchema.Doc :=
  <[entry.1 :=
      {| settingsSchema.value := entry.2;
         settingsSchema.description := m !! entry.1 ≫= settingsSchema.description;
         settingsSchema.updatedAt := now |}]> m.

(** [PUT /api/settings]; the body is [{ settings }], and
    [Object.entries] throws when [settings] is absent. *)
Definition put_settings : Handler (option (gmap string JSON)) :=
  protected (fun st req now =>
    match body req with
    | Some settings =>
        (set_Settings st
           (foldr (upsert now) (Settings st) (map_to_list settings)),
         reply 200 (Some "Settings updated successfully") NoData)
    | None => (st, failure 500 "Failed to update settings")
    end).

End Routes.
End Server.

(** ** The dashboard: [GET /api/analytics/dashboard] *)

Module Analytics.

(** The stage [{ $group: { _id: null, total: { $sum: path } } }] of an
    aggregation: one group when the collection holds a document, none when
    it is empty.  The total of the group is what the accumulator of the
    database makes of the numbers of the path; it is not computed here. *)
Definition group_total `{Libs} {A} (path : A -> Q) (docs : list (ObjectId * A))
  : list JS.Number :=
  match docs with
  | [] => []
  | _ :: _ => [aggregate_sum ((fun d => path d.2) <$> docs)]
  end.

(** [groups[0]?.total || 0] *)
Definition first_total (groups : list JS.Number) : JS.Number :=
  match groups with
  | total :: _ => JS.or_zero total
  | [] => JS.Fin 0
  end.

(** The [data] of the answer, as the handler hands it to [res.json]. *)
Record Dashboard := {
  recordCount : nat;
  feedbackCount : nat;
  projectCount : nat;
  totalSavings : JS.Number;
  totalPrintingTime : JS.Number;
  lastUpdated : Z
}.

(** The handler reads neither the request nor a credential: the store is
    left as it is and the answer is 200 with the figures. *)
Definition get_analytics_dashboard `{Libs} (st : Store) (now : Z)
  : Store * (Z * Dashboard) :=
  let totalSavings :=
    group_total recordSchema.Doc.totalSavings (map_to_list (Records st)) in
  let totalPrintingTime :=
    group_total recordSchema.Doc.printingTimeHrs (map_to_list (Records st)) in
  (st, (200,
        {| recordCount := size (Records st);
           feedbackCount := size (Feedback st);
           projectCount := size (Project st);
           totalSavings := first_total totalSavings;
           totalPrintingTime := first_total totalPrintingTime;
           lastUpdated := now |})).

End Analytics.

(** ** The routes, as one table *)

Module Api.

(** A request to one of the routes of the application. *)
Inductive Call :=
| PostAuthLogin (req : Request (option string))
| PostAuthVerify (req : Request unit)
| GetRecords (req : Request unit)
| PostRecords (req : Request recordSchema.Body.t)
| PutRecords (req : Request recordSchema.Body.t)
| DeleteRecords (req : Request unit)
| GetFeedback (req : Request unit)
| PostFeedback (req : Request feedbackSchema.Body.t)
| DeleteFeedback (req : Request unit)
| GetProjects (req : Request unit)
| PostProjects (req : Request projectSchema.Body.t)
| PutProjects (req : Request projectSchema.Body.t)
| DeleteProjects (req : Request unit)
| GetSettings (req : Request unit)
| PutSettings (req : Request (option (gmap string JSON)))
| GetAnalyticsDashboard.

(** The authorization header of the request. *)
Definition header (c : Call) : option string :=
  match c with
  | PostAuthLogin req => authorization req
  | PostAuthVerify req | GetRecords req | DeleteRecords req
  | GetFeedback req | DeleteFeedback req | GetProjects req
  | DeleteProjects req | GetSettings req => authorization req
  | PostRecords req | PutRecords req => authorization req
  | PostFeedback req => authorization req
  | PostProjects req | PutProjects req => authorization req
  | PutSettings req => authorization req
  | GetAnalyticsDashboard => None
  end.

Section Serving.
Context `{Env} `{Libs}.

(** The store after the route has served the request at [now]. *)
Definition serve (st : Store) (c : Call) (now : Z) : Store :=
  match c with
  | PostAuthLogin req => (Server.post_auth_login st req now).1
  | PostAuthVerify req => (Server.post_auth_verify st req now).1
  | GetRecords req => (Server.get_records st req now).1
  | PostRecords req => (Server.post_records st req now).1
  | PutRecords req => (Server.put_records st req now).1
  | DeleteRecords req => (Server.delete_records st req now).1
  | GetFeedback req => (Server.get_feedback st req now).1
  | PostFeedback req => (Server.post_feedback st req now).1
  | DeleteFeedback req => (Server.delete_feedback st req now).1
  | GetProjects req => (Server.get_projects st req now).1
  | PostProjects req => (Server.post_projects st req now).1
  | PutProjects req => (Server.put_projects st req now).1
  | DeleteProjects req => (Server.delete_projects st req now).1
  | GetSettings req => (Server.get_settings st req now).1
  | PutSettings req => (Server.put_settings st req now).1
  | GetAnalyticsDashboard => (Analytics.get_analytics_dashboard st now).1
  end.

(** The store after a sequence of requests, each served at its instant. *)
Definition serve_all (st : Store) (calls : list (Call * Z)) : Store :=
  foldl (fun st c => serve st c.1 c.2) st calls.

(** The second word of the header is a token that [jwt.verify] accepts
    at [now]. *)
Definition authorized (c : Call) (now : Z) : Prop :=
  exists token claims,
    header c ≫= (fun h => JS.split_on " " h !! 1%nat) = Some token
    /\ Jwt.verify token JWT_SECRET now = Jwt.Decoded claims.
End Serving.

End Api.

(** ** The client: [apiRequest] and [syncWithServer] of [app-fixed.js] *)

Module Client.

Inductive Method := GET | POST | PUT | DELETE.

(** An entry of a cached collection; [id] is [record.id] as the template
    literal of the endpoint spells it. *)
Record Cached := {
  id : string;
  content : JSON
}.

(** What [fetch] is called with. *)
Record Call := {
  method : Method;
  endpoint : string;
  bearer : option string;
  payload : option Cached
}.

(** What [response.json()] yields: an object with its [error] field, or a
    throw with the message of the exception. *)
Inductive Parsed :=
| Json (error : option string)
| NotJson (why : string).

(** What [fetch] yields: a rejection, or a response. *)
Inductive Fetched :=
| Rejected (why : string)
| Responded (status : Z) (parsed : Parsed).

(** What [apiRequest] yields: a value ([null] after a 401) or a throw. *)
Inductive Outcome :=
| Returned (value : option (option string))
| Threw (message : string).

(** The item of [localStorage] under [STORAGE_KEY]. *)
Record LocalData := {
  records : option (list Cached);
  feedback : list Cached;
  projects : list Cached
}.

Inductive Item :=
| Absent
| Unparsable
| Saved (d : LocalData).

(** The fields of the application object that the sweep reads or writes. *)
Record App := {
  isOnline : bool;
  authToken : option string;
  sessionExpiry : option string;
  storage : Item
}.

Definition set_online (a : App) (b : bool) : App :=
  {| isOnline := b; authToken := authToken a;
     sessionExpiry := sessionExpiry a; storage := storage a |}.

(** [logout()] *)
Definition logout (a : App) : App :=
  {| isOnline := isOnline a; authToken := None; sessionExpiry := None;
     storage := storage a |}.

Section Network.
Context {World : Type} (fetch : World -> Call -> World * Fetched).

(** A run: the application, the world beyond it, and the requests made
    so far with their outcomes, oldest first. *)
Record Run := {
  app : App;
  world : World;
  log : list (Call * Outcome)
}.

Definition ok (status : Z) : bool := ((200 <=? status) && (status <=? 299))%Z.

(** [apiRequest(endpoint, { method, body })] *)
Definition apiRequest (r : Run) (endpoint : string) (method : Method)
    (payload : option Cached) : Run * Outcome :=
  let call := {| method := method; endpoint := endpoint;
                 bearer := if JS.truthy (authToken (app r))
                           then authToken (app r) else None;
                 payload := payload |} in
  let '(w, fetched) := fetch (world r) call in
  let '(a, outcome) :=
    match fetched with
    | Rejected why => (app r, Threw why)
    | Responded status parsed =>
        if (status =? 401)%Z then (logout (app r), Returned None)
        else if negb (ok status) then
          match parsed with
          | Json error =>
              (app r,
               Threw (if JS.truthy error then default "" error
                      else "HTTP error! status: " ++ JS.Z_to_string status))
          | NotJson why => (app r, Threw why)
          end
        else
          match parsed with
          | Json error => (app r, Returned (Some error))
          | NotJson why => (app r, Threw why)
          end
    end in
  ({| app := a; world := w; log := log r ++ [(call, outcome)] |}, outcome).

Definition offline (r : Run) : Run :=
  {| app := set_online (app r) false; world := world r; log := log r |}.

Definition online (r : Run) : Run :=
  {| app := set_online (app r) true; world := world r; log := log r |}.

(** The loop over [localData.records || []]: the run after it, and
    whether an exception left it. *)
Fixpoint push (r : Run) (cached : list Cached) : Run * bool :=
  match cached with
  | [] => (r, false)
  | record :: rest =>
      match apiRequest r ("/records/" ++ id record) PUT (Some record) with
      | (r1, Returned _) => push r1 rest
      | (r1, Threw message) =>
          if JS.includes message "not found" then
            match apiRequest r1 "/records" POST (Some record) with
            | (r2, Returned _) => push r2 rest
            | (r2, Threw _) => (r2, true)
            end
          else push r1 rest
      end
  end.

(** [syncWithServer()] *)
Definition syncWithServer (r : Run) : Run :=
  match apiRequest r "/health" GET None with
  | (r1, Threw _) => offline r1
  | (r1, Returned _) =>
      let r2 := online r1 in
      match storage (app r2) with
      | Unparsable => offline r2
      | Absent => r2
      | Saved localData =>
          match push r2 (default [] (records localData)) with
          | (r3, true) => offline r3
          | (r3, false) => r3
          end
      end
  end.

End Network.

End Client.

(** ** The client: the session, [authenticate] and [checkAuthStatus] of
    [app-fixed.js], with the fields that they read of an answer *)

Module Session.

(** What the client reads of the body of an answer: [response.success]
    as a condition, [response.token], [response.expiresAt], and the
    [error] of an answer that is not OK. *)
Record Answer := {
  success : bool;
  token : option string;
  expiresAt : option string;
  error : option string
}.

(** What [response.json()] yields. *)
Inductive Parsed :=
| Json (answer : Answer)
| NotJson (why : string).

(** What [fetch] yields: a rejection, or a response. *)
Inductive Fetched :=
| Rejected (why : string)
| Responded (status : Z) (parsed : Parsed).

(** What [apiRequest] yields: a value ([null] after a 401) or a throw. *)
Inductive Outcome :=
| Returned (value : option Answer)
| Threw (message : string).

(** What [fetch] is called with; the body is [{ password }]. *)
Record Call := {
  method : Client.Method;
  endpoint : string;
  bearer : option string;
  password : option string
}.

Section Network.
Context {World : Type} (fetch : World -> Call -> World * Fetched).

Record Run := {
  app : Client.App;
  world : World
}.

(** The request that [apiRequest] hands to [fetch]. *)
Definition request (r : Run) (endpoint : string) (method : Client.Method)
    (password : option string) : Call :=
  {| method := method; endpoint := endpoint;
     bearer := if JS.truthy (Client.authToken (app r))
               then Client.authToken (app r) else None;
     password := password |}.

(** [apiRequest(endpoint, { method, body })] *)
Definition apiRequest (r : Run) (endpoint : string) (method : Client.Method)
    (password : option string) : Run * Outcome :=
  let '(w, fetched) := fetch (world r) (request r endpoint method password) in
  let '(a, outcome) :=
    match fetched with
    | Rejected why => (app r, Threw why)
    | Responded status parsed =>
        if (status =? 401)%Z then (Client.logout (app r), Returned None)
        else if negb (Client.ok status) then
          match parsed with
          | Json answer =>
              (app r,
               Threw (if JS.truthy (error answer) then default "" (error answer)
                      else "HTTP error! status: " ++ JS.Z_to_string status))
          | NotJson why => (app r, Threw why)
          end
        else
          match parsed with
          | Json answer => (app r, Returned (Some answer))
          | NotJson why => (app r, Threw why)
          end
    end in
  ({| app := a; world := w |}, outcome).

(** The session that a successful login opens. *)
Definition opened (a : Client.App) (response : Answer) : Client.App :=
  {| Client.isOnline := Client.isOnline a;
     Client.authToken := token response;
     Client.sessionExpiry := expiresAt response;
     Client.storage := Client.storage a |}.

(** [authenticate(password)]: a throw of the request, and the one of
    reading [success] off [null], are caught and answered false. *)
Definition authenticate (r : Run) (password : string) : Run * bool :=
  match apiRequest r "/auth/login" Client.POST (Some password) with
  | (r1, Returned (Some response)) =>
      if success response
      then ({| app := opened (app r1) response; world := world r1 |}, true)
      else (r1, false)
  | (r1, Returned None) => (r1, false)
  | (r1, Threw _) => (r1, false)
  end.
End Network.

Section Clock.
(** [new Date(text)], when [text] spells a date. *)
Context (Date_parse : string -> option Z).

(** [checkAuthStatus()] at the instant [now]; a date that is invalid
    compares false with [now]. *)
Definition checkAuthStatus (a : Client.App) (now : Z) : Client.App * bool :=
  if JS.truthy (Client.authToken a) && JS.truthy (Client.sessionExpiry a) then
    match Date_parse (default "" (Client.sessionExpiry a)) with
    | Some expiry =>
        if (now <? expiry)%Z then (a, true) else (Client.logout a, false)
    | None => (Client.logout a, false)
    end
  else (a, false).
End Clock.

End Session.

(** ** The client: the form of a Job, [calculateTotals], [calculateCosts]
    and the quantities of the record that [saveRecord] builds; the id of a
    Project *)

Module Form.

(** The elements of the page: the [value] of each, by its id.  Every
    element that the code reaches for is in the page. *)
Definition t := string -> string.

(** [document.getElementById(id).value = text] *)
Definition set (f : t) (id text : string) : t :=
  fun i => if String.eqb i id then text else f i.

(** The element of the counter of a location. *)
Definition counter (l : recordSchema.Location) : string :=
  match l with
  | recordSchema.bng => "bng-qty"
  | recordSchema.sampling => "sampling-qty"
  | recordSchema.rcc => "rcc-qty"
  | recordSchema.rd => "rd-qty"
  | recordSchema.kaa => "kaa-qty"
  | recordSchema.bom => "bom-qty"
  | recordSchema.other => "other-qty"
  end.

Section Engine.
(** [parseFloat], [x.toFixed(2)] and the spelling of a Number that an
    assignment to [value] makes, as given. *)
Context (parseFloat : string -> JS.Number).
Context (toFixed2 : JS.Number -> string).
Context (toString : JS.Number -> string).

(** [calculateCosts()] *)
Definition calculateCosts (f : t) : t :=
  let printPrice := JS.or_zero (parseFloat (f "print-price")) in
  let hours := JS.or_zero (parseFloat (f "printing-time-hrs")) in
  let electricityCost := JS.mul (JS.mul hours (JS.Fin (3 # 10))) (JS.of_Z 6) in
  let f := set f "electricity-cost" (toFixed2 electricityCost) in
  let printCost := JS.add printPrice electricityCost in
  let f := set f "3d-print-cost" (toFixed2 printCost) in
  let oemCost := JS.or_zero (parseFloat (f "oem-cost")) in
  let savingsPerProduct := JS.sub oemCost printCost in
  let f := set f "savings-per-product" (toFixed2 savingsPerProduct) in
  let totalQty := JS.or_zero (JS.parseInt (f "total-quantity")) in
  let totalSavings := JS.mul totalQty savingsPerProduct in
  set f "total-savings" (toFixed2 totalSavings).

(** [calculateTotals()] *)
Definition calculateTotals (f : t) : t :=
  let quantities :=
    map (fun l => JS.or_zero (JS.parseInt (f (counter l)))) recordSchema.locations in
  let totalQty := foldl JS.add (JS.Fin 0) quantities in
  calculateCosts (set f "total-quantity" (toString totalQty)).

(** [calculateTimeAndCosts()] *)
Definition calculateTimeAndCosts (f : t) : t :=
  let minutes := JS.or_zero (parseFloat (f "printing-time-mins")) in
  let hours := JS.div minutes (JS.of_Z 60) in
  calculateCosts (set f "printing-time-hrs" (toFixed2 hours)).
End Engine.

(** The [quantities] and the [totalQuantity] of the record that
    [saveRecord] builds of the form. *)
Definition quantities (f : t) (l : recordSchema.Location) : JS.Number :=
  JS.or_zero (JS.parseInt (f (counter l))).

Definition totalQuantity (f : t) : JS.Number :=
  JS.parseInt (f "total-quantity").

(** [generateProjectId()]: the text that it writes to the element
    [project-unique-id]; [toString] is the spelling of a Number, as
    given. *)
Definition generateProjectId (toString : JS.Number -> string)
    (projectIdCounter : JS.Number) : string :=
  JS.padStart 5 "0" (toString projectIdCounter).

End Form.

(** ** The vocabulary of the specification *)

Module Spec.

(** The sum of the seven location counters. *)
Definition counters_sum (q : recordSchema.Location -> Q) : Q :=
  foldr (fun l acc => (q l + acc)%Q) 0%Q recordSchema.locations.

(** The two equations between the totals of a Job. *)
Definition totals_hold (q : recordSchema.Location -> Q)
    (totalQuantity savingsPerProduct totalSavings : Q) : Prop :=
  (totalQuantity == counters_sum q)%Q
  /\ (totalSavings == totalQuantity * savingsPerProduct)%Q.

Definition consistent (d : recordSchema.Doc.t) : Prop :=
  totals_hold (recordSchema.Doc.quantities d) (recordSchema.Doc.totalQuantity d)
    (recordSchema.Doc.savingsPerProduct d) (recordSchema.Doc.totalSavings d).

(** The counters a body supplies, an absent one read as 0. *)
Definition sent_counters (b : recordSchema.Body.t) (l : recordSchema.Location) : Q :=
  default 0%Q (recordSchema.Body.quantities b ≫= (fun f => f l)).

(** A request carries a valid admin credential at [now]: the second word
    of its authorization header is a token that [jwt.verify] accepts. *)
Definition valid_credential `{Env} {B} (req : Request B) (now : Z) : Prop :=
  exists token claims,
    authorization req ≫= (fun h => JS.split_on " " h !! 1%nat) = Some token
    /\ Jwt.verify token JWT_SECRET now = Jwt.Decoded claims.

(** A query parameter coerces to the positive integer [n]. *)
Definition coerces_to {B} (req : Request B) (name : string) (dflt : Z) (n : Z) : Prop :=
  JS.as_integer (JS.ToNumber (Query.param req name (JS.VNum (JS.of_Z dflt)))) = Some n
  /\ (0 < n)%Z.

(** The skip and the limit that a list handler hands to the driver. *)
Definition skip_of {B} (req : Request B) : JS.Number :=
  JS.mul (JS.sub (JS.ToNumber (Query.param req "page" (JS.VNum (JS.of_Z 1))))
            (JS.of_Z 1))
    (JS.ToNumber (Query.param req "limit" (JS.VNum (JS.of_Z 100)))).

Definition limit_of {B} (req : Request B) : JS.Number :=
  JS.mul (JS.ToNumber (Query.param req "limit" (JS.VNum (JS.of_Z 100)))) (JS.of_Z 1).

(** The cursor skips a natural number [k] of documents and is limited to
    a positive number [n] of them. *)
Definition cursor {B} (req : Request B) (k n : Z) : Prop :=
  JS.as_integer (skip_of req) = Some k /\ JS.as_integer (limit_of req) = Some n
  /\ (0 <= k)%Z /\ (0 < n)%Z.

(** A response carries a page of documents. *)
Definition is_page (d : Data) : Prop :=
  match d with
  | RecordPage _ _ | FeedbackPage _ _ | ProjectPage _ _ => True
  | _ => False
  end.

(** The slice of a page. *)
Definition slice {A} (page size : Z) (l : list A) : list A :=
  take (Z.to_nat size) (drop (Z.to_nat ((page - 1) * size)) l).

(** [ceil(total / size)] on integers. *)
Definition page_count (total : nat) (size : Z) : Z :=
  (Z.of_nat total + size - 1) / size.


(** A rating is an integer of the closed interval [1,5]. *)
Definition star (rating : option Q) : Prop :=
  exists n : Z, (1 <= n <= 5)%Z /\ exists q, rating = Some q /\ (q == inject_Z n)%Q.

(** *** The sweep, as a trace *)

Definition is_update (record : Client.Cached) (c : Client.Call) : Prop :=
  Client.method c = Client.PUT
  /\ Client.endpoint c = "/records/" ++ Client.id record
  /\ Client.payload c = Some record.

Definition is_create (record : Client.Cached) (c : Client.Call) : Prop :=
  Client.method c = Client.POST
  /\ Client.endpoint c = "/records"
  /\ Client.payload c = Some record.

Definition not_found (o : Client.Outcome) : Prop :=
  exists message, o = Client.Threw message
                  /\ JS.includes message "not found" = true.

Definition threw (o : Client.Outcome) : Prop :=
  exists message, o = Client.Threw message.

(** [Pushed records trace stopped]: [trace] pushes the Jobs [records] in
    order, each by an update-by-id that is followed by a create exactly
    when the update fails with a not-found error; [stopped] tells that the
    trace ends at a create that threw, the later Jobs not being tried. *)
Inductive Pushed : list Client.Cached -> list (Client.Call * Client.Outcome) -> bool -> Prop :=
| pushed_nil : Pushed [] [] false
| pushed_update record rest c o trace stopped :
    is_update record c -> ~ not_found o ->
    Pushed rest trace stopped ->
    Pushed (record :: rest) ((c, o) :: trace) stopped
| pushed_create record rest c o c' o' trace stopped :
    is_update record c -> not_found o ->
    is_create record c' -> ~ threw o' ->
    Pushed rest trace stopped ->
    Pushed (record :: rest) ((c, o) :: (c', o') :: trace) stopped
| pushed_stop record rest c o c' o' :
    is_update record c -> not_found o ->
    is_create record c' -> threw o' ->
    Pushed (record :: rest) [(c, o); (c', o')] true.

End Spec.

(** ** Further vocabulary *)

Module Notions.

(** The characters of markup that [escape] replaces by entities, the
    ampersand apart: the angle brackets, the two quotes, the slash, the
    backslash and the backquote. *)
Definition markup : list ascii :=
  ["<"; ">"; ascii_of_N 34; "'"; "/"; "\"; "`"]%char.

(** A text field as the chain [trim().isLength().escape()] leaves it. *)
Definition cleaned (field : option string) : string :=
  Validator.escape (JS.trim (Validator.text field)).

(** What an update by id does to a collection: [after] holds the ids of
    [before]; no document other than the one addressed has changed; an
    update that is answered 200 has found the document addressed, has
    stamped it with the instant [now], and has set its instant of creation
    to the one that the body carries ([sent], a string that casts to a
    date), or has kept it when the body carries none; any other update has
    changed nothing. *)
Definition rewrites_one `{Libs} {D} (createdAt updatedAt : D -> Z)
    (before after : gmap ObjectId D) (addressed : option ObjectId)
    (sent : option string) (now : Z) (code : Z) : Prop :=
  dom after = dom before
  /\ (forall id, addressed <> Some id -> after !! id = before !! id)
  /\ (code = 200 ->
      exists id old new,
        addressed = Some id /\ before !! id = Some old
        /\ after !! id = Some new /\ updatedAt new = now
        /\ match sent with
           | Some text => castDate text = Some (createdAt new)
           | None => createdAt new = createdAt old
           end)
  /\ (code <> 200 -> after = before).

(** What a filter parameter of a list lets through: any value when the
    parameter is absent or empty, the value of the parameter otherwise. *)
Definition lets_through (wanted : option string) (value : string) : Prop :=
  match wanted with
  | Some (String c w) => value = String c w
  | _ => True
  end.

#[global] Instance lets_through_dec wanted value :
  Decision (lets_through wanted value).
Proof. destruct wanted as [[|c w]|]; cbn; apply _. Defined.

(** The sum of a list of numbers. *)
Definition total (values : list Q) : Q := foldr Qplus 0%Q values.

(** The numbers of a path of the stored Jobs, in the order of their ids. *)
Definition column (path : recordSchema.Doc.t -> Q) (st : Store) : list Q :=
  (fun d => path d.2) <$> map_to_list (Records st).

(** A multiple of [2^-k]. *)
Definition grained (k : N) (v : Q) : Prop :=
  Qden (Qred (v * inject_Z (2 ^ Z.of_N k))) = 1%positive.

(** Numbers that binary64 holds, and adds in any order, without rounding:
    multiples of [2^-k], for a [k] of at most 1074, whose absolute values
    sum to less than [2^(53-k)]. *)
Definition exact (k : N) (values : list Q) : Prop :=
  (k <= 1074)%N
  /\ Forall (grained k) values
  /\ (total (Qabs <$> values) * inject_Z (2 ^ Z.of_N k) < inject_Z (2 ^ 53))%Q.

(** A Number that is the rational [q]. *)
Definition is_rational (n : JS.Number) (q : Q) : Prop :=
  match n with
  | JS.Fin p => (p == q)%Q
  | _ => False
  end.

(** The accumulator of the database adds without rounding the numbers
    that binary64 adds without rounding. *)
Definition sums_exactly `{Libs} : Prop :=
  forall k values,
    exact k values -> is_rational (aggregate_sum values) (total values).

(** *** The client *)

(** The token that the client holds after the requests of [trace], of
    which those answered 401, which [apiRequest] returns null for, take
    the token away. *)
Fixpoint token_after (token : option string)
    (trace : list (Client.Call * Client.Outcome)) : option string :=
  match trace with
  | [] => token
  | (_, Client.Returned None) :: rest => token_after None rest
  | _ :: rest => token_after token rest
  end.

(** Each request of [trace] carries the token that the client holds when
    it is made, if it holds one. *)
Fixpoint carries (token : option string)
    (trace : list (Client.Call * Client.Outcome)) : Prop :=
  match trace with
  | [] => True
  | entry :: rest =>
      Client.bearer entry.1 = (if JS.truthy token then token else None)
      /\ carries (token_after token [entry]) rest
  end.

(** The request that [apiRequest] hands to [fetch]. *)
Definition request_of {World} (r : Client.Run (World := World))
    (endpoint : string) (method : Client.Method)
    (payload : option Client.Cached) : Client.Call :=
  {| Client.method := method; Client.endpoint := endpoint;
     Client.bearer := if JS.truthy (Client.authToken (Client.app r))
                      then Client.authToken (Client.app r) else None;
     Client.payload := payload |}.

(** The body of an answer of the server, as the client reads it;
    [toISOString] spells the instant of [expiresAt]. *)
Definition answer_of (toISOString : Z -> string) (res : Response)
  : Session.Answer :=
  {| Session.success := success res;
     Session.token := match data res with
                      | Token token _ => Some token
                      | _ => None
                      end;
     Session.expiresAt := match data res with
                          | Token _ expiresAt => Some (toISOString expiresAt)
                          | _ => None
                          end;
     Session.error := error res |}.

(** The authorization header that the client builds of its token. *)
Definition header_of (token : option string) : option string :=
  (fun t => "Bearer " ++ t) <$> (if JS.truthy token then token else None).

(** The integer that a counter of the form reads as, and their sum. *)
Definition counted (f : Form.t) (l : recordSchema.Location) : Z :=
  default 0 (JS.as_integer (Form.quantities f l)).

Definition counted_sum (f : Form.t) : Z :=
  foldr (fun l acc => counted f l + acc) 0 recordSchema.locations.

(** A form after any number of recalculations of its costs, by
    [calculateCosts] or by [calculateTimeAndCosts]. *)
Inductive recalculated (parseFloat : string -> JS.Number)
    (toFixed2 : JS.Number -> string) (f : Form.t) : Form.t -> Prop :=
| recalculated_none : recalculated parseFloat toFixed2 f f
| recalculated_costs g :
    recalculated parseFloat toFixed2 f g ->
    recalculated parseFloat toFixed2 f (Form.calculateCosts parseFloat toFixed2 g)
| recalculated_time g :
    recalculated parseFloat toFixed2 f g ->
    recalculated parseFloat toFixed2 f
      (Form.calculateTimeAndCosts parseFloat toFixed2 g).

End Notions.

(** ** A concrete deployment, for the worked scenarios *)

Module Sample.

(** The environment of the setup guide. *)
#[local] Instance env : Env := {|
  JWT_SECRET := "your-super-secret-jwt-key-change-this-in-production";
  ADMIN_PASSWORD_HASH :=
    "$2a$10$pQ59TWukD2oB/xe06HI/jeol3WfNbr8C99O8eo1pTGmqh3hOhbDty"
|}.

(** An ObjectId is spelt by 24 hexadecimal digits. *)
Definition hex24 (s : string) : option ObjectId :=
  match JS.read_digits 16 s 0%N 0%nat with
  | (n, 24%nat, EmptyString) => Some n
  | _ => None
  end.

Definition known_date (s : string) : option Z :=
  if String.eqb s "2024-01-15" then Some 1705276800000
  else if String.eqb s "2024-06-30" then Some 1719705600000
  else None.

(** Libraries that agree with the real ones on the inputs of the
    scenarios: the hash of the guide is that of its password, the dates
    are ISO dates, the driver throws on a cursor it is not specified on. *)
#[local] Instance libs : Libs := {|
  bcrypt_compare := fun password hash =>
    String.eqb password "3dprinter@aqrl"
    && String.eqb hash "$2a$10$pQ59TWukD2oB/xe06HI/jeol3WfNbr8C99O8eo1pTGmqh3hOhbDty";
  isEmail := Regex.test feedbackSchema.email_match;
  normalizeEmail := fun s => s;
  isISO8601 := fun s => bool_decide (is_Some (known_date s));
  toDate := known_date;
  castDate := known_date;
  castObjectId := hex24;
  cursor_other := fun _ _ _ _ => None;
  sort_other := fun _ _ _ l => l;
  aggregate_sum := fun values => JS.Fin (Qred (foldr Qplus 0%Q values))
|}.

Definition empty : Store :=
  {| Records := ∅; Feedback := ∅; Project := ∅; Settings := ∅; AuthLog := [] |}.

(** The administrator logs in at [login_at]; [admin] is the header that
    carries the token of the response. *)
Definition login_at : Z := 1705312800500.

Definition token : string :=
  Jwt.sign "admin" login_at JWT_SECRET 3600 login_at.

Definition admin : option string := Some ("Bearer " ++ token).

Definition request {B} (auth : option string) (id : string)
    (q : list (string * string)) (b : B) : Request B :=
  {| authorization := auth; ip := "10.0.0.7"; userAgent := Some "curl/8.5";
     params_id := id; query := list_to_map q; body := b; user := None |}.

(** The requests of the scenarios. *)
Definition login (password : string) : Request (option string) :=
  request None "" [] (Some password).

Definition verification : Request unit := request admin "" [] tt.

Definition fractional_page : Request unit :=
  request None "" [("page", "1.5"); ("limit", "2")] tt.


Definition delete_second : Request unit :=
  request admin "000000000000000000000001" [] tt.

Definition investment : gmap string JSON := {[ "investment" := JNum 700000 ]}.

Definition write_investment (auth : option string)
  : Request (option (gmap string JSON)) :=
  request auth "" [] (Some investment).

(** One unit at Bangalore, declared as a total of five. *)
Definition one_at_bng (l : recordSchema.Location) : option Q :=
  match l with
  | recordSchema.bng => Some 1%Q
  | _ => Some 0%Q
  end.

Definition bracket : recordSchema.Body.t :=
  {| recordSchema.Body.date := Some "2024-01-15";
     recordSchema.Body.projectName := Some "Conveyor";
     recordSchema.Body.partType := Some "Bracket";
     recordSchema.Body.partSize := Some "Small";
     recordSchema.Body.partName := Some "Widget A";
     recordSchema.Body.application := Some "Line 3 guide";
     recordSchema.Body.sharepointLink := None;
     recordSchema.Body.materialUsed := Some "PLA";
     recordSchema.Body.machineName := Some "Ender 3";
     recordSchema.Body.printingTimeMins := Some 120%Q;
     recordSchema.Body.printingTimeHrs := Some 2%Q;
     recordSchema.Body.printPrice := Some 50%Q;
     recordSchema.Body.electricityCost := Some (18 # 5)%Q;
     recordSchema.Body.printCost := Some (268 # 5)%Q;
     recordSchema.Body.oemCost := Some (318 # 5)%Q;
     recordSchema.Body.savingsPerProduct := Some 10%Q;
     recordSchema.Body.status := Some "completed";
     recordSchema.Body.category := Some "production";
     recordSchema.Body.quantities := Some one_at_bng;
     recordSchema.Body.totalQuantity := Some 5%Q;
     recordSchema.Body.totalSavings := Some 0%Q;
     recordSchema.Body.image := None;
     recordSchema.Body.createdAt := None |}.

Definition create_bracket (auth : option string) : Request recordSchema.Body.t :=
  request auth "" [] bracket.

Definition update_bracket : Request recordSchema.Body.t :=
  request admin "000000000000000000000000" [] bracket.

Definition praise (rating : option Q) : feedbackSchema.Body.t :=
  {| feedbackSchema.Body.name := Some "Asha";
     feedbackSchema.Body.partName := None;
     feedbackSchema.Body.email := Some "asha@example.com";
     feedbackSchema.Body.location := Some "Bangalore";
     feedbackSchema.Body.category := Some "general";
     feedbackSchema.Body.subject := Some "Brackets";
     feedbackSchema.Body.message := Some "They fit.";
     feedbackSchema.Body.rating := rating;
     feedbackSchema.Body.image := None;
     feedbackSchema.Body.status := None;
     feedbackSchema.Body.createdAt := None;
     feedbackSchema.Body.updatedAt := None |}.

Definition send_praise (rating : option Q) : Request feedbackSchema.Body.t :=
  request None "" [] (praise rating).

Definition record_at (created : Z) : recordSchema.Doc.t :=
  {| recordSchema.Doc.date := 1705276800000;
     recordSchema.Doc.projectName := "Conveyor";
     recordSchema.Doc.partType := "Bracket";
     recordSchema.Doc.partSize := "Small";
     recordSchema.Doc.partName := "Widget A";
     recordSchema.Doc.application := "Line 3 guide";
     recordSchema.Doc.sharepointLink := None;
     recordSchema.Doc.materialUsed := "PLA";
     recordSchema.Doc.machineName := "Ender 3";
     recordSchema.Doc.printingTimeMins := 120;
     recordSchema.Doc.printingTimeHrs := 2;
     recordSchema.Doc.printPrice := 50;
     recordSchema.Doc.electricityCost := 18 # 5;
     recordSchema.Doc.printCost := 268 # 5;
     recordSchema.Doc.oemCost := 318 # 5;
     recordSchema.Doc.savingsPerProduct := 10;
     recordSchema.Doc.status := "completed";
     recordSchema.Doc.category := "production";
     recordSchema.Doc.quantities := fun _ => 1%Q;
     recordSchema.Doc.totalQuantity := 7;
     recordSchema.Doc.totalSavings := 70;
     recordSchema.Doc.image := None;
     recordSchema.Doc.createdAt := created;
     recordSchema.Doc.updatedAt := created |}.

(** A store with the records created at the instants [1000], [2000], ...
    under the ids [0], [1], ... *)
Definition with_records (n : nat) : Store :=
  {| Records := list_to_map
                  (imap (fun i _ => (N.of_nat i, record_at (1000 * (Z.of_nat i + 1))))
                     (replicate n tt));
     Feedback := ∅; Project := ∅; Settings := ∅; AuthLog := [] |}.

(** The settings after the counter of project ids has been saved. *)
Definition counted : Store :=
  {| Records := ∅; Feedback := ∅; Project := ∅;
     Settings := {[ "projectIdCounter" :=
                      {| settingsSchema.value := JNum 12;
                         settingsSchema.description := None;
                         settingsSchema.updatedAt := 1705000000000 |} ]};
     AuthLog := [] |}.

(** The sweep against a server that knows none of the cached Jobs and
    refuses to create them. *)
Definition job (i : string) : Client.Cached :=
  {| Client.id := i; Client.content := JNull |}.

Definition refusing (w : unit) (c : Client.Call) : unit * Client.Fetched :=
  (w, match Client.method c with
      | Client.GET => Client.Responded 200 (Client.Json None)
      | Client.PUT => Client.Responded 404 (Client.Json (Some "Record not found"))
      | _ => Client.Responded 400 (Client.Json (Some "Validation failed"))
      end).

(** A server that knows none of the cached Jobs and creates them. *)
Definition welcoming (w : unit) (c : Client.Call) : unit * Client.Fetched :=
  (w, match Client.method c with
      | Client.PUT => Client.Responded 404 (Client.Json (Some "Record not found"))
      | Client.POST => Client.Responded 201 (Client.Json None)
      | _ => Client.Responded 200 (Client.Json None)
      end).

Definition pending : list Client.Cached :=
  [job "1705300000001"; job "1705300000002"].

Definition two_pending : Client.Run (World := unit) :=
  {| Client.app :=
       {| Client.isOnline := false; Client.authToken := Some token;
          Client.sessionExpiry := Some "2024-01-15T11:00:00.500Z";
          Client.storage :=
            Client.Saved {| Client.records := Some pending;
                            Client.feedback := [job "1705300000003"];
                            Client.projects := [job "00012"] |} |};
     Client.world := tt;
     Client.log := [] |}.

(** The sweep, and the run after its probe. *)
Definition swept : Client.Run := Client.syncWithServer refusing two_pending.

Definition probed : Client.Run :=
  (Client.apiRequest refusing two_pending "/health" Client.GET None).1.

(** *** Further scenarios *)

(** The claims of [token]. *)
Definition claims : Jwt.Payload :=
  {| Jwt.role := "admin"; Jwt.timestamp := login_at;
     Jwt.iat := login_at / 1000; Jwt.exp := login_at / 1000 + 3600 |}.

(** A handler that acknowledges whatever reaches it. *)
Definition acknowledge : Handler unit :=
  fun st _ _ => (st, reply 200 None NoData).

(** The token sent under another scheme, and sent bare. *)
Definition basic : Request unit :=
  request (Some ("Basic " ++ token)) "" [] tt.

Definition bare : Request unit := request (Some token) "" [] tt.

(** The Job [bracket] under another project name and application. *)
Definition job_named (name application : string) : recordSchema.Body.t :=
  {| recordSchema.Body.date := recordSchema.Body.date bracket;
     recordSchema.Body.projectName := Some name;
     recordSchema.Body.partType := recordSchema.Body.partType bracket;
     recordSchema.Body.partSize := recordSchema.Body.partSize bracket;
     recordSchema.Body.partName := recordSchema.Body.partName bracket;
     recordSchema.Body.application := Some application;
     recordSchema.Body.sharepointLink := recordSchema.Body.sharepointLink bracket;
     recordSchema.Body.materialUsed := recordSchema.Body.materialUsed bracket;
     recordSchema.Body.machineName := recordSchema.Body.machineName bracket;
     recordSchema.Body.printingTimeMins := recordSchema.Body.printingTimeMins bracket;
     recordSchema.Body.printingTimeHrs := recordSchema.Body.printingTimeHrs bracket;
     recordSchema.Body.printPrice := recordSchema.Body.printPrice bracket;
     recordSchema.Body.electricityCost := recordSchema.Body.electricityCost bracket;
     recordSchema.Body.printCost := recordSchema.Body.printCost bracket;
     recordSchema.Body.oemCost := recordSchema.Body.oemCost bracket;
     recordSchema.Body.savingsPerProduct := recordSchema.Body.savingsPerProduct bracket;
     recordSchema.Body.status := recordSchema.Body.status bracket;
     recordSchema.Body.category := recordSchema.Body.category bracket;
     recordSchema.Body.quantities := recordSchema.Body.quantities bracket;
     recordSchema.Body.totalQuantity := recordSchema.Body.totalQuantity bracket;
     recordSchema.Body.totalSavings := recordSchema.Body.totalSavings bracket;
     recordSchema.Body.image := recordSchema.Body.image bracket;
     recordSchema.Body.createdAt := None |}.

(** The Job [bracket] under an instant of creation of the body's. *)
Definition backdated : recordSchema.Body.t :=
  {| recordSchema.Body.date := recordSchema.Body.date bracket;
     recordSchema.Body.projectName := recordSchema.Body.projectName bracket;
     recordSchema.Body.partType := recordSchema.Body.partType bracket;
     recordSchema.Body.partSize := recordSchema.Body.partSize bracket;
     recordSchema.Body.partName := recordSchema.Body.partName bracket;
     recordSchema.Body.application := recordSchema.Body.application bracket;
     recordSchema.Body.sharepointLink := recordSchema.Body.sharepointLink bracket;
     recordSchema.Body.materialUsed := recordSchema.Body.materialUsed bracket;
     recordSchema.Body.machineName := recordSchema.Body.machineName bracket;
     recordSchema.Body.printingTimeMins := recordSchema.Body.printingTimeMins bracket;
     recordSchema.Body.printingTimeHrs := recordSchema.Body.printingTimeHrs bracket;
     recordSchema.Body.printPrice := recordSchema.Body.printPrice bracket;
     recordSchema.Body.electricityCost := recordSchema.Body.electricityCost bracket;
     recordSchema.Body.printCost := recordSchema.Body.printCost bracket;
     recordSchema.Body.oemCost := recordSchema.Body.oemCost bracket;
     recordSchema.Body.savingsPerProduct := recordSchema.Body.savingsPerProduct bracket;
     recordSchema.Body.status := recordSchema.Body.status bracket;
     recordSchema.Body.category := recordSchema.Body.category bracket;
     recordSchema.Body.quantities := recordSchema.Body.quantities bracket;
     recordSchema.Body.totalQuantity := recordSchema.Body.totalQuantity bracket;
     recordSchema.Body.totalSavings := recordSchema.Body.totalSavings bracket;
     recordSchema.Body.image := recordSchema.Body.image bracket;
     recordSchema.Body.createdAt := Some "2024-01-15" |}.

Definition update_backdated : Request recordSchema.Body.t :=
  request admin "000000000000000000000000" [] backdated.

(** The delete of a Job under the id that the client has cached it
    under, the instant of its creation in milliseconds. *)
Definition delete_local : Request unit := request admin "1705300000001" [] tt.

(** A name and an application that carry markup. *)
Definition create_tagged : Request recordSchema.Body.t :=
  request admin "" [] (job_named " <b>Conveyor</b> " "<i>Line 3</i>").

(** A name of 99 characters, two of them ampersands. *)
Definition long_name : string :=
  "Bracket & housing for the conveyor of line 3, second revision, agreed with R&D and with maintenance".

Definition create_long_named : Request recordSchema.Body.t :=
  request admin "000000000000000000000000" [] (job_named long_name "Line 3 guide").

(** A list request without parameters, and the delete of the first id. *)
Definition list_all : Request unit := request None "" [] tt.

Definition delete_first : Request unit :=
  request admin "000000000000000000000000" [] tt.

(** Requests of a visitor who holds no credential: a create and a delete
    of Jobs without a header, a delete under a forged token, a delete
    under the token of the administrator two hours after the login, a
    login under a guessed password, and a praise. *)
Definition two_hours_later : Z := login_at + 7200000.

Definition intrusion : list (Api.Call * Z) :=
  [(Api.PostRecords (create_bracket None), login_at);
   (Api.DeleteRecords (request None "000000000000000000000000" [] tt), login_at);
   (Api.DeleteRecords (request (Some "Bearer forged") "000000000000000000000000" [] tt),
    login_at);
   (Api.DeleteRecords delete_first, two_hours_later);
   (Api.PostAuthLogin (login "guess"), login_at);
   (Api.PostFeedback (send_praise (Some 5%Q)), login_at)].

(** A server for which the token of the client has expired: the probe is
    answered, every other request is refused with 401. *)
Definition expiring (w : unit) (c : Client.Call) : unit * Client.Fetched :=
  (w, match Client.method c with
      | Client.GET => Client.Responded 200 (Client.Json None)
      | _ => Client.Responded 401 (Client.Json (Some "Invalid or expired token"))
      end).

(** A server that does not know the route of the update and answers it
    with a bare 404. *)
Definition routeless (w : unit) (c : Client.Call) : unit * Client.Fetched :=
  (w, match Client.method c with
      | Client.GET => Client.Responded 200 (Client.Json None)
      | Client.PUT => Client.Responded 404 (Client.Json None)
      | _ => Client.Responded 201 (Client.Json None)
      end).

(** Three opinions, two of them new, and the list of the new ones. *)
Definition opinion (status : string) (created : Z) : feedbackSchema.Doc.t :=
  {| feedbackSchema.Doc.name := "Asha";
     feedbackSchema.Doc.partName := None;
     feedbackSchema.Doc.email := "asha@example.com";
     feedbackSchema.Doc.location := "Bangalore";
     feedbackSchema.Doc.category := "general";
     feedbackSchema.Doc.subject := "Brackets";
     feedbackSchema.Doc.message := "They fit.";
     feedbackSchema.Doc.rating := 5;
     feedbackSchema.Doc.image := None;
     feedbackSchema.Doc.status := status;
     feedbackSchema.Doc.createdAt := created;
     feedbackSchema.Doc.updatedAt := created |}.

Definition opinions : Store :=
  {| Records := ∅;
     Feedback := list_to_map [(0%N, opinion "new" 1000);
                              (1%N, opinion "resolved" 2000);
                              (2%N, opinion "new" 3000)];
     Project := ∅; Settings := ∅; AuthLog := [] |}.

Definition list_new : Request unit := request None "" [("status", "new")] tt.

(** Libraries whose [isEmail] accepts whatever holds an at sign, as the
    real one accepts top-level domains of any length. *)
#[local] Instance lenient : Libs := {|
  bcrypt_compare := bcrypt_compare (Libs := libs);
  isEmail := fun s => JS.includes s "@";
  normalizeEmail := fun s => s;
  isISO8601 := isISO8601 (Libs := libs);
  toDate := known_date;
  castDate := known_date;
  castObjectId := hex24;
  cursor_other := fun _ _ _ _ => None;
  sort_other := fun _ _ _ l => l;
  aggregate_sum := fun values => JS.Fin (Qred (foldr Qplus 0%Q values))
|}.

(** A praise from an address under a top-level domain of four letters. *)
Definition praise_from (email : string) : Request feedbackSchema.Body.t :=
  request None "" []
    {| feedbackSchema.Body.name := Some "Asha";
       feedbackSchema.Body.partName := None;
       feedbackSchema.Body.email := Some email;
       feedbackSchema.Body.location := Some "Bangalore";
       feedbackSchema.Body.category := Some "general";
       feedbackSchema.Body.subject := Some "Brackets";
       feedbackSchema.Body.message := Some "They fit.";
       feedbackSchema.Body.rating := Some 5%Q;
       feedbackSchema.Body.image := None;
       feedbackSchema.Body.status := None;
       feedbackSchema.Body.createdAt := None;
       feedbackSchema.Body.updatedAt := None |}.

(** The list in the order [DESC], in capitals. *)
Definition list_capitals : Request unit :=
  request None "" [("sortOrder", "DESC")] tt.

(** The wire between the client and the login route of the server, over
    the empty store at the instant of the login. *)
Definition iso (z : Z) : string :=
  if (z =? 1705316400500)%Z then "2024-01-15T11:00:00.500Z"
  else JS.Z_to_string z.

Definition answered (c : Session.Call) : Response :=
  (Server.post_auth_login empty (request None "" [] (Session.password c)) login_at).2.

Definition wire (w : unit) (c : Session.Call) : unit * Session.Fetched :=
  (w, Session.Responded (status (answered c))
        (Session.Json (Notions.answer_of iso (answered c)))).

(** A client that holds the session of an earlier login, and one that
    holds none. *)
Definition in_session : Session.Run (World := unit) :=
  {| Session.app := Client.app two_pending; Session.world := tt |}.

Definition fresh_client : Session.Run (World := unit) :=
  {| Session.app :=
       {| Client.isOnline := true; Client.authToken := None;
          Client.sessionExpiry := None; Client.storage := Client.Absent |};
     Session.world := tt |}.

Definition date_of (text : string) : option Z :=
  if String.eqb text "2024-01-15T11:00:00.500Z" then Some 1705316400500 else None.

(** The form of a Job as a user has filled it: three pieces at
    Bangalore, [2 pcs] at RCC, a word at KAA, and a stale total. *)
Definition entered : Form.t :=
  fun id =>
    if String.eqb id "bng-qty" then "3"
    else if String.eqb id "rcc-qty" then "2 pcs"
    else if String.eqb id "kaa-qty" then "many"
    else if String.eqb id "total-quantity" then "99"
    else "".

(** Stand-ins for the functions of the engine: the spelling is that of
    the integers, which is all that the scenario looks at. *)
Definition spelt (n : JS.Number) : string :=
  match JS.as_integer n with
  | Some z => JS.Z_to_string z
  | None => "NaN"
  end.

Definition fixed (n : JS.Number) : string := spelt (JS.ceil n) ++ ".00".

(** The wire between the sweep and the server, over the empty store: the
    probe is answered, an update is served by the update route under the
    id that ends its path, and any other request is not routed. *)
Definition path_id (endpoint : string) : string :=
  String.substring 9 (String.length endpoint - 9) endpoint.

Definition updated (c : Client.Call) : Response :=
  (Server.put_records empty
     (request (Notions.header_of (Client.bearer c)) (path_id (Client.endpoint c)) []
        bracket)
     login_at).2.

Definition serving (w : unit) (c : Client.Call) : unit * Client.Fetched :=
  (w, match Client.method c with
      | Client.GET => Client.Responded 200 (Client.Json None)
      | Client.PUT => Client.Responded (status (updated c)) (Client.Json (error (updated c)))
      | _ => Client.Responded 404 (Client.Json (Some "Not Found"))
      end).

End Sample.

(** * Properties *)

(** ** The embedding on concrete inputs *)

Example number_of_a_fraction : JS.StringToNumber "1.5" = JS.Fin (3 # 2).
Proof. vm_compute. reflexivity. Qed.

Example number_of_padded_digits : JS.StringToNumber " 12 " = JS.Fin 12.
Proof. vm_compute. reflexivity. Qed.

Example number_of_letters : JS.StringToNumber "abc" = JS.NaN.
Proof. vm_compute. reflexivity. Qed.

Example number_of_an_exponent : JS.StringToNumber "2e-1" = JS.Fin (1 # 5).
Proof. vm_compute. reflexivity. Qed.

Example number_of_hexadecimal : JS.StringToNumber "0x1f" = JS.Fin 31.
Proof. vm_compute. reflexivity. Qed.

Example number_of_a_lone_point : JS.StringToNumber "." = JS.NaN.
Proof. vm_compute. reflexivity. Qed.

Example parseInt_of_a_fraction : JS.parseInt "1.5" = JS.Fin 1.
Proof. vm_compute. reflexivity. Qed.

Example split_of_a_header : JS.split_on " " "Bearer abc" = ["Bearer"; "abc"].
Proof. vm_compute. reflexivity. Qed.

Example includes_not_found : JS.includes "Record not found" "not found" = true.
Proof. vm_compute. reflexivity. Qed.

Example includes_is_case_sensitive : JS.includes "Not Found" "not found" = false.
Proof. vm_compute. reflexivity. Qed.

Example trim_keeps_the_inside : JS.trim "  a b  " = "a b".
Proof. vm_compute. reflexivity. Qed.

Example email_matches :
  Regex.test feedbackSchema.email_match "asha.k@example.co.in" = true
  /\ Regex.test feedbackSchema.email_match "asha@example" = false
  /\ Regex.test feedbackSchema.email_match "asha@example.comm" = false.
Proof. vm_compute. auto. Qed.

Example token_until_expiry :
  Jwt.verify (Jwt.sign "admin" 5000 "k e.y" 3600 5000) "k e.y" 3604999
  = Jwt.Decoded {| Jwt.role := "admin"; Jwt.timestamp := 5000;
                   Jwt.iat := 5; Jwt.exp := 3605 |}
  /\ Jwt.verify (Jwt.sign "admin" 5000 "k e.y" 3600 5000) "k e.y" 3605000
     = Jwt.TokenExpiredError
  /\ Jwt.verify (Jwt.sign "admin" 5000 "k e.y" 3600 5000) "other" 3604999
     = Jwt.JsonWebTokenError.
Proof. vm_compute. auto. Qed.

(** The scenario of the reconciliation: the update of each cached Job is
    answered not-found, the create that follows succeeds, and the flag ends
    true. *)
Example sweep_creates_what_the_server_lacks :
  Client.isOnline (Client.app (Client.syncWithServer Sample.welcoming Sample.two_pending))
  = true
  /\ (fun e => (Client.method e.1, Client.endpoint e.1))
       <$> Client.log (Client.syncWithServer Sample.welcoming Sample.two_pending)
     = [(Client.GET, "/health");
        (Client.PUT, "/records/1705300000001"); (Client.POST, "/records");
        (Client.PUT, "/records/1705300000002"); (Client.POST, "/records")].
Proof. vm_compute. auto. Qed.

(** ** Strings and tokens *)

Section Strings.

Lemma lacks_app sep a b :
  JS.lacks sep (a ++ b) = JS.lacks sep a && JS.lacks sep b.
Proof.
  induction a as [|c a IH]; simpl; [reflexivity|].
  rewrite IH. now rewrite andb_assoc.
Qed.

Lemma split_on_lacks sep s :
  JS.lacks sep s = true -> JS.split_on sep s = [s].
Proof.
  induction s as [|c s IH]; simpl; [reflexivity|].
  intros [Hc Hs]%andb_prop. apply negb_true_iff in Hc.
  rewrite Hc, (IH Hs). reflexivity.
Qed.

Lemma split_on_app sep a b :
  JS.lacks sep a = true ->
  JS.split_on sep (a ++ String sep b) = a :: JS.split_on sep b.
Proof.
  induction a as [|c a IH]; simpl.
  - intros _. now rewrite Ascii.eqb_refl.
  - intros [Hc Ha]%andb_prop. apply negb_true_iff in Hc.
    rewrite Hc, (IH Ha). reflexivity.
Qed.

Lemma hex_digit_in n :
  JS.digit_in 16 (Jwt.hex_digit n) = Some (N.min n 15).
Proof.
  destruct n as [|p]; [reflexivity|].
  do 4 (destruct p as [p|p|]; try reflexivity).
Qed.

Lemma lacks_hex sep s :
  JS.digit_in 16 sep = None -> JS.lacks sep (Jwt.hex s) = true.
Proof.
  intros Hsep.
  assert (Hd : forall n, Ascii.eqb (Jwt.hex_digit n) sep = false).
  { intros n. apply Ascii.eqb_neq. intros E.
    pose proof (hex_digit_in n) as Hn. rewrite E, Hsep in Hn. discriminate. }
  induction s as [|c s IH]; simpl; [reflexivity|].
  now rewrite !Hd, IH.
Qed.

Lemma unhex_hex s : Jwt.unhex (Jwt.hex s) = Some s.
Proof.
  induction s as [|c s IH]; simpl; [reflexivity|].
  rewrite !hex_digit_in, IH. f_equal. f_equal.
  destruct c as [[] [] [] [] [] [] [] []]; reflexivity.
Qed.

Lemma Z_of_to_string z : JS.Z_of_string (JS.Z_to_string z) = Some z.
Proof.
  unfold JS.Z_of_string, JS.Z_to_string.
  rewrite NilEmpty.isi. simpl. now rewrite DecimalZ.of_to.
Qed.

Lemma lacks_uint sep d :
  JS.digit_in 10 sep = None -> JS.lacks sep (NilEmpty.string_of_uint d) = true.
Proof.
  intros Hsep.
  induction d as [|d IH|d IH|d IH|d IH|d IH|d IH|d IH|d IH|d IH|d IH];
    cbn [NilEmpty.string_of_uint JS.lacks]; [reflexivity|..];
    rewrite IH, andb_true_r;
    apply negb_true_iff, Ascii.eqb_neq; intros <-; discriminate.
Qed.

(** A character that is neither a decimal digit nor the minus sign does
    not occur in the spelling of an integer. *)
Lemma lacks_decimal sep z :
  JS.digit_in 10 sep = None -> sep <> "-"%char ->
  JS.lacks sep (JS.Z_to_string z) = true.
Proof.
  intros Hd Hm. unfold JS.Z_to_string.
  destruct (Z.to_int z) as [d|d]; cbn [NilEmpty.string_of_int JS.lacks].
  - now apply lacks_uint.
  - rewrite lacks_uint by assumption. rewrite andb_true_r.
    apply negb_true_iff, Ascii.eqb_neq. congruence.
Qed.

End Strings.

Section Tokens.

Lemma append_cons x (a b : string) : String x a ++ b = String x (a ++ b).
Proof. reflexivity. Qed.

Lemma append_nil (a : string) : "" ++ a = a.
Proof. reflexivity. Qed.

Lemma append_assoc (a b c : string) : (a ++ b) ++ c = a ++ b ++ c.
Proof.
  induction a as [|x a IH]; [reflexivity|].
  rewrite !append_cons. now f_equal.
Qed.

Lemma split_claims a b c d e :
  JS.lacks "." a = true -> JS.lacks "." b = true -> JS.lacks "." c = true ->
  JS.lacks "." d = true -> JS.lacks "." e = true ->
  JS.split_on "." ((a ++ "." ++ b ++ "." ++ c ++ "." ++ d) ++ "." ++ e)
  = [a; b; c; d; e].
Proof.
  intros Ha Hb Hc Hd He.
  rewrite !append_assoc, !append_cons, !append_nil.
  rewrite !split_on_app by assumption.
  now rewrite split_on_lacks.
Qed.

(** [jwt.verify] on a token that [secret] has signed: the claims come
    back until the expiry, in whole seconds, is reached. *)
Lemma verify_encode secret p now :
  Jwt.verify (Jwt.encode secret p) secret now
  = if (Jwt.exp p <=? now / 1000)%Z then Jwt.TokenExpiredError
    else Jwt.Decoded p.
Proof.
  unfold Jwt.verify, Jwt.encode, Jwt.claims_text.
  rewrite split_claims;
    try (apply lacks_hex; reflexivity);
    try (apply lacks_decimal; [reflexivity | discriminate]).
  rewrite unhex_hex, !Z_of_to_string, String.eqb_refl.
  destruct p; reflexivity.
Qed.

Lemma encode_lacks_space secret p : JS.lacks " " (Jwt.encode secret p) = true.
Proof.
  unfold Jwt.encode, Jwt.claims_text, Jwt.digest.
  rewrite !lacks_app.
  rewrite !lacks_hex by reflexivity.
  rewrite !lacks_decimal by (reflexivity || discriminate).
  reflexivity.
Qed.

Lemma encode_not_empty secret p : Jwt.encode secret p <> "".
Proof.
  unfold Jwt.encode, Jwt.claims_text. destruct (Jwt.hex (Jwt.role p)); discriminate.
Qed.

(** The header [Bearer <token>] yields the token back. *)
Lemma second_word token :
  JS.lacks " " token = true ->
  JS.split_on " " ("Bearer " ++ token) !! 1%nat = Some token.
Proof.
  intros Ht. change ("Bearer " ++ token) with ("Bearer" ++ String " " token).
  rewrite split_on_app by reflexivity.
  now rewrite split_on_lacks.
Qed.

End Tokens.

(** ** The credential check *)

Section Credential.
Context `{Env} `{Libs}.

(** [authenticateToken] lets a request through exactly when it carries a
    valid credential, and answers 401 otherwise. *)
Lemma authenticateToken_cases {B} (req : Request B) now :
  (exists claims, Server.authenticateToken req now = inr claims
                  /\ Spec.valid_credential req now)
  \/ (~ Spec.valid_credential req now
      /\ exists reason, Server.authenticateToken req now = inl (failure 401 reason)).
Proof.
  unfold Server.authenticateToken, Server.bearer_token, Spec.valid_credential.
  destruct (authorization req) as [[|c h]|] eqn:Hauth; cbn [JS.truthy negb default from_option id mbind option_bind].
  - right. split; [|eauto]. intros (t & p & Ht & _). discriminate.
  - destruct (JS.split_on " " (String c h) !! 1%nat) as [[|a t]|] eqn:Hw;
      cbn [JS.truthy negb default from_option]; unfold id.
    + right. split; [|eauto]. intros (t & p & Ht & Hv).
      injection Ht as <-. discriminate.
    + destruct (Jwt.verify (String a t) JWT_SECRET now) as [p| |] eqn:Hv.
      * left. exists p. split; [reflexivity|]. exists (String a t), p. eauto.
      * right. split; [|eauto]. intros (t' & p & Ht & Hv').
        injection Ht as <-. congruence.
      * right. split; [|eauto]. intros (t' & p & Ht & Hv').
        injection Ht as <-. congruence.
    + right. split; [|eauto]. intros (t & p & Ht & _). discriminate.
  - right. split; [|eauto]. intros (t & p & Ht & _). discriminate.
Qed.

Lemma protected_rejects {B} (h : Handler B) st req now :
  ~ Spec.valid_credential req now ->
  exists reason, Server.protected h st req now = (st, failure 401 reason).
Proof.
  intros Hno. unfold Server.protected.
  destruct (authenticateToken_cases req now) as [(p & _ & Hv)|(_ & r & ->)];
    [contradiction | eauto].
Qed.

Lemma protected_accepts {B} (h : Handler B) st req now :
  Spec.valid_credential req now ->
  exists claims, Server.authenticateToken req now = inr claims
                 /\ Server.protected h st req now = h st (with_user req claims) now.
Proof.
  intros Hyes. unfold Server.protected.
  destruct (authenticateToken_cases req now) as [(p & Hp & _)|(Hno & _)];
    [|contradiction].
  exists p. now rewrite Hp.
Qed.

(** The header of a client that holds the token of a login made at
    [issued] is a valid credential until the token expires. *)
Lemma login_token_valid {B} (req : Request B) issued now :
  authorization req = Some ("Bearer " ++ Jwt.sign "admin" issued JWT_SECRET 3600 issued) ->
  (now / 1000 < issued / 1000 + 3600)%Z ->
  Spec.valid_credential req now.
Proof.
  intros Hauth Hnow. unfold Spec.valid_credential.
  eexists _, _. rewrite Hauth. unfold Jwt.sign. cbn [mbind option_bind].
  rewrite second_word by apply encode_lacks_space.
  split; [reflexivity|]. rewrite verify_encode. cbn [Jwt.exp].
  destruct (Z.leb_spec (issued / 1000 + 3600) (now / 1000)); [lia | reflexivity].
Qed.

(** The header [Bearer <token>] with a token that [jwt.verify] rejects. *)
Lemma authenticate_rejected_token {B} (req : Request B) token now :
  authorization req = Some ("Bearer " ++ token) ->
  token <> "" -> JS.lacks " " token = true ->
  (forall claims, Jwt.verify token JWT_SECRET now <> Jwt.Decoded claims) ->
  Server.authenticateToken req now = inl (failure 401 "Invalid or expired token").
Proof.
  intros Hauth Hne Hsp Hbad.
  unfold Server.authenticateToken, Server.bearer_token.
  rewrite Hauth, !append_cons, append_nil. cbn [JS.truthy].
  change (String "B" (String "e" (String "a" (String "r" (String "e" (String "r"
            (String " " token)))))))
    with ("Bearer " ++ token).
  rewrite second_word by assumption.
  destruct token as [|c t]; [congruence|].
  cbn [JS.truthy negb default from_option]. unfold id.
  destruct (Jwt.verify (String c t) JWT_SECRET now) as [p| |] eqn:Hv;
    [now contradiction (Hbad p) | reflexivity | reflexivity].
Qed.

End Credential.

(** ** Login and verification *)

Section Login.
Context `{Env} `{Libs}.

(** The claims of the token of a login made at [issued]. *)
Lemma authenticate_login_token {B} (req : Request B) issued now :
  authorization req = Some ("Bearer " ++ Jwt.sign "admin" issued JWT_SECRET 3600 issued) ->
  Server.authenticateToken req now
  = if (issued / 1000 + 3600 <=? now / 1000)%Z
    then inl (failure 401 "Invalid or expired token")
    else inr {| Jwt.role := "admin"; Jwt.timestamp := issued;
                Jwt.iat := issued / 1000; Jwt.exp := issued / 1000 + 3600 |}.
Proof.
  intros Hauth. unfold Server.authenticateToken, Server.bearer_token, Jwt.sign.
  rewrite Hauth. unfold Jwt.sign. rewrite !append_cons, append_nil.
  cbn [JS.truthy].
  change (String "B" (String "e" (String "a" (String "r" (String "e" (String "r"
            (String " " ?t)))))))
    with ("Bearer " ++ t).
  rewrite second_word by apply encode_lacks_space.
  pose proof (encode_not_empty JWT_SECRET
    {| Jwt.role := "admin"; Jwt.timestamp := issued;
       Jwt.iat := issued / 1000; Jwt.exp := issued / 1000 + 3600 |}) as Hne.
  destruct (Jwt.encode _ _) as [|c t] eqn:Henc; [congruence|].
  cbn [JS.truthy negb default from_option]. unfold id.
  rewrite <- Henc, verify_encode. cbn [Jwt.exp].
  now destruct (_ <=? _)%Z.
Qed.

(** A token that is not made of five parts, and a token whose digest is
    missing, are rejected whatever the secret and the instant. *)
Lemma verify_malformed token secret now :
  length (JS.split_on "." token) <> 5%nat ->
  Jwt.verify token secret now = Jwt.JsonWebTokenError.
Proof.
  unfold Jwt.verify. intros Hlen.
  destruct (JS.split_on "." token) as [|a [|b [|c [|d [|e [|f l]]]]]];
    try reflexivity.
  now contradiction Hlen.
Qed.

Lemma digest_not_empty secret p : Jwt.digest secret (Jwt.claims_text p) <> "".
Proof.
  unfold Jwt.digest, Jwt.claims_text.
  destruct secret as [|c s]; [|discriminate].
  rewrite append_nil. destruct (Jwt.hex (Jwt.role p)); discriminate.
Qed.

Lemma verify_unsigned p secret now :
  Jwt.verify (Jwt.claims_text p ++ ".") secret now = Jwt.JsonWebTokenError.
Proof.
  unfold Jwt.verify.
  change (Jwt.claims_text p ++ ".") with (Jwt.claims_text p ++ "." ++ "").
  unfold Jwt.claims_text at 1.
  rewrite split_claims;
    try (apply lacks_hex; reflexivity);
    try (apply lacks_decimal; [reflexivity | discriminate]);
    try reflexivity.
  rewrite unhex_hex, !Z_of_to_string.
  pose proof (digest_not_empty secret p) as Hd.
  unfold Jwt.claims_text in Hd.
  destruct (Jwt.digest _ _); [congruence | reflexivity].
Qed.

End Login.

(** C5, as amended.  Login with the correct, non-empty secret answers 200
    with a signed token whose expiry claim is 3600 seconds after its issue
    claim, the login instant in whole seconds, and with [expiresAt] one hour
    after the login instant.  Verification of that token echoes its claims
    at every instant before the expiry claim and answers 401 from then on.
    [jwt.verify] rejects a token that is malformed or unsigned, the request
    that carries one is answered 401, and so is any request without a valid
    credential.  Login with a non-empty incorrect secret answers 401 with
    nothing but the failure; login with an empty or missing secret answers
    400. *)
Theorem login_issues_an_hour_long_token `{Env} `{Libs}
    (st : Store) (req : Request (option string)) (issued : Z) :
  let token := Jwt.sign "admin" issued JWT_SECRET 3600 issued in
  let claims := {| Jwt.role := "admin"; Jwt.timestamp := issued;
                   Jwt.iat := issued / 1000; Jwt.exp := issued / 1000 + 3600 |} in
  (forall password,
      body req = Some password -> password <> "" ->
      bcrypt_compare password ADMIN_PASSWORD_HASH = true ->
      (Server.post_auth_login st req issued).2
      = reply 200 (Some "Authentication successful") (Token token (issued + 3600000)))
  /\ (Jwt.exp claims - Jwt.iat claims = 3600)%Z
  /\ (forall st' (req' : Request unit) now,
         authorization req' = Some ("Bearer " ++ token) ->
         ((now / 1000 < Jwt.exp claims)%Z ->
          Server.post_auth_verify st' req' now
          = (st', reply 200 None (Verified true (Some claims))))
         /\ ((Jwt.exp claims <= now / 1000)%Z ->
             Server.post_auth_verify st' req' now
             = (st', failure 401 "Invalid or expired token")))
  /\ (forall other secret now,
         (length (JS.split_on "." other) <> 5%nat
          \/ exists p, other = Jwt.claims_text p ++ ".") ->
         Jwt.verify other secret now = Jwt.JsonWebTokenError)
  /\ (forall st' (req' : Request unit) now other,
         authorization req' = Some ("Bearer " ++ other) ->
         other <> "" -> JS.lacks " " other = true ->
         (length (JS.split_on "." other) <> 5%nat
          \/ exists p, other = Jwt.claims_text p ++ ".") ->
         Server.post_auth_verify st' req' now
         = (st', failure 401 "Invalid or expired token"))
  /\ (forall st' (req' : Request unit) now,
         ~ Spec.valid_credential req' now ->
         exists reason,
           Server.post_auth_verify st' req' now = (st', failure 401 reason))
  /\ (forall password,
         body req = Some password -> password <> "" ->
         bcrypt_compare password ADMIN_PASSWORD_HASH = false ->
         (Server.post_auth_login st req issued).2 = failure 401 "Invalid credentials")
  /\ (JS.truthy (body req) = false ->
      (Server.post_auth_login st req issued).2 = failure 400 "Password is required").
Proof.
  intros token claims. subst token claims. cbn [Jwt.exp Jwt.iat]. repeat split.
  - intros password Hb Hne Hok. unfold Server.post_auth_login.
    rewrite Hb. destruct password as [|c p]; [congruence|].
    cbn [JS.truthy negb default from_option]. unfold id. now rewrite Hok.
  - lia.
  - intros Hnow. unfold Server.post_auth_verify, Server.protected.
    rewrite (authenticate_login_token _ issued now) by assumption.
    destruct (Z.leb_spec (issued / 1000 + 3600) (now / 1000)); [lia|].
    reflexivity.
  - intros Hnow. unfold Server.post_auth_verify, Server.protected.
    rewrite (authenticate_login_token _ issued now) by assumption.
    destruct (Z.leb_spec (issued / 1000 + 3600) (now / 1000)); [|lia].
    reflexivity.
  - intros other secret now [Hlen|[p ->]].
    + now apply verify_malformed.
    + apply verify_unsigned.
  - intros st' req' now other Hauth Hne Hsp Hbad.
    unfold Server.post_auth_verify, Server.protected.
    rewrite (authenticate_rejected_token req' other now); try assumption; [reflexivity|].
    intros claims. destruct Hbad as [Hlen|[p ->]].
    + now rewrite verify_malformed.
    + now rewrite verify_unsigned.
  - intros st' req' now Hno. now apply protected_rejects.
  - intros password Hb Hne Hbad. unfold Server.post_auth_login.
    rewrite Hb. destruct password as [|c p]; [congruence|].
    cbn [JS.truthy negb default from_option]. unfold id. now rewrite Hbad.
  - intros Hempty. unfold Server.post_auth_login. now rewrite Hempty.
Qed.

Section LoginScenarios.
#[local] Existing Instances Sample.env Sample.libs.

(** C5, as stated, fails: the empty secret is not the secret of the
    administrator, and the login that submits it is answered 400. *)
Lemma login_with_the_empty_secret_is_answered_400 :
  bcrypt_compare "" ADMIN_PASSWORD_HASH = false
  /\ (Server.post_auth_login Sample.empty (Sample.login "") Sample.login_at).2
     = failure 400 "Password is required"
  /\ status (Server.post_auth_login Sample.empty (Sample.login "") Sample.login_at).2
     <> 401.
Proof. vm_compute. repeat split; congruence. Qed.

(** C5, as amended, at the login of the administrator. *)
Lemma login_issues_an_hour_long_token_witness :
  status (Server.post_auth_login Sample.empty
            (Sample.login "3dprinter@aqrl") Sample.login_at).2 = 200
  /\ status (Server.post_auth_verify Sample.empty Sample.verification
               (Sample.login_at + 3599000)).2 = 200
  /\ status (Server.post_auth_verify Sample.empty Sample.verification
               (Sample.login_at + 3600000)).2 = 401
  /\ status (Server.post_auth_login Sample.empty
               (Sample.login "guess") Sample.login_at).2 = 401.
Proof.
  pose proof (login_issues_an_hour_long_token Sample.empty
                (Sample.login "3dprinter@aqrl") Sample.login_at)
    as (Hok & _ & Hverify & _ & _ & _ & _ & _).
  pose proof (login_issues_an_hour_long_token Sample.empty
                (Sample.login "guess") Sample.login_at)
    as (_ & _ & _ & _ & _ & _ & Hbad & _).
  split; [|split; [|split]].
  - rewrite (Hok "3dprinter@aqrl"); [reflexivity| reflexivity | discriminate | reflexivity].
  - destruct (Hverify Sample.empty Sample.verification
                (Sample.login_at + 3599000) eq_refl) as [Hin _].
    rewrite Hin; [reflexivity | vm_compute; reflexivity].
  - destruct (Hverify Sample.empty Sample.verification
                (Sample.login_at + 3600000) eq_refl) as [_ Hout].
    rewrite Hout; [reflexivity | vm_compute; discriminate].
  - rewrite (Hbad "guess"); [reflexivity | reflexivity | discriminate | reflexivity].
Defined.

(** The [expiresAt] of the response is the login instant plus one hour in
    milliseconds, while the token counts whole seconds: a login made half
    a second into a second yields a token that is rejected 400 ms before
    [expiresAt]. *)
Example token_expires_within_the_second_before_expiresAt :
  data (Server.post_auth_login Sample.empty (Sample.login "3dprinter@aqrl")
          Sample.login_at).2
  = Token Sample.token (Sample.login_at + 3600000)
  /\ status (Server.post_auth_verify Sample.empty Sample.verification
               (Sample.login_at + 3599600)).2 = 401.
Proof. vm_compute. auto. Qed.

End LoginScenarios.

(** ** Numbers and cursors *)

Section Numbers.

Lemma as_integer_Fin q z :
  JS.as_integer (JS.Fin q) = Some z <-> (q == inject_Z z)%Q.
Proof.
  unfold JS.as_integer. split.
  - destruct (Pos.eqb_spec (Qden (Qred q)) 1) as [Hd|]; [|discriminate].
    intros [= Hn]. rewrite <- (Qred_correct q).
    destruct (Qred q) as [n d]. simpl in *. subst. reflexivity.
  - intros Hq. apply Qred_complete in Hq. rewrite Hq.
    rewrite Qcanon.Qred_identity by apply Z.gcd_1_r. reflexivity.
Qed.

Lemma as_integer_inv a z :
  JS.as_integer a = Some z -> exists q, a = JS.Fin q /\ (q == inject_Z z)%Q.
Proof.
  destruct a as [| |q]; try discriminate.
  intros Hq. exists q. split; [reflexivity|]. now apply as_integer_Fin.
Qed.

Lemma as_integer_mul a b x y :
  JS.as_integer a = Some x -> JS.as_integer b = Some y ->
  JS.as_integer (JS.mul a b) = Some (x * y)%Z.
Proof.
  intros (p & -> & Hp)%as_integer_inv (q & -> & Hq)%as_integer_inv.
  cbn [JS.mul]. apply as_integer_Fin.
  now rewrite Qred_correct, Hp, Hq, inject_Z_mult.
Qed.

Lemma as_integer_sub a b x y :
  JS.as_integer a = Some x -> JS.as_integer b = Some y ->
  JS.as_integer (JS.sub a b) = Some (x - y)%Z.
Proof.
  intros (p & -> & Hp)%as_integer_inv (q & -> & Hq)%as_integer_inv.
  cbn [JS.sub]. apply as_integer_Fin.
  rewrite Qred_correct, Hp, Hq. unfold Qminus.
  now rewrite <- inject_Z_opp, <- inject_Z_plus.
Qed.

Lemma as_integer_of_Z z : JS.as_integer (JS.of_Z z) = Some z.
Proof. apply as_integer_Fin. reflexivity. Qed.

Lemma ceil_div_pos t s :
  (0 < s)%Z -> (- (- t / s) = (t + s - 1) / s)%Z.
Proof.
  intros Hs.
  pose proof (Z.div_mod (- t) s ltac:(lia)) as Hdm.
  pose proof (Z.mod_pos_bound (- t) s Hs) as Hb.
  apply (Z.div_unique _ _ _ (s - 1 - (- t) mod s)); lia.
Qed.

Lemma Qceiling_quotient t s :
  (0 < s)%Z ->
  Qceiling (inject_Z t / inject_Z s) = ((t + s - 1) / s)%Z.
Proof.
  intros Hs. destruct s as [|sp|sp]; try lia.
  unfold Qceiling, Qfloor, Qdiv, Qmult, Qinv, Qopp, inject_Z. cbn.
  rewrite Z.mul_1_r. rewrite <- Z.opp_eq_mul_m1 || idtac.
  now rewrite ceil_div_pos.
Qed.

(** [Math.ceil(total / limit)] when [limit] coerces to a positive integer. *)
Lemma pages_of_coercion limit total s :
  JS.as_integer limit = Some s -> (0 < s)%Z ->
  JS.ceil (JS.div (JS.of_Z (Z.of_nat total)) limit)
  = JS.of_Z (Spec.page_count total s).
Proof.
  intros (q & -> & Hq)%as_integer_inv Hs.
  unfold JS.of_Z, Spec.page_count. cbn [JS.div].
  assert (Hz : JS.Qzero q = false).
  { unfold JS.Qzero. apply Z.eqb_neq. intros Hn.
    assert (q == 0)%Q as H0 by (unfold Qeq; simpl; lia).
    rewrite H0 in Hq. unfold Qeq in Hq. simpl in Hq. lia. }
  rewrite Hz. cbn [JS.ceil]. do 2 f_equal.
  rewrite <- Qceiling_quotient by assumption.
  apply Qceiling_comp. now rewrite Qred_correct, Hq.
Qed.

End Numbers.

(** ** Lists *)

#[local] Instance newest_first_total {A} (c : A -> Z) : Total (Query.newest_first c).
Proof. intros x y. unfold Query.newest_first. lia. Qed.

Section Lists.
Context `{Env} `{Libs}.

Lemma exec_of_coercion {A B} (req : Request B) p s (docs : list A) :
  Spec.coerces_to req "page" 1 p -> Spec.coerces_to req "limit" 100 s ->
  Query.exec
    (JS.mul (JS.ToNumber (Query.param req "limit" (JS.VNum (JS.of_Z 100)))) (JS.of_Z 1))
    (JS.mul (JS.sub (JS.ToNumber (Query.param req "page" (JS.VNum (JS.of_Z 1))))
               (JS.of_Z 1))
       (JS.ToNumber (Query.param req "limit" (JS.VNum (JS.of_Z 100)))))
    docs
  = Some (Spec.slice p s docs).
Proof.
  intros [Hp Hp0] [Hs Hs0]. unfold Query.exec.
  rewrite (as_integer_mul _ _ (p - 1) s);
    [|apply as_integer_sub; [assumption | apply as_integer_of_Z] | assumption].
  rewrite (as_integer_mul _ _ s 1); [|assumption | apply as_integer_of_Z].
  destruct (Z.leb_spec 0 ((p - 1) * s)); [|nia].
  destruct (Z.ltb_spec 0 (s * 1)); [|lia].
  cbn [andb]. unfold Spec.slice. now rewrite Z.mul_1_r.
Qed.




(** What a list handler answers on well-formed parameters. *)
Lemma get_records_page {B} st (req : Request B) now p s :
  Spec.coerces_to req "page" 1 p -> Spec.coerces_to req "limit" 100 s ->
  query req !! "sortBy" = None -> query req !! "sortOrder" = None ->
  exists pg,
    Server.get_records st req now
    = (st, reply 200 None
             (RecordPage
                (Spec.slice p s
                   (merge_sort (Query.newest_first recordSchema.Doc.createdAt)
                      (map_to_list (Records st))))
                pg))
    /\ total pg = size (Records st)
    /\ pages pg = JS.of_Z (Spec.page_count (size (Records st)) s).
Proof.
  intros Hp Hs Hby Hord. unfold Server.get_records, Query.text_param.
  rewrite Hby, Hord. cbn [default from_option]. unfold id, Query.sort.
  cbn [String.eqb Ascii.eqb Bool.eqb].
  rewrite (exec_of_coercion req p s) by assumption.
  eexists. split; [reflexivity|]. split; [reflexivity|].
  cbn [pages Query.pagination]. destruct Hs. now apply pages_of_coercion.
Qed.

Lemma get_records_ordered {B} st (req : Request B) now p s :
  Spec.coerces_to req "page" 1 p -> Spec.coerces_to req "limit" 100 s ->
  exists pg,
    Server.get_records st req now
    = (st, reply 200 None
             (RecordPage
                (Spec.slice p s
                   (Query.sort recordSchema.Doc.createdAt
                      (Query.text_param req "sortBy" "createdAt")
                      (String.eqb (Query.text_param req "sortOrder" "desc") "desc")
                      (map_to_list (Records st))))
                pg))
    /\ total pg = size (Records st)
    /\ pages pg = JS.of_Z (Spec.page_count (size (Records st)) s).
Proof.
  intros Hp Hs. unfold Server.get_records.
  rewrite (exec_of_coercion req p s) by assumption.
  eexists. split; [reflexivity|]. split; [reflexivity|].
  cbn [pages Query.pagination]. destruct Hs. now apply pages_of_coercion.
Qed.

Lemma get_feedback_page {B} st (req : Request B) now p s :
  Spec.coerces_to req "page" 1 p -> Spec.coerces_to req "limit" 100 s ->
  let found :=
    filter (fun d => Query.matches feedbackSchema.Doc.status (query req !! "status") d = true)
      (map_to_list (Feedback st)) in
  exists pg,
    Server.get_feedback st req now
    = (st, reply 200 None
             (FeedbackPage
                (Spec.slice p s
                   (merge_sort (Query.newest_first feedbackSchema.Doc.createdAt) found))
                pg))
    /\ total pg = length found
    /\ pages pg = JS.of_Z (Spec.page_count (length found) s).
Proof.
  intros Hp Hs found. unfold Server.get_feedback. fold found.
  rewrite (exec_of_coercion req p s) by assumption.
  eexists. split; [reflexivity|]. split; [reflexivity|].
  cbn [pages Query.pagination]. destruct Hs. now apply pages_of_coercion.
Qed.

Lemma get_projects_page {B} st (req : Request B) now p s :
  Spec.coerces_to req "page" 1 p -> Spec.coerces_to req "limit" 100 s ->
  let found :=
    filter (fun d => Query.matches projectSchema.Doc.status (query req !! "status") d
                     && Query.matches projectSchema.Doc.priority (query req !! "priority") d
                     = true)
      (map_to_list (Project st)) in
  exists pg,
    Server.get_projects st req now
    = (st, reply 200 None
             (ProjectPage
                (Spec.slice p s
                   (merge_sort (Query.newest_first projectSchema.Doc.createdAt) found))
                pg))
    /\ total pg = length found
    /\ pages pg = JS.of_Z (Spec.page_count (length found) s).
Proof.
  intros Hp Hs found. unfold Server.get_projects. fold found.
  rewrite (exec_of_coercion req p s) by assumption.
  eexists. split; [reflexivity|]. split; [reflexivity|].
  cbn [pages Query.pagination]. destruct Hs. now apply pages_of_coercion.
Qed.

End Lists.


Section PageScenarios.
#[local] Existing Instances Sample.env Sample.libs.


End PageScenarios.

(** ** Parameters that are not validated *)

Section Unvalidated.
Context `{Env} `{Libs}.

Lemma exec_outcome {A B} (req : Request B) (docs : list A) :
  (exists k n, Spec.cursor req k n
               /\ Query.exec (Spec.limit_of req) (Spec.skip_of req) docs
                  = Some (take (Z.to_nat n) (drop (Z.to_nat k) docs)))
  \/ (~ (exists k n, Spec.cursor req k n)
      /\ Query.exec (Spec.limit_of req) (Spec.skip_of req) docs
         = cursor_other A (Spec.skip_of req) (Spec.limit_of req) docs).
Proof.
  unfold Query.exec, Spec.cursor.
  destruct (JS.as_integer (Spec.skip_of req)) as [k|] eqn:Hk;
    [destruct (JS.as_integer (Spec.limit_of req)) as [n|] eqn:Hn|].
  - destruct (Z.leb_spec 0 k); [destruct (Z.ltb_spec 0 n)|]; cbn [andb].
    + left. exists k, n. auto.
    + right. split; [|reflexivity]. intros (k' & n' & [= <-] & [= <-] & ? & ?). lia.
    + right. split; [|reflexivity]. intros (k' & n' & [= <-] & [= <-] & ? & ?). lia.
  - right. split; [|reflexivity]. intros (k' & n' & _ & [=] & _).
  - right. split; [|reflexivity]. intros (k' & n' & [=] & _).
Qed.

End Unvalidated.

(** C3, as amended.  A List request is never answered with a validation
    error: page and page-size are coerced to numbers and not validated.
    When the skip [(page-1)*size] is a natural number and the limit [size*1]
    a positive integer, the answer is 200 with a page; otherwise it is what
    the driver makes of the cursor, 200 with a page or, if it throws, the
    internal error 500.  The store is left as it was. *)
Theorem list_parameters_are_not_validated `{Env} `{Libs} {B}
    (st : Store) (req : Request B) (now : Z) :
  let outcome (result : Store * Response) :=
    result.1 = st
    /\ status result.2 <> 400
    /\ ((status result.2 = 200 /\ Spec.is_page (data result.2))
        \/ (status result.2 = 500 /\ ~ exists k n, Spec.cursor req k n))
    /\ ((exists k n, Spec.cursor req k n) ->
        status result.2 = 200 /\ Spec.is_page (data result.2)) in
  outcome (Server.get_records st req now)
  /\ outcome (Server.get_feedback st req now)
  /\ outcome (Server.get_projects st req now).
Proof.
  intros outcome.
  assert (Hgen : forall A (docs : list A) (page_of : list A -> Data) err,
             (forall l, Spec.is_page (page_of l)) ->
             outcome (match Query.exec (Spec.limit_of req) (Spec.skip_of req) docs with
                      | Some l => (st, reply 200 None (page_of l))
                      | None => (st, failure 500 err)
                      end)).
  { intros A docs page_of err Hpage.
    destruct (exec_outcome req docs) as [(k & n & Hc & ->)|[Hno ->]].
    - repeat split; cbn; try discriminate; try apply Hpage.
      left. split; [reflexivity | apply Hpage].
    - destruct (cursor_other A _ _ docs); repeat split; cbn; try discriminate;
        try apply Hpage; try contradiction.
      + left. split; [reflexivity | apply Hpage].
      + right. split; [reflexivity | assumption]. }
  split; [|split].
  - unfold Server.get_records.
    apply (Hgen _ _ (fun l => RecordPage l _) "Failed to fetch records"). now intros.
  - unfold Server.get_feedback.
    apply (Hgen _ _ (fun l => FeedbackPage l _) "Failed to fetch feedback"). now intros.
  - unfold Server.get_projects.
    apply (Hgen _ _ (fun l => ProjectPage l _) "Failed to fetch projects"). now intros.
Qed.

Section UnvalidatedScenarios.
#[local] Existing Instances Sample.env Sample.libs.

(** C3, as stated, fails: page 1.5 does not coerce to an integer, and the
    request is answered 200 with the second and third newest of three
    records. *)
Lemma list_accepts_page_one_and_a_half :
  JS.ToNumber (Query.param Sample.fractional_page "page" (JS.VNum (JS.of_Z 1)))
  = JS.Fin (3 # 2)
  /\ JS.as_integer
       (JS.ToNumber (Query.param Sample.fractional_page "page" (JS.VNum (JS.of_Z 1))))
     = None
  /\ status (Server.get_records (Sample.with_records 3) Sample.fractional_page 0).2
     = 200
  /\ status (Server.get_records (Sample.with_records 3) Sample.fractional_page 0).2
     <> 400
  /\ match data (Server.get_records (Sample.with_records 3) Sample.fractional_page 0).2 with
     | RecordPage docs pg => docs.*1 = [1%N; 0%N] /\ total pg = 3%nat
     | _ => False
     end.
Proof. vm_compute. repeat split; congruence. Qed.

(** C3, as amended, at that request. *)
Lemma list_parameters_are_not_validated_witness :
  status (Server.get_records (Sample.with_records 3) Sample.fractional_page 0).2 = 200.
Proof.
  destruct (list_parameters_are_not_validated (Sample.with_records 3)
              Sample.fractional_page 0)
    as ((_ & _ & _ & Hregular) & _).
  apply Hregular. exists 1, 2. repeat split; (vm_compute; congruence) || lia.
Defined.

End UnvalidatedScenarios.

(** ** Protected and public routes *)

Section Public.
Context `{Env} `{Libs}.

Lemma lists_answer_200 {B} st (req : Request B) now p s :
  Spec.coerces_to req "page" 1 p -> Spec.coerces_to req "limit" 100 s ->
  status (Server.get_records st req now).2 = 200
  /\ status (Server.get_feedback st req now).2 = 200
  /\ status (Server.get_projects st req now).2 = 200.
Proof.
  intros Hp Hs.
  unfold Server.get_records, Server.get_feedback, Server.get_projects.
  now rewrite !(exec_of_coercion req p s) by assumption.
Qed.

End Public.

(** C6.  Without a valid admin credential, create, update and delete of
    Jobs and of Projects and delete of Feedback are answered 401 and leave
    the store as it was.  Feedback creation never reads the credential: it
    is never answered 401 and stores every feedback that passes the
    validators, whatever the header.  A List request with well-formed
    parameters is answered 200, whatever the header. *)
Theorem mutations_need_a_credential_reads_do_not `{Env} `{Libs}
    (st : Store) (now : Z) :
  (forall req : Request recordSchema.Body.t,
      ~ Spec.valid_credential req now ->
      (exists reason, Server.post_records st req now = (st, failure 401 reason))
      /\ (exists reason, Server.put_records st req now = (st, failure 401 reason)))
  /\ (forall req : Request projectSchema.Body.t,
         ~ Spec.valid_credential req now ->
         (exists reason, Server.post_projects st req now = (st, failure 401 reason))
         /\ (exists reason, Server.put_projects st req now = (st, failure 401 reason)))
  /\ (forall (B : Type) (req : Request B),
         ~ Spec.valid_credential req now ->
         (exists reason, Server.delete_records st req now = (st, failure 401 reason))
         /\ (exists reason, Server.delete_projects st req now = (st, failure 401 reason))
         /\ (exists reason, Server.delete_feedback st req now = (st, failure 401 reason)))
  /\ (forall req : Request feedbackSchema.Body.t,
         status (Server.post_feedback st req now).2 <> 401
         /\ forall b doc,
             Server.validateFeedback (body req) = (b, []) ->
             feedbackSchema.create now b = Some doc ->
             exists id,
               Feedback st !! id = None
               /\ Server.post_feedback st req now
                  = (Server.set_Feedback st (<[id := doc]> (Feedback st)),
                     reply 201 (Some "Feedback submitted successfully")
                       (FeedbackData id doc)))
  /\ (forall (B : Type) (req : Request B) p s,
         Spec.coerces_to req "page" 1 p -> Spec.coerces_to req "limit" 100 s ->
         status (Server.get_records st req now).2 = 200
         /\ status (Server.get_feedback st req now).2 = 200
         /\ status (Server.get_projects st req now).2 = 200).
Proof.
  split; [|split; [|split; [|split]]].
  - intros req Hno. split; now apply protected_rejects.
  - intros req Hno. split; now apply protected_rejects.
  - intros B req Hno. repeat split; now apply protected_rejects.
  - intros req. split.
    + unfold Server.post_feedback.
      destruct (Server.validateFeedback (body req)) as [b [|e errors]];
        [destruct (feedbackSchema.create now b)|]; cbn; discriminate.
    + intros b doc Hval Hdoc. unfold Server.post_feedback.
      rewrite Hval, Hdoc. eexists. split; [|reflexivity].
      apply not_elem_of_dom, is_fresh.
  - intros B req p s Hp Hs. now apply (lists_answer_200 st req now p s).
Qed.

(** C10.  The settings write is protected like the mutations: without an
    authorization header, with a token that verification rejects, or with
    the token of a login after its expiry, it is answered 401 and the store
    is left as it was.  The settings read is public: it answers 200 with the
    whole mapping, whatever the header. *)
Theorem settings_write_needs_a_credential `{Env} `{Libs}
    (st : Store) (req : Request (option (gmap string JSON))) (now : Z) :
  (authorization req = None ->
   Server.put_settings st req now = (st, failure 401 "Access token required"))
  /\ (forall token,
         authorization req = Some ("Bearer " ++ token) ->
         token <> "" -> JS.lacks " " token = true ->
         (forall claims, Jwt.verify token JWT_SECRET now <> Jwt.Decoded claims) ->
         Server.put_settings st req now = (st, failure 401 "Invalid or expired token"))
  /\ (forall issued,
         authorization req
         = Some ("Bearer " ++ Jwt.sign "admin" issued JWT_SECRET 3600 issued) ->
         (issued / 1000 + 3600 <= now / 1000)%Z ->
         Server.put_settings st req now = (st, failure 401 "Invalid or expired token"))
  /\ (~ Spec.valid_credential req now ->
      exists reason, Server.put_settings st req now = (st, failure 401 reason))
  /\ (forall (B : Type) (req' : Request B),
         Server.get_settings st req' now
         = (st, reply 200 None (SettingsData (settingsSchema.value <$> Settings st)))).
Proof.
  split; [|split; [|split; [|split]]].
  - intros Hnone. unfold Server.put_settings, Server.protected,
      Server.authenticateToken. now rewrite Hnone.
  - intros token Hauth Hne Hsp Hbad. unfold Server.put_settings, Server.protected.
    now rewrite (authenticate_rejected_token req token now).
  - intros issued Hauth Hlate. unfold Server.put_settings, Server.protected.
    rewrite (authenticate_login_token req issued now Hauth).
    destruct (Z.leb_spec (issued / 1000 + 3600) (now / 1000)); [reflexivity | lia].
  - intros Hno. now apply protected_rejects.
  - reflexivity.
Qed.

Section ProtectedScenarios.
#[local] Existing Instances Sample.env Sample.libs.

(** C6 at requests without a header. *)
Lemma mutations_need_a_credential_reads_do_not_witness :
  status (Server.post_records Sample.empty (Sample.create_bracket None)
            Sample.login_at).2 = 401
  /\ status (Server.post_feedback Sample.empty (Sample.send_praise (Some 4%Q))
               Sample.login_at).2 = 201
  /\ status (Server.get_projects Sample.empty (Sample.request None "" [] tt)
               Sample.login_at).2 = 200.
Proof.
  destruct (mutations_need_a_credential_reads_do_not Sample.empty Sample.login_at)
    as (Hjobs & _ & _ & Hfeedback & Hlists).
  split; [|split].
  - destruct (Hjobs (Sample.create_bracket None)) as [[reason ->] _];
      [|reflexivity].
    intros (t & c & Ht & _). discriminate.
  - destruct (Hfeedback (Sample.send_praise (Some 4%Q))) as [_ Hstore].
    edestruct Hstore as (id & _ & ->); [vm_compute; reflexivity .. | reflexivity].
  - apply (Hlists unit (Sample.request None "" [] tt) 1 100);
      split; (vm_compute; reflexivity) || lia.
Defined.

(** C10 at a settings write without a header and at one with the token of
    the administrator an hour after the login. *)
Lemma settings_write_needs_a_credential_witness :
  Server.put_settings Sample.counted (Sample.write_investment None) Sample.login_at
  = (Sample.counted, failure 401 "Access token required")
  /\ Server.put_settings Sample.counted (Sample.write_investment Sample.admin)
       (Sample.login_at + 3600000)
     = (Sample.counted, failure 401 "Invalid or expired token").
Proof.
  split.
  - destruct (settings_write_needs_a_credential Sample.counted
                (Sample.write_investment None) Sample.login_at) as (Hnone & _).
    now apply Hnone.
  - destruct (settings_write_needs_a_credential Sample.counted
                (Sample.write_investment Sample.admin) (Sample.login_at + 3600000))
      as (_ & _ & Hlate & _).
    apply (Hlate Sample.login_at); [reflexivity | vm_compute; discriminate].
Defined.

End ProtectedScenarios.

(** ** Delete *)

(** Run the protected route of the goal past its check of a valid credential. *)
Ltac pass_check Hrun st now Hcred :=
  match goal with
  | |- context [Server.protected ?h st ?req now] =>
      let c := fresh "claims" in
      destruct (Hrun h st now Hcred) as [c ->]
  end.

(** A path parameter that is not an id of the store: the cast throws, and
    the delete is answered with the internal error. *)
Lemma delete_of_what_is_no_id `{Env} `{Libs} {B} (st : Store) (req : Request B) (now : Z) :
  Spec.valid_credential req now -> castObjectId (params_id req) = None ->
  Server.delete_records st req now = (st, failure 500 "Failed to delete record")
  /\ Server.delete_projects st req now = (st, failure 500 "Failed to delete project")
  /\ Server.delete_feedback st req now = (st, failure 500 "Failed to delete feedback").
Proof.
  intros Hcred Hid.
  assert (Hrun : forall (h : Handler B) s t,
             Spec.valid_credential req t ->
             exists claims, Server.protected h s req t = h s (with_user req claims) t).
  { intros h s t Ht. destruct (protected_accepts h s req t Ht) as (c & _ & Hc). eauto. }
  unfold Server.delete_records, Server.delete_projects, Server.delete_feedback.
  repeat split; pass_check Hrun st now Hcred; cbn [params_id with_user]; now rewrite Hid.
Qed.

(** C8.  What a delete answers depends on whether its path parameter is an
    id of the store.  With a valid credential and a path parameter that
    casts to an id: deleting a stored record answers 200 and removes that
    record and no other, deleting it again answers 404, and deleting an id
    that the store does not hold answers 404 and changes nothing.  With a
    valid credential and a path parameter that does not cast to an id, the
    delete answers 500, not 404, and changes nothing.  The same holds of
    Projects and of Feedback. *)
Theorem delete_is_not_found_only_when_the_id_casts `{Env} `{Libs} {B}
    (st : Store) (req : Request B) (now later : Z) :
  Spec.valid_credential req now -> Spec.valid_credential req later ->
  (forall id : ObjectId,
      castObjectId (params_id req) = Some id ->
      ((is_Some (Records st !! id) ->
        exists st',
          Server.delete_records st req now
          = (st', reply 200 (Some "Record deleted successfully") NoData)
          /\ Records st' = delete id (Records st)
          /\ Server.delete_records st' req later = (st', failure 404 "Record not found"))
       /\ (Records st !! id = None ->
           Server.delete_records st req now = (st, failure 404 "Record not found")))
      /\ ((is_Some (Project st !! id) ->
           exists st',
             Server.delete_projects st req now
             = (st', reply 200 (Some "Project deleted successfully") NoData)
             /\ Project st' = delete id (Project st)
             /\ Server.delete_projects st' req later
                = (st', failure 404 "Project not found"))
          /\ (Project st !! id = None ->
              Server.delete_projects st req now = (st, failure 404 "Project not found")))
      /\ ((is_Some (Feedback st !! id) ->
           exists st',
             Server.delete_feedback st req now
             = (st', reply 200 (Some "Feedback deleted successfully") NoData)
             /\ Feedback st' = delete id (Feedback st)
             /\ Server.delete_feedback st' req later
                = (st', failure 404 "Feedback not found"))
          /\ (Feedback st !! id = None ->
              Server.delete_feedback st req now
              = (st, failure 404 "Feedback not found"))))
  /\ (castObjectId (params_id req) = None ->
      Server.delete_records st req now = (st, failure 500 "Failed to delete record")
      /\ Server.delete_projects st req now = (st, failure 500 "Failed to delete project")
      /\ Server.delete_feedback st req now
         = (st, failure 500 "Failed to delete feedback")).
Proof.
  intros Hnow Hlater.
  split; [|now apply delete_of_what_is_no_id].
  intros id Hid.
  assert (Hrun : forall (h : Handler B) s t,
             Spec.valid_credential req t ->
             exists claims, Server.protected h s req t = h s (with_user req claims) t).
  { intros h s t Ht. destruct (protected_accepts h s req t Ht) as (c & _ & Hc). eauto. }
  unfold Server.delete_records, Server.delete_projects, Server.delete_feedback.
  repeat split.
  - intros [doc Hdoc]. pass_check Hrun st now Hnow.
    cbn [params_id with_user]. rewrite Hid, Hdoc. eexists. split; [reflexivity|].
    split; [reflexivity|].
    pass_check Hrun (Server.set_Record st (delete id (Records st))) later Hlater.
    cbn [params_id with_user Records Server.set_Record].
    now rewrite Hid, lookup_delete_eq.
  - intros Hnone. pass_check Hrun st now Hnow.
    cbn [params_id with_user]. now rewrite Hid, Hnone.
  - intros [doc Hdoc]. pass_check Hrun st now Hnow.
    cbn [params_id with_user]. rewrite Hid, Hdoc. eexists. split; [reflexivity|].
    split; [reflexivity|].
    pass_check Hrun (Server.set_Project st (delete id (Project st))) later Hlater.
    cbn [params_id with_user Project Server.set_Project].
    now rewrite Hid, lookup_delete_eq.
  - intros Hnone. pass_check Hrun st now Hnow.
    cbn [params_id with_user]. now rewrite Hid, Hnone.
  - intros [doc Hdoc]. pass_check Hrun st now Hnow.
    cbn [params_id with_user]. rewrite Hid, Hdoc. eexists. split; [reflexivity|].
    split; [reflexivity|].
    pass_check Hrun (Server.set_Feedback st (delete id (Feedback st))) later Hlater.
    cbn [params_id with_user Feedback Server.set_Feedback].
    now rewrite Hid, lookup_delete_eq.
  - intros Hnone. pass_check Hrun st now Hnow.
    cbn [params_id with_user]. now rewrite Hid, Hnone.
Qed.

Section DeleteScenarios.
#[local] Existing Instances Sample.env Sample.libs.

(** C8, as stated, fails: the administrator deletes, from a store of three
    Jobs, the Job that the client has cached under the instant of its
    creation.  No stored Job has that id, and the answer is the internal
    error, not the not-found. *)
Lemma delete_of_an_absent_id_is_answered_500 :
  Sample.hex24 (params_id Sample.delete_local) = None
  /\ Server.delete_records (Sample.with_records 3) Sample.delete_local
       (Sample.login_at + 1000)
     = (Sample.with_records 3, failure 500 "Failed to delete record")
  /\ status (Server.delete_records (Sample.with_records 3) Sample.delete_local
               (Sample.login_at + 1000)).2 <> 404.
Proof.
  split; [vm_compute; reflexivity|].
  assert (Hrun : Server.delete_records (Sample.with_records 3) Sample.delete_local
                   (Sample.login_at + 1000)
                 = (Sample.with_records 3, failure 500 "Failed to delete record"))
    by (vm_compute; reflexivity).
  split; [exact Hrun|]. rewrite Hrun. cbn. discriminate.
Qed.

(** C8, as amended, at the second of three records, deleted twice by the
    administrator, and at the delete under the id of the client. *)
Lemma delete_is_not_found_only_when_the_id_casts_witness :
  (exists st',
      Server.delete_records (Sample.with_records 3) Sample.delete_second
        (Sample.login_at + 1000)
      = (st', reply 200 (Some "Record deleted successfully") NoData)
      /\ Server.delete_records st' Sample.delete_second (Sample.login_at + 2000)
         = (st', failure 404 "Record not found"))
  /\ Server.delete_projects (Sample.with_records 3) Sample.delete_local
       (Sample.login_at + 1000)
     = (Sample.with_records 3, failure 500 "Failed to delete project").
Proof.
  assert (Hcred : forall (req : Request unit) t,
             authorization req = Sample.admin ->
             (t / 1000 < Sample.login_at / 1000 + 3600)%Z ->
             Spec.valid_credential req t)
    by (intros req t Hreq Ht; now apply (login_token_valid req Sample.login_at t)).
  split.
  - destruct (delete_is_not_found_only_when_the_id_casts (Sample.with_records 3)
                Sample.delete_second (Sample.login_at + 1000) (Sample.login_at + 2000))
      as (Hcast & _).
    + apply Hcred; vm_compute; reflexivity.
    + apply Hcred; vm_compute; reflexivity.
    + destruct (Hcast 1%N) as ((Hfirst & _) & _); [vm_compute; reflexivity|].
      destruct Hfirst as (st' & Hdel & _ & Hagain); [vm_compute; eauto|].
      exists st'. split; assumption.
  - destruct (delete_is_not_found_only_when_the_id_casts (Sample.with_records 3)
                Sample.delete_local (Sample.login_at + 1000) (Sample.login_at + 2000))
      as (_ & Hnone).
    + apply Hcred; vm_compute; reflexivity.
    + apply Hcred; vm_compute; reflexivity.
    + destruct Hnone as (_ & Hprojects & _); [vm_compute; reflexivity|].
      exact Hprojects.
Defined.

End DeleteScenarios.

(** ** Settings *)

Section SettingsMerge.
Context `{Env} `{Libs}.

(** The upserts of a list of entries with distinct keys. *)
Lemma lookup_foldr_upsert now (entries : list (string * JSON))
    (m : gmap string settingsSchema.Doc) k :
  NoDup entries.*1 ->
  foldr (Server.upsert now) m entries !! k
  = match (list_to_map entries : gmap string JSON) !! k with
    | Some v => Some {| settingsSchema.value := v;
                        settingsSchema.description := m !! k ≫= settingsSchema.description;
                        settingsSchema.updatedAt := now |}
    | None => m !! k
    end.
Proof.
  induction entries as [|[k' v'] entries IH]; intros Hnd.
  - reflexivity.
  - cbn [fmap list_fmap fst] in Hnd. apply NoDup_cons in Hnd as [Hk' Hnd].
    cbn [foldr list_to_map]. unfold Server.upsert at 1. cbn [fst snd].
    destruct (decide (k' = k)) as [->|Hne].
    + rewrite !lookup_insert_eq. rewrite (IH Hnd).
      rewrite (not_elem_of_list_to_map_1 entries k); [reflexivity | assumption].
    + rewrite !lookup_insert_ne by assumption. now apply IH.
Qed.

End SettingsMerge.

(** C7.  A settings write with a valid credential upserts the keys of the
    mapping it is given, each with the value given and the instant of the
    write, and leaves the document of every other key as it was, as well as
    every other collection; the read that follows returns the old mapping
    overridden by the one written.  Writing [investment] alone leaves
    [projectIdCounter] untouched. *)
Theorem settings_write_upserts_the_listed_keys `{Env} `{Libs}
    (st : Store) (req : Request (option (gmap string JSON))) (now : Z)
    (settings : gmap string JSON) :
  Spec.valid_credential req now -> body req = Some settings ->
  exists st',
    Server.put_settings st req now
    = (st', reply 200 (Some "Settings updated successfully") NoData)
    /\ (forall k v,
           settings !! k = Some v ->
           Settings st' !! k
           = Some {| settingsSchema.value := v;
                     settingsSchema.description :=
                       Settings st !! k ≫= settingsSchema.description;
                     settingsSchema.updatedAt := now |})
    /\ (forall k, settings !! k = None -> Settings st' !! k = Settings st !! k)
    /\ (Records st' = Records st /\ Feedback st' = Feedback st
        /\ Project st' = Project st /\ AuthLog st' = AuthLog st)
    /\ (forall (B : Type) (read : Request B) later,
           (Server.get_settings st' read later).2
           = reply 200 None
               (SettingsData (settings ∪ (settingsSchema.value <$> Settings st))))
    /\ (forall v,
           settings = {[ "investment" := v ]} ->
           Settings st' !! "projectIdCounter" = Settings st !! "projectIdCounter").
Proof.
  intros Hcred Hbody.
  destruct (protected_accepts
              (fun st req now =>
                 match body req with
                 | Some settings =>
                     (Server.set_Settings st
                        (foldr (Server.upsert now) (Settings st) (map_to_list settings)),
                      reply 200 (Some "Settings updated successfully") NoData)
                 | None => (st, failure 500 "Failed to update settings")
                 end) st req now Hcred) as (claims & _ & Hrun).
  unfold Server.put_settings. rewrite Hrun. cbn [body with_user]. rewrite Hbody.
  eexists. split; [reflexivity|]. cbn [Settings Server.set_Settings Records Feedback Project AuthLog].
  assert (Hlookup : forall k,
             foldr (Server.upsert now) (Settings st) (map_to_list settings) !! k
             = match settings !! k with
               | Some v => Some {| settingsSchema.value := v;
                                   settingsSchema.description :=
                                     Settings st !! k ≫= settingsSchema.description;
                                   settingsSchema.updatedAt := now |}
               | None => Settings st !! k
               end).
  { intros k. rewrite lookup_foldr_upsert by apply NoDup_fst_map_to_list.
    now rewrite list_to_map_to_list. }
  split; [|split; [|split; [|split]]].
  - intros k v Hk. now rewrite Hlookup, Hk.
  - intros k Hk. now rewrite Hlookup, Hk.
  - auto.
  - intros B read later. cbn [snd Server.get_settings]. do 2 f_equal.
    apply map_eq. intros k. rewrite lookup_fmap, Hlookup, lookup_union, lookup_fmap.
    destruct (settings !! k) as [v|]; destruct (Settings st !! k); reflexivity.
  - intros v ->. rewrite Hlookup. now rewrite lookup_singleton_ne.
Qed.

Section SettingsScenarios.
#[local] Existing Instances Sample.env Sample.libs.

(** C7 at the write of [{ investment: 700000 }] over a stored counter. *)
Lemma settings_write_upserts_the_listed_keys_witness :
  exists st',
    (Server.put_settings Sample.counted (Sample.write_investment Sample.admin)
       (Sample.login_at + 1000)).1 = st'
    /\ settingsSchema.value <$> Settings st' !! "investment" = Some (JNum 700000)
    /\ settingsSchema.value <$> Settings st' !! "projectIdCounter" = Some (JNum 12).
Proof.
  destruct (settings_write_upserts_the_listed_keys Sample.counted
              (Sample.write_investment Sample.admin)
              (Sample.login_at + 1000) Sample.investment)
    as (st' & Hput & Hlisted & Hother & _).
  - apply (login_token_valid _ Sample.login_at). reflexivity.
    vm_compute. reflexivity.
  - reflexivity.
  - exists st'. split; [now rewrite Hput|]. split.
    + now rewrite (Hlisted "investment" (JNum 700000)).
    + now rewrite (Hother "projectIdCounter").
Defined.

End SettingsScenarios.

(** ** Ratings *)

Section Ratings.

Lemma is_integer_inv q :
  Validator.is_integer q = true -> (q == inject_Z (Qnum (Qred q)))%Q.
Proof.
  unfold Validator.is_integer. intros Hd%Pos.eqb_eq.
  rewrite <- (Qred_correct q) at 1.
  destruct (Qred q) as [n d]. simpl in *. subst. reflexivity.
Qed.

Lemma is_integer_inject q n :
  (q == inject_Z n)%Q -> Validator.is_integer q = true.
Proof.
  intros Hq. unfold Validator.is_integer.
  rewrite (Qred_complete _ _ Hq).
  rewrite Qcanon.Qred_identity by apply Z.gcd_1_r. reflexivity.
Qed.

(** [isInt({ min: 1, max: 5 })] accepts exactly the stars. *)
Lemma isInt_star rating :
  Validator.isInt 1 (Some 5) rating = true <-> Spec.star rating.
Proof.
  unfold Validator.isInt, Spec.star. split.
  - destruct rating as [q|]; [|discriminate].
    rewrite !andb_true_iff, !Qle_bool_iff.
    intros ((((Hint & _) & _) & Hmin) & Hmax).
    apply is_integer_inv in Hint.
    exists (Qnum (Qred q)). rewrite Hint in Hmin, Hmax.
    rewrite <- Zle_Qle in Hmin, Hmax. eauto.
  - intros (n & Hn & q & -> & Hq).
    rewrite !andb_true_iff, !Qle_bool_iff, (is_integer_inject q n Hq), Hq.
    rewrite <- !Zle_Qle. repeat split; lia.
Qed.

End Ratings.

(** C9.  A Feedback create request whose rating is not an integer of the
    closed interval [1,5] is answered 400 with the validation errors, among
    them the one of the field [rating], and stores nothing.  A rating that
    is such an integer raises no error of that field. *)
Theorem feedback_rating_must_be_a_star `{Env} `{Libs}
    (st : Store) (req : Request feedbackSchema.Body.t) (now : Z) :
  (~ Spec.star (feedbackSchema.Body.rating (body req)) ->
   exists errors,
     Server.post_feedback st req now = (st, validation_failed errors)
     /\ status (validation_failed errors) = 400
     /\ Validator.invalid "rating" ∈ errors)
  /\ (Spec.star (feedbackSchema.Body.rating (body req)) ->
      forall e, e ∈ (Server.validateFeedback (body req)).2 ->
                Validator.param e <> "rating").
Proof.
  split.
  - intros Hbad.
    assert (Hint : Validator.isInt 1 (Some 5) (feedbackSchema.Body.rating (body req)) = false)
      by (apply not_true_is_false; intros Hint%isInt_star; contradiction).
    assert (Hin : Validator.invalid "rating" ∈ (Server.validateFeedback (body req)).2).
    { unfold Server.validateFeedback. cbn [snd]. rewrite Hint. cbn [Validator.check].
      rewrite !elem_of_app. do 4 right. left. apply list_elem_of_singleton. reflexivity. }
    unfold Server.post_feedback.
    destruct (Server.validateFeedback (body req)) as [b [|e errors]]; cbn [snd] in Hin.
    + now apply elem_of_nil in Hin.
    + exists (e :: errors). auto.
  - intros Hgood%isInt_star e. unfold Server.validateFeedback. cbn [snd].
    rewrite Hgood. cbn [Validator.check].
    unfold Server.check_text, Server.check_in, Validator.check.
    rewrite !elem_of_app.
    repeat match goal with
           | |- context [if ?b then _ else _] => destruct b
           end;
      rewrite ?list_elem_of_singleton, ?elem_of_nil;
      intros Hin; decompose [or] Hin; subst; try contradiction; discriminate.
Qed.

Section RatingScenarios.
#[local] Existing Instances Sample.env Sample.libs.

(** C9 at the ratings 0, 6 and two and a half, and at none. *)
Lemma feedback_rating_must_be_a_star_witness :
  Forall (fun rating =>
            ~ Spec.star rating
            /\ exists errors,
                 Server.post_feedback Sample.empty (Sample.send_praise rating)
                   Sample.login_at
                 = (Sample.empty, validation_failed errors)
                 /\ Validator.invalid "rating" ∈ errors)
    [Some 0%Q; Some 6%Q; Some (5 # 2)%Q; None].
Proof.
  assert (Hone : forall rating,
             Validator.isInt 1 (Some 5) rating = false ->
             ~ Spec.star rating
             /\ exists errors,
                  Server.post_feedback Sample.empty (Sample.send_praise rating)
                    Sample.login_at
                  = (Sample.empty, validation_failed errors)
                  /\ Validator.invalid "rating" ∈ errors).
  { intros rating Hint.
    assert (Hno : ~ Spec.star rating) by (intros Hstar%isInt_star; congruence).
    split; [assumption|].
    destruct (feedback_rating_must_be_a_star Sample.empty
                (Sample.send_praise rating) Sample.login_at) as [Hbad _].
    destruct (Hbad Hno) as (errors & Hres & _ & Hin). eauto. }
  repeat (constructor; [apply Hone; reflexivity|]). constructor.
Defined.

End RatingScenarios.

(** ** Totals of a Job *)

(** Peel the validators of a schema off a hypothesis [H : ... = Some _]. *)
Ltac peel H :=
  repeat match type of H with
         | mbind _ ?e = Some _ =>
             let E := fresh "E" in
             destruct e eqn:E; cbn [mbind option_bind] in H; [|discriminate H]
         end.

Section Totals.
Context `{Env} `{Libs}.

Lemma required_min_inv min o q :
  Schema.required_min min o = Some q -> o = Some q /\ (min <= q)%Q.
Proof.
  unfold Schema.required_min. destruct o as [q'|]; [|discriminate].
  destruct (Qle_bool min q') eqn:Hle; [|discriminate].
  intros [= ->]. split; [reflexivity | now apply Qle_bool_iff].
Qed.

Lemma counters_inv sent q :
  recordSchema.counters sent = Some q ->
  forall l, q l = default 0%Q (sent ≫= (fun f => f l)).
Proof.
  unfold recordSchema.counters.
  destruct (forallb _ _) eqn:Hall; [|discriminate].
  intros [= <-] l. rewrite forallb_forall in Hall.
  assert (Hl : In l recordSchema.locations) by (destruct l; cbn; tauto).
  specialize (Hall l Hl). apply bool_decide_eq_true in Hall as [v Hv].
  rewrite Hv. cbn [default from_option]. unfold id.
  unfold Schema.default_min in Hv.
  destruct (sent ≫= (fun f => f l)) as [x|]; cbn [default from_option].
  - destruct (Qle_bool 0 x); congruence.
  - congruence.
Qed.

Lemma create_keeps now b doc :
  recordSchema.create now b = Some doc ->
  recordSchema.Body.totalQuantity b = Some (recordSchema.Doc.totalQuantity doc)
  /\ recordSchema.Body.totalSavings b = Some (recordSchema.Doc.totalSavings doc)
  /\ recordSchema.Body.savingsPerProduct b
     = Some (recordSchema.Doc.savingsPerProduct doc)
  /\ (forall l, recordSchema.Doc.quantities doc l = Spec.sent_counters b l).
Proof.
  unfold recordSchema.create. intros Hc. peel Hc.
  injection Hc as <-. cbn.
  repeat match goal with
         | E : Schema.required_min _ _ = Some _ |- _ =>
             apply required_min_inv in E as [E _]
         end.
  unfold Schema.required_number in *.
  repeat split; try assumption.
  now apply counters_inv.
Qed.

End Totals.

Section Totals2.
Context `{Env} `{Libs}.

Lemma on_update_inv {A B : Type} (validate : option A -> option B) sent change :
  Schema.on_update validate sent = Some change ->
  match sent with
  | Some _ => exists v, validate sent = Some v /\ forall old, change old = v
  | None => forall old, change old = old
  end.
Proof.
  unfold Schema.on_update. destruct sent as [a|].
  - destruct (validate (Some a)) as [v|]; [|discriminate].
    cbn. intros [= <-]. eauto.
  - intros [= <-]. reflexivity.
Qed.

Lemma update_keeps now b change old :
  recordSchema.update now b = Some change ->
  let doc := change old in
  recordSchema.Doc.totalQuantity doc
  = default (recordSchema.Doc.totalQuantity old) (recordSchema.Body.totalQuantity b)
  /\ recordSchema.Doc.totalSavings doc
     = default (recordSchema.Doc.totalSavings old) (recordSchema.Body.totalSavings b)
  /\ recordSchema.Doc.savingsPerProduct doc
     = default (recordSchema.Doc.savingsPerProduct old)
         (recordSchema.Body.savingsPerProduct b)
  /\ (forall l, recordSchema.Doc.quantities doc l
                = match recordSchema.Body.quantities b with
                  | Some _ => Spec.sent_counters b l
                  | None => recordSchema.Doc.quantities old l
                  end).
Proof.
  unfold recordSchema.update. intros Hc. peel Hc.
  injection Hc as <-. cbn.
  repeat match goal with
         | E : Schema.on_update _ _ = Some _ |- _ => apply on_update_inv in E
         end.
  destruct (recordSchema.Body.totalQuantity b) as [tq|];
    destruct (recordSchema.Body.totalSavings b) as [ts|];
    destruct (recordSchema.Body.savingsPerProduct b) as [sp|];
    destruct (recordSchema.Body.quantities b) as [qs|] eqn:Hqs;
    cbn [default from_option]; unfold id;
    repeat match goal with
           | E : exists v, _ /\ _ |- _ => destruct E as (? & ? & ?)
           end;
    repeat match goal with
           | E : Schema.required_min _ _ = Some _ |- _ =>
               apply required_min_inv in E as [E _]
           end;
    unfold Schema.required_number in *;
    repeat split; try congruence.
  all: intros l; try congruence.
  all: unfold Spec.sent_counters; rewrite Hqs;
    match goal with
    | E : recordSchema.counters _ = Some _, F : forall old, _ = _ |- _ =>
        rewrite F; apply (counters_inv _ _ E)
    end.
Qed.

Lemma validateRecordstotals b :
  (Server.validateRecord b).2 = [] ->
  exists q, recordSchema.Body.totalQuantity b = Some q
            /\ Validator.is_integer q = true /\ (1 <= q)%Q.
Proof.
  unfold Server.validateRecord. cbn [snd]. intros Herr.
  repeat (apply app_eq_nil in Herr as [? Herr]).
  match goal with
  | E : Validator.check "totalQuantity" ?ok = [] |- _ =>
      destruct ok eqn:Hok; [clear E | discriminate E]
  end.
  unfold Validator.isInt in Hok.
  destruct (recordSchema.Body.totalQuantity b) as [q|]; [|discriminate].
  rewrite !andb_true_iff, !Qle_bool_iff in Hok.
  exists q. intuition.
Qed.

Lemma counters_sum_ext q q' :
  (forall l, q l = q' l) -> Spec.counters_sum q = Spec.counters_sum q'.
Proof.
  intros Hq. unfold Spec.counters_sum, recordSchema.locations.
  cbn [foldr]. now rewrite !Hq.
Qed.

End Totals2.

(** C1, as amended.  The write path recomputes nothing.  A Job that create
    accepts is stored with the total quantity, the total savings, the
    savings per product and the seven counters that the client submitted, an
    absent counter as 0; the total quantity has been validated to be an
    integer of at least 1.  So the two equations hold of the stored Job
    exactly when they hold of the submitted values.  A Job that update
    accepts is stored likewise, a field that the body omits keeping its
    stored value. *)
Theorem job_totals_are_stored_as_submitted `{Env} `{Libs}
    (st : Store) (req : Request recordSchema.Body.t) (now : Z) :
  let b := body req in
  let submitted (doc : recordSchema.Doc.t) :=
    recordSchema.Body.totalQuantity b = Some (recordSchema.Doc.totalQuantity doc)
    /\ Validator.is_integer (recordSchema.Doc.totalQuantity doc) = true
    /\ (1 <= recordSchema.Doc.totalQuantity doc)%Q in
  (status (Server.post_records st req now).2 = 201 ->
   exists id doc,
     Server.post_records st req now
     = (Server.set_Record st (<[id := doc]> (Records st)),
        reply 201 (Some "Record created successfully") (RecordData id doc))
     /\ Records st !! id = None
     /\ submitted doc
     /\ recordSchema.Body.totalSavings b = Some (recordSchema.Doc.totalSavings doc)
     /\ recordSchema.Body.savingsPerProduct b
        = Some (recordSchema.Doc.savingsPerProduct doc)
     /\ (forall l, recordSchema.Doc.quantities doc l = Spec.sent_counters b l)
     /\ (Spec.consistent doc
         <-> Spec.totals_hold (Spec.sent_counters b)
               (recordSchema.Doc.totalQuantity doc)
               (recordSchema.Doc.savingsPerProduct doc)
               (recordSchema.Doc.totalSavings doc)))
  /\ (status (Server.put_records st req now).2 = 200 ->
      exists id old doc,
        castObjectId (params_id req) = Some id
        /\ Records st !! id = Some old
        /\ Server.put_records st req now
           = (Server.set_Record st (<[id := doc]> (Records st)),
              reply 200 (Some "Record updated successfully") (RecordData id doc))
        /\ submitted doc
        /\ recordSchema.Doc.totalSavings doc
           = default (recordSchema.Doc.totalSavings old) (recordSchema.Body.totalSavings b)
        /\ recordSchema.Doc.savingsPerProduct doc
           = default (recordSchema.Doc.savingsPerProduct old)
               (recordSchema.Body.savingsPerProduct b)
        /\ (forall l, recordSchema.Doc.quantities doc l
                      = match recordSchema.Body.quantities b with
                        | Some _ => Spec.sent_counters b l
                        | None => recordSchema.Doc.quantities old l
                        end)).
Proof.
  intros b submitted. subst submitted b. cbv zeta. split.
  - unfold Server.post_records, Server.protected.
    destruct (Server.authenticateToken req now) as [res|claims] eqn:Hauth.
    { destruct (authenticateToken_cases req now) as [(c & Hc & _)|(_ & r & Hr)];
        [congruence|]. rewrite Hauth in Hr. injection Hr as ->. discriminate. }
    cbn [body with_user].
    destruct (Server.validateRecord (body req)) as [b' errors] eqn:Hval.
    destruct errors as [|e errors]; [|discriminate].
    destruct (recordSchema.create now b') as [doc|] eqn:Hdoc; [|discriminate].
    intros _. exists (fresh (dom (Records st))), doc.
    assert (Hb' : b' = (Server.validateRecord (body req)).1) by now rewrite Hval.
    destruct (validateRecordstotals (body req)) as (q & Hq & Hint & Hone);
      [now rewrite Hval|].
    destruct (create_keeps now b' doc Hdoc) as (Htq & Hts & Hsp & Hqs).
    rewrite Hb' in Htq, Hts, Hsp, Hqs. cbn in Htq, Hts, Hsp.
    assert (Hcounters : forall l, recordSchema.Doc.quantities doc l
                                  = Spec.sent_counters (body req) l)
      by (intros l; now rewrite Hqs).
    split; [reflexivity|]. split; [apply not_elem_of_dom, is_fresh|].
    split; [split; [assumption|];
            assert (q = recordSchema.Doc.totalQuantity doc) as <- by congruence;
            now split|].
    split; [assumption|]. split; [assumption|]. split; [assumption|].
    unfold Spec.consistent, Spec.totals_hold.
    now rewrite (counters_sum_ext _ _ Hcounters).
  - unfold Server.put_records, Server.protected.
    destruct (Server.authenticateToken req now) as [res|claims] eqn:Hauth.
    { destruct (authenticateToken_cases req now) as [(c & Hc & _)|(_ & r & Hr)];
        [congruence|]. rewrite Hauth in Hr. injection Hr as ->. discriminate. }
    cbn [body with_user params_id].
    destruct (Server.validateRecord (body req)) as [b' errors] eqn:Hval.
    destruct errors as [|e errors]; [|discriminate].
    destruct (castObjectId (params_id req)) as [id|] eqn:Hid; [|discriminate].
    destruct (recordSchema.update now b') as [change|] eqn:Hchange; [|discriminate].
    destruct (Records st !! id) as [old|] eqn:Hold; [|discriminate].
    intros _. exists id, old, (change old).
    assert (Hb' : b' = (Server.validateRecord (body req)).1) by now rewrite Hval.
    destruct (validateRecordstotals (body req)) as (q & Hq & Hint & Hone);
      [now rewrite Hval|].
    destruct (update_keeps now b' change old Hchange) as (Htq & Hts & Hsp & Hqs).
    rewrite Hb' in Htq, Hts, Hsp, Hqs. cbn in Htq, Hts, Hsp, Hqs.
    rewrite Hq in Htq. cbn in Htq.
    split; [reflexivity|]. split; [exact Hold|]. split; [reflexivity|].
    split; [rewrite Htq; auto|].
    split; [assumption|]. split; [assumption|].
    intros l. rewrite (Hqs l). unfold Spec.sent_counters. reflexivity.
Qed.

Section TotalsScenarios.
#[local] Existing Instances Sample.env Sample.libs.

(** C1, as stated, fails: the administrator creates a Job that declares a
    total of five with one unit counted and no savings at ten a piece; the
    Job is accepted and stored with these totals. *)
Lemma create_stores_inconsistent_totals :
  status (Server.post_records Sample.empty (Sample.create_bracket Sample.admin)
            (Sample.login_at + 1000)).2 = 201
  /\ exists doc,
       Records (Server.post_records Sample.empty (Sample.create_bracket Sample.admin)
                  (Sample.login_at + 1000)).1 !! 0%N = Some doc
       /\ data (Server.post_records Sample.empty (Sample.create_bracket Sample.admin)
                  (Sample.login_at + 1000)).2 = RecordData 0 doc
       /\ recordSchema.Doc.totalQuantity doc = 5%Q
       /\ Spec.counters_sum (recordSchema.Doc.quantities doc) = 1%Q
       /\ recordSchema.Doc.savingsPerProduct doc = 10%Q
       /\ recordSchema.Doc.totalSavings doc = 0%Q
       /\ ~ Spec.consistent doc.
Proof.
  split; [vm_compute; reflexivity|].
  destruct (Records (Server.post_records Sample.empty (Sample.create_bracket Sample.admin)
                       (Sample.login_at + 1000)).1 !! 0%N) as [doc|] eqn:Hdoc;
    [|vm_compute in Hdoc; discriminate].
  exists doc. vm_compute in Hdoc. injection Hdoc as <-.
  split; [reflexivity|]. split; [vm_compute; reflexivity|].
  split; [reflexivity|]. split; [vm_compute; reflexivity|].
  split; [reflexivity|]. split; [reflexivity|].
  intros [Hsum _]. vm_compute in Hsum. discriminate.
Qed.

(** C1, as amended, at that request, and at the update of a stored Job
    by the same body. *)
Lemma job_totals_are_stored_as_submitted_witness :
  (exists id doc,
      Records (Server.post_records Sample.empty (Sample.create_bracket Sample.admin)
                 (Sample.login_at + 1000)).1 !! id = Some doc
      /\ Some (recordSchema.Doc.totalQuantity doc) = Some 5%Q
      /\ Some (recordSchema.Doc.totalSavings doc) = Some 0%Q)
  /\ (exists doc,
         Records (Server.put_records (Sample.with_records 3) Sample.update_bracket
                    (Sample.login_at + 1000)).1 !! 0%N = Some doc
         /\ Some (recordSchema.Doc.totalQuantity doc) = Some 5%Q
         /\ recordSchema.Doc.totalSavings doc = 0%Q).
Proof.
  split.
  - destruct (job_totals_are_stored_as_submitted Sample.empty
                (Sample.create_bracket Sample.admin) (Sample.login_at + 1000))
      as [Hcreate _].
    destruct Hcreate as (id & doc & -> & _ & (Htq & _) & Hts & _);
      [vm_compute; reflexivity|].
    exists id, doc. cbn [fst Records Server.set_Record].
    split; [apply lookup_insert_eq|]. split; [now rewrite <- Htq | now rewrite <- Hts].
  - destruct (job_totals_are_stored_as_submitted (Sample.with_records 3)
                Sample.update_bracket (Sample.login_at + 1000))
      as [_ Hupdate].
    destruct Hupdate as (id & old & doc & Hid & _ & -> & (Htq & _) & Hts & _);
      [vm_compute; reflexivity|].
    assert (id = 0%N) as -> by (vm_compute in Hid; congruence).
    exists doc. cbn [fst Records Server.set_Record].
    split; [apply lookup_insert_eq|]. split; [now rewrite <- Htq | exact Hts].
Defined.

End TotalsScenarios.

(** ** The sweep *)

Section Sweep.
Local Open Scope list_scope.
Context {World : Type} (fetch : World -> Client.Call -> World * Client.Fetched).

(** One request: what it adds to the log, and what it leaves alone. *)
Lemma apiRequest_log r endpoint method payload r1 o :
  Client.apiRequest fetch r endpoint method payload = (r1, o) ->
  exists call,
    Client.log r1 = Client.log r ++ [(call, o)]
    /\ Client.method call = method
    /\ Client.endpoint call = endpoint
    /\ Client.payload call = payload
    /\ Client.isOnline (Client.app r1) = Client.isOnline (Client.app r)
    /\ Client.storage (Client.app r1) = Client.storage (Client.app r).
Proof.
  unfold Client.apiRequest.
  destruct (fetch _ _) as [w [why|status parsed]].
  - intros [= <- <-]. eexists. cbn. repeat split.
  - destruct (status =? 401)%Z; [|destruct (negb (Client.ok status)); destruct parsed];
      intros [= <- <-]; eexists; cbn; repeat split.
Qed.

Lemma threw_not_found_dec message :
  JS.includes message "not found" = false -> ~ Spec.not_found (Client.Threw message).
Proof. intros Hno (m & [= <-] & Hyes). congruence. Qed.

(** The loop follows the trace of the specification. *)
Lemma push_trace records : forall r r' stopped,
  Client.push fetch r records = (r', stopped) ->
  exists trace,
    Client.log r' = Client.log r ++ trace
    /\ Spec.Pushed records trace stopped
    /\ Client.isOnline (Client.app r') = Client.isOnline (Client.app r)
    /\ Client.storage (Client.app r') = Client.storage (Client.app r).
Proof.
  induction records as [|record rest IH]; intros r r' stopped; cbn [Client.push].
  - intros [= <- <-]. exists []. rewrite app_nil_r. repeat split. constructor.
  - destruct (Client.apiRequest fetch r _ Client.PUT _) as [r1 o] eqn:Hput.
    destruct (apiRequest_log _ _ _ _ _ _ Hput) as (c & Hlog & Hm & He & Hp & Hon & Hst).
    assert (Hup : Spec.is_update record c) by (repeat split; assumption).
    destruct o as [value|message].
    + intros Hrest. destruct (IH _ _ _ Hrest) as (trace & Hlog' & Hpushed & Hon' & Hst').
      exists ((c, Client.Returned value) :: trace).
      rewrite Hlog', Hlog, <- app_assoc. split; [reflexivity|].
      split; [|split; congruence].
      apply Spec.pushed_update; [assumption | | assumption].
      intros (m & [=] & _).
    + destruct (JS.includes message "not found") eqn:Hnf.
      * destruct (Client.apiRequest fetch r1 _ Client.POST _) as [r2 o'] eqn:Hpost.
        destruct (apiRequest_log _ _ _ _ _ _ Hpost)
          as (c' & Hlog2 & Hm2 & He2 & Hp2 & Hon2 & Hst2).
        assert (Hcr : Spec.is_create record c') by (repeat split; assumption).
        assert (Hnot : Spec.not_found (Client.Threw message)) by (exists message; auto).
        destruct o' as [value|message'].
        -- intros Hrest.
           destruct (IH _ _ _ Hrest) as (trace & Hlog' & Hpushed & Hon' & Hst').
           exists ((c, Client.Threw message) :: (c', Client.Returned value) :: trace).
           rewrite Hlog', Hlog2, Hlog, <- !app_assoc. split; [reflexivity|].
           split; [|split; congruence].
           apply Spec.pushed_create; try assumption.
           intros (m & [=]).
        -- intros [= <- <-].
           exists [(c, Client.Threw message); (c', Client.Threw message')].
           rewrite Hlog2, Hlog, <- app_assoc. split; [reflexivity|].
           split; [|split; congruence].
           apply Spec.pushed_stop; try assumption. now exists message'.
      * intros Hrest.
        destruct (IH _ _ _ Hrest) as (trace & Hlog' & Hpushed & Hon' & Hst').
        exists ((c, Client.Threw message) :: trace).
        rewrite Hlog', Hlog, <- app_assoc. split; [reflexivity|].
        split; [|split; congruence].
        apply Spec.pushed_update; [assumption | | assumption].
        now apply threw_not_found_dec.
Qed.

(** What a trace of the specification contains. *)
Lemma Pushed_entries records trace stopped :
  Spec.Pushed records trace stopped ->
  forall entry, entry ∈ trace ->
    exists record, record ∈ records
                   /\ (Spec.is_update record entry.1 \/ Spec.is_create record entry.1).
Proof.
  induction 1 as [|record rest c o trace stopped Hu Hn Hp IH
                  |record rest c o c' o' trace stopped Hu Hn Hc Ht Hp IH
                  |record rest c o c' o' Hu Hn Hc Ht];
    intros entry Hin.
  - now apply elem_of_nil in Hin.
  - apply elem_of_cons in Hin as [->|Hin].
    + exists record. split; [left | left; assumption].
    + destruct (IH _ Hin) as (x & Hx & Hor). exists x. split; [now right | assumption].
  - apply elem_of_cons in Hin as [->|Hin];
      [|apply elem_of_cons in Hin as [->|Hin]].
    + exists record. split; [left | left; assumption].
    + exists record. split; [left | right; assumption].
    + destruct (IH _ Hin) as (x & Hx & Hor). exists x. split; [now right | assumption].
  - apply elem_of_cons in Hin as [->|Hin];
      [|apply list_elem_of_singleton in Hin as ->].
    + exists record. split; [left | left; assumption].
    + exists record. split; [left | right; assumption].
Qed.

Lemma Pushed_all records trace :
  Spec.Pushed records trace false ->
  forall record, record ∈ records ->
    exists entry, entry ∈ trace /\ Spec.is_update record entry.1.
Proof.
  intros Hp. remember false as stopped eqn:Hs.
  induction Hp as [|record rest c o trace stopped Hu Hn Hp IH
                   |record rest c o c' o' trace stopped Hu Hn Hc Ht Hp IH
                   |record rest c o c' o' Hu Hn Hc Ht];
    intros x Hx; try discriminate.
  - now apply elem_of_nil in Hx.
  - apply elem_of_cons in Hx as [->|Hx].
    + exists (c, o). split; [left | assumption].
    + destruct (IH Hs _ Hx) as (e & He & Hue). exists e. split; [now right | assumption].
  - apply elem_of_cons in Hx as [->|Hx].
    + exists (c, o). split; [left | assumption].
    + destruct (IH Hs _ Hx) as (e & He & Hue).
      exists e. split; [now do 2 right | assumption].
Qed.

End Sweep.

(** C2, as amended.  When the health probe of the sweep returns, the
    connectivity flag is set true, and it is set back to false when the
    cached data cannot be parsed or a fallback create throws.  The cached
    Jobs are pushed in order, each by an update-by-id that is followed by a
    create exactly when the update throws an error whose message contains
    [not found]; the sweep ends at the first create that throws, and then
    the Jobs after it are not tried; if no create throws, every cached Job
    is tried.  Every request of the sweep after the probe is such an update
    or create of a cached Job: Feedback and Projects are never pushed. *)
Theorem sweep_pushes_jobs_until_a_create_throws {World : Type}
    (fetch : World -> Client.Call -> World * Client.Fetched)
    (r probed : Client.Run) (value : option (option string)) :
  Client.apiRequest fetch r "/health" Client.GET None = (probed, Client.Returned value) ->
  let r' := Client.syncWithServer fetch r in
  match Client.storage (Client.app r) with
  | Client.Saved localData =>
      let jobs := default [] (Client.records localData) in
      exists trace stopped,
        Client.log r' = (Client.log probed ++ trace)%list
        /\ Spec.Pushed jobs trace stopped
        /\ Client.isOnline (Client.app r') = negb stopped
        /\ (forall entry, entry ∈ trace ->
              exists job, job ∈ jobs
                          /\ (Spec.is_update job entry.1 \/ Spec.is_create job entry.1))
        /\ (stopped = false ->
            forall job, job ∈ jobs ->
              exists entry, entry ∈ trace /\ Spec.is_update job entry.1)
  | Client.Absent =>
      Client.log r' = Client.log probed /\ Client.isOnline (Client.app r') = true
  | Client.Unparsable =>
      Client.log r' = Client.log probed /\ Client.isOnline (Client.app r') = false
  end.
Proof.
  intros Hprobe r'. subst r'. unfold Client.syncWithServer. rewrite Hprobe.
  destruct (apiRequest_log _ _ _ _ _ _ _ Hprobe) as (_ & _ & _ & _ & _ & _ & Hst).
  cbn [Client.online Client.app Client.storage Client.set_online].
  rewrite Hst. destruct (Client.storage (Client.app r)) as [| |localData].
  - split; reflexivity.
  - split; reflexivity.
  - cbv zeta.
    destruct (Client.push fetch _ (default [] (Client.records localData)))
      as [r3 stopped] eqn:Hpush.
    destruct (push_trace fetch _ _ _ _ Hpush) as (trace & Hlog & Hpushed & Hon & _).
    cbn [Client.log Client.app Client.isOnline Client.set_online] in Hlog, Hon.
    exists trace, stopped.
    split; [now destruct stopped|].
    split; [assumption|].
    split; [now destruct stopped|].
    split; [now apply (Pushed_entries _ _ _ Hpushed)|].
    intros ->. now apply Pushed_all.
Qed.

(** C2, as stated, fails: the probe returns, the update of the first of two
    cached Jobs is answered not-found and its create is refused; the second
    Job is never tried and the flag ends false. *)
Lemma sweep_stops_at_a_refused_create :
  (Client.apiRequest Sample.refusing Sample.two_pending "/health" Client.GET None).2
  = Client.Returned (Some None)
  /\ Client.isOnline (Client.app Sample.swept) = false
  /\ (fun e => (Client.method e.1, Client.endpoint e.1, e.2)) <$> Client.log Sample.swept
     = [(Client.GET, "/health", Client.Returned (Some None));
        (Client.PUT, "/records/1705300000001", Client.Threw "Record not found");
        (Client.POST, "/records", Client.Threw "Validation failed")]
  /\ ~ exists entry, entry ∈ Client.log Sample.swept
                     /\ Spec.is_update (Sample.job "1705300000002") entry.1.
Proof.
  split; [vm_compute; reflexivity|].
  split; [vm_compute; reflexivity|].
  split; [vm_compute; reflexivity|].
  intros (entry & Hin & _ & Hend & _).
  assert (Hends : Forall (fun e => Client.endpoint e.1 <> "/records/1705300000002")
                    (Client.log Sample.swept))
    by (vm_compute; repeat constructor; discriminate).
  rewrite Forall_forall in Hends. now apply (Hends entry Hin).
Qed.

(** C2, as amended, at that sweep. *)
Lemma sweep_pushes_jobs_until_a_create_throws_witness :
  exists trace,
    Client.log Sample.swept = (Client.log Sample.probed ++ trace)%list
    /\ Spec.Pushed Sample.pending trace true
    /\ Client.isOnline (Client.app Sample.swept) = false.
Proof.
  pose proof (sweep_pushes_jobs_until_a_create_throws Sample.refusing Sample.two_pending
                _ (Some None) eq_refl) as Hsweep.
  cbn [Client.storage Client.app Sample.two_pending] in Hsweep.
  destruct Hsweep as (trace & stopped & Hlog & Hpushed & Hon & _).
  assert (Hstop : stopped = true).
  { destruct stopped; [reflexivity|]. vm_compute in Hon. discriminate. }
  subst stopped. exists trace. auto.
Defined.

(** * Further properties of the server *)

(** ** The log of authentications *)

(** X1.  Every login attempt of a request that has an address is logged once:
    the log gains exactly one entry, at its end, with the address and the user
    agent of the request, the action [login], the instant, and the outcome,
    which is a success exactly when the answer is 200; no other collection
    changes.  An attempt without an address is not logged, the failure of the
    log being swallowed, and is answered as any other. *)
Theorem login_attempt_is_logged_once `{Env} `{Libs}
    (st : Store) (req : Request (option string)) (now : Z) :
  let st' := (Server.post_auth_login st req now).1 in
  let res := (Server.post_auth_login st req now).2 in
  (ip req <> "" ->
   AuthLog st'
   = (AuthLog st ++
        [{| authLogSchema.ip := ip req;
            authLogSchema.userAgent := userAgent req;
            authLogSchema.action := "login";
            authLogSchema.success := success res;
            authLogSchema.timestamp := now |}])%list)
  /\ (ip req = "" -> AuthLog st' = AuthLog st)
  /\ (success res = true <-> status res = 200)
  /\ Records st' = Records st /\ Feedback st' = Feedback st
  /\ Project st' = Project st /\ Settings st' = Settings st.
Proof.
  cbv zeta. unfold Server.post_auth_login, Server.logAuthAttempt.
  destruct (String.eqb_spec (ip req) "") as [Hip|Hip];
    destruct (negb (JS.truthy (body req)));
    [| destruct (bcrypt_compare _ _) | | destruct (bcrypt_compare _ _)];
    cbn; repeat split; (congruence || discriminate || reflexivity || idtac).
Qed.

(** ** The word that [authenticateToken] reads *)

Section Scheme.
Context `{Env} `{Libs}.

Lemma second_word_of scheme token :
  JS.lacks " " scheme = true -> JS.lacks " " token = true ->
  JS.split_on " " (scheme ++ " " ++ token) !! 1%nat = Some token.
Proof.
  intros Hs Ht. change (" " ++ token) with (String " " token).
  rewrite split_on_app by assumption. now rewrite split_on_lacks.
Qed.

Lemma header_is_truthy scheme token :
  JS.truthy (Some (scheme ++ " " ++ token)) = true.
Proof. destruct scheme; reflexivity. Qed.

End Scheme.

(** X2.  [authenticateToken] reads the second word of the authorization header
    and nothing else.  A header of two words whose second is a token that
    [jwt.verify] accepts lets the request through, with the claims of the
    token as its user, whatever the first word is.  A header of one word is
    answered 401 as if no token had been sent, even when the word is such a
    token. *)
Theorem only_the_second_word_of_the_header_is_read `{Env} `{Libs} {B}
    (h : Handler B) (st : Store) (req : Request B) (now : Z) :
  (forall scheme token claims,
      authorization req = Some (scheme ++ " " ++ token) ->
      JS.lacks " " scheme = true -> JS.lacks " " token = true ->
      Jwt.verify token JWT_SECRET now = Jwt.Decoded claims ->
      Server.protected h st req now = h st (with_user req claims) now)
  /\ (forall word,
         authorization req = Some word -> JS.lacks " " word = true ->
         Server.protected h st req now = (st, failure 401 "Access token required")).
Proof.
  split.
  - intros scheme token claims Hauth Hs Ht Hv.
    unfold Server.protected, Server.authenticateToken, Server.bearer_token.
    rewrite Hauth, header_is_truthy, second_word_of by assumption.
    destruct token as [|c t].
    + now vm_compute in Hv.
    + cbn [JS.truthy negb default from_option]. unfold id. now rewrite Hv.
  - intros word Hauth Hw.
    unfold Server.protected, Server.authenticateToken, Server.bearer_token.
    rewrite Hauth. destruct word as [|c w]; [reflexivity|].
    cbn [JS.truthy]. now rewrite split_on_lacks.
Qed.

Section SchemeScenarios.
#[local] Existing Instances Sample.env Sample.libs.

(** X2, a scenario.  The token of the login, sent under the scheme [Basic]
    and sent bare. *)
Lemma only_the_second_word_of_the_header_is_read_witness :
  Server.protected Sample.acknowledge Sample.empty Sample.basic Sample.login_at
  = (Sample.empty, reply 200 None NoData)
  /\ Server.protected Sample.acknowledge Sample.empty Sample.bare Sample.login_at
     = (Sample.empty, failure 401 "Access token required").
Proof.
  pose proof (only_the_second_word_of_the_header_is_read Sample.acknowledge
                Sample.empty Sample.basic Sample.login_at) as [Hbasic _].
  pose proof (only_the_second_word_of_the_header_is_read Sample.acknowledge
                Sample.empty Sample.bare Sample.login_at) as [_ Hbare].
  split.
  - apply (Hbasic "Basic" Sample.token Sample.claims);
      vm_compute; reflexivity.
  - apply (Hbare Sample.token); vm_compute; reflexivity.
Defined.
End SchemeScenarios.

(** Run the protected route of the goal with the credential [Hcred]. *)
Ltac pass_protected st req now Hcred :=
  match goal with
  | |- context [Server.protected ?h st req now] =>
      let c := fresh "claims" in
      destruct (protected_accepts h st req now Hcred) as (c & _ & ->)
  end.

(** ** What the chains of [validateRecord] leave in a stored Job *)

Section Escapes.

Lemma lacks_escape c s :
  c ∈ Notions.markup -> JS.lacks c (Validator.escape s) = true.
Proof.
  intros Hc. induction s as [|a s IH]; [reflexivity|].
  cbn [Validator.escape]. rewrite lacks_app, IH, andb_true_r.
  unfold Notions.markup in Hc.
  repeat (apply elem_of_cons in Hc as [->|Hc]);
    [..|now apply elem_of_nil in Hc];
    repeat match goal with
           | |- context [Ascii.eqb a ?x] =>
               destruct (Ascii.eqb_spec a x) as [->|?]; [reflexivity|]
           end;
    cbn [JS.lacks]; rewrite andb_true_r;
    apply negb_true_iff, Ascii.eqb_neq; assumption.
Qed.

Lemma required_string_inv max o s :
  Schema.required_string max o = Some s ->
  o = Some s /\ s <> "" /\ (String.length s <= max)%nat.
Proof.
  unfold Schema.required_string. destruct o as [t|]; [|discriminate].
  destruct (String.eqb_spec t ""); cbn [negb andb]; [discriminate|].
  destruct (Nat.leb_spec (String.length t) max); [|discriminate].
  intros [= <-]. auto.
Qed.

Lemma optional_string_inv max o r :
  Schema.optional_string max o = Some r -> o = r.
Proof.
  unfold Schema.optional_string. destruct o as [t|]; [|congruence].
  destruct (String.length t <=? max)%nat; congruence.
Qed.

Lemma required_string_long max s :
  (max < String.length s)%nat -> Schema.required_string max (Some s) = None.
Proof.
  intros Hlen. unfold Schema.required_string.
  destruct (Nat.leb_spec (String.length s) max); [lia|].
  now rewrite andb_false_r.
Qed.

Context `{Env} `{Libs}.

(** The text fields of a Job that the schema accepts. *)
Lemma create_texts now b doc :
  recordSchema.create now b = Some doc ->
  recordSchema.Body.projectName b = Some (recordSchema.Doc.projectName doc)
  /\ recordSchema.Body.partType b = Some (recordSchema.Doc.partType doc)
  /\ recordSchema.Body.partSize b = Some (recordSchema.Doc.partSize doc)
  /\ recordSchema.Body.partName b = Some (recordSchema.Doc.partName doc)
  /\ recordSchema.Body.application b = Some (recordSchema.Doc.application doc)
  /\ recordSchema.Body.sharepointLink b = recordSchema.Doc.sharepointLink doc
  /\ recordSchema.Body.materialUsed b = Some (recordSchema.Doc.materialUsed doc)
  /\ recordSchema.Body.machineName b = Some (recordSchema.Doc.machineName doc)
  /\ recordSchema.Body.image b = recordSchema.Doc.image doc.
Proof.
  unfold recordSchema.create. intros Hc. peel Hc.
  injection Hc as <-. cbn.
  repeat match goal with
         | E : Schema.required_string _ _ = Some _ |- _ =>
             apply required_string_inv in E as [E _]
         | E : Schema.optional_string _ _ = Some _ |- _ =>
             apply optional_string_inv in E
         end.
  repeat split; assumption.
Qed.

(** A Job whose project name is longer than the schema allows. *)
Lemma create_long_name now b s :
  recordSchema.Body.projectName b = Some s ->
  (100 < String.length s)%nat ->
  recordSchema.create now b = None.
Proof.
  intros Hs Hlen. unfold recordSchema.create.
  destruct (recordSchema.Body.date b ≫= castDate); [|reflexivity].
  cbn [mbind option_bind]. rewrite Hs.
  now rewrite required_string_long.
Qed.

Lemma update_long_name now b s :
  recordSchema.Body.projectName b = Some s ->
  (100 < String.length s)%nat ->
  recordSchema.update now b = None.
Proof.
  intros Hs Hlen. unfold recordSchema.update.
  destruct (Schema.on_update _ (recordSchema.Body.date b)); [|reflexivity].
  cbn [mbind option_bind]. rewrite Hs.
  cbn [Schema.on_update]. now rewrite required_string_long.
Qed.

End Escapes.

(** X3.  A Job that the create stores holds its project name, part name, part
    type, material and machine name trimmed and escaped: none of them contains
    an angle bracket, a quote, a slash, a backslash or a backquote.  Its part
    size, application, SharePoint link and image are stored as they were sent,
    markup included. *)
Theorem stored_job_texts_are_escaped `{Env} `{Libs}
    (st : Store) (req : Request recordSchema.Body.t) (now : Z) :
  status (Server.post_records st req now).2 = 201 ->
  exists id doc,
    data (Server.post_records st req now).2 = RecordData id doc
    /\ Records (Server.post_records st req now).1 !! id = Some doc
    /\ recordSchema.Doc.projectName doc
       = Notions.cleaned (recordSchema.Body.projectName (body req))
    /\ recordSchema.Doc.partName doc
       = Notions.cleaned (recordSchema.Body.partName (body req))
    /\ recordSchema.Doc.partType doc
       = Notions.cleaned (recordSchema.Body.partType (body req))
    /\ recordSchema.Doc.materialUsed doc
       = Notions.cleaned (recordSchema.Body.materialUsed (body req))
    /\ recordSchema.Doc.machineName doc
       = Notions.cleaned (recordSchema.Body.machineName (body req))
    /\ (forall c text,
           c ∈ Notions.markup ->
           text ∈ [recordSchema.Doc.projectName doc; recordSchema.Doc.partName doc;
                   recordSchema.Doc.partType doc; recordSchema.Doc.materialUsed doc;
                   recordSchema.Doc.machineName doc] ->
           JS.lacks c text = true)
    /\ recordSchema.Body.partSize (body req) = Some (recordSchema.Doc.partSize doc)
    /\ recordSchema.Body.application (body req)
       = Some (recordSchema.Doc.application doc)
    /\ recordSchema.Body.sharepointLink (body req) = recordSchema.Doc.sharepointLink doc
    /\ recordSchema.Body.image (body req) = recordSchema.Doc.image doc.
Proof.
  unfold Server.post_records, Server.protected.
  destruct (Server.authenticateToken req now) as [res|claims] eqn:Hauth.
  { destruct (authenticateToken_cases req now) as [(c & Hc & _)|(_ & r & Hr)];
      [congruence|]. rewrite Hauth in Hr. injection Hr as ->. discriminate. }
  cbn [body with_user].
  destruct (Server.validateRecord (body req)) as [b' errors] eqn:Hval.
  destruct errors as [|e errors]; [|discriminate].
  destruct (recordSchema.create now b') as [doc|] eqn:Hdoc; [|discriminate].
  intros _. exists (fresh (dom (Records st))), doc.
  assert (Hb' : b' = (Server.validateRecord (body req)).1) by now rewrite Hval.
  destruct (create_texts now b' doc Hdoc)
    as (Hpn & Hpt & Hps & Hpa & Hap & Hsl & Hmu & Hmn & Him).
  rewrite Hb' in Hpn, Hpt, Hps, Hpa, Hap, Hsl, Hmu, Hmn, Him.
  cbn in Hpn, Hpt, Hps, Hpa, Hap, Hsl, Hmu, Hmn, Him.
  unfold Server.clean in *. unfold Notions.cleaned.
  injection Hpn as Hpn. injection Hpt as Hpt. injection Hpa as Hpa.
  injection Hmu as Hmu. injection Hmn as Hmn.
  split; [reflexivity|].
  split; [cbn [fst Records Server.set_Record]; apply lookup_insert_eq|].
  do 5 (split; [congruence|]).
  split; [|auto].
  intros c text Hc Htext.
  repeat (apply elem_of_cons in Htext as [->|Htext]);
    [..|now apply elem_of_nil in Htext];
    match goal with
    | E : ?e = ?f |- JS.lacks c ?f = true => rewrite <- E; now apply lacks_escape
    end.
Qed.

(** X4.  [escape] runs after [isLength]: a project name that is short enough
    for the validator and whose escaped form is longer than the 100 characters
    of the schema passes the validation and is then refused by the schema.
    The create, and the update, are answered with the internal error 500 and
    not with the validation error 400, and nothing is stored. *)
Theorem escaped_name_beyond_the_schema_is_an_internal_error `{Env} `{Libs}
    (st : Store) (req : Request recordSchema.Body.t) (now : Z) :
  Spec.valid_credential req now ->
  (Server.validateRecord (body req)).2 = [] ->
  (100 < String.length (Notions.cleaned (recordSchema.Body.projectName (body req))))%nat ->
  Server.post_records st req now = (st, failure 500 "Failed to create record")
  /\ Server.put_records st req now = (st, failure 500 "Failed to update record").
Proof.
  intros Hcred Herr Hlen.
  unfold Server.post_records, Server.put_records.
  split; pass_protected st req now Hcred; cbn [body with_user params_id];
    destruct (Server.validateRecord (body req)) as [b' errors] eqn:Hval;
    cbn [snd] in Herr; subst errors;
    assert (Hb' : b' = (Server.validateRecord (body req)).1) by (now rewrite Hval).
  - rewrite (create_long_name now b'
               (Notions.cleaned (recordSchema.Body.projectName (body req))));
      [reflexivity | now rewrite Hb' | assumption].
  - rewrite (update_long_name now b'
               (Notions.cleaned (recordSchema.Body.projectName (body req))));
      [now destruct (castObjectId _) | now rewrite Hb' | assumption].
Qed.

Section EscapeScenarios.
#[local] Existing Instances Sample.env Sample.libs.

(** X3, a scenario.  The administrator creates a Job whose name and
    application carry markup: the name is stored escaped, the application as
    it was sent. *)
Lemma stored_job_texts_are_escaped_witness :
  exists id doc,
    data (Server.post_records Sample.empty Sample.create_tagged Sample.login_at).2
    = RecordData id doc
    /\ recordSchema.Doc.projectName doc = "&lt;b&gt;Conveyor&lt;&#x2F;b&gt;"
    /\ recordSchema.Doc.application doc = "<i>Line 3</i>".
Proof.
  destruct (stored_job_texts_are_escaped Sample.empty Sample.create_tagged
              Sample.login_at)
    as (id & doc & Hdata & _ & Hname & _ & _ & _ & _ & _ & _ & Happ & _).
  - vm_compute. reflexivity.
  - exists id, doc. split; [exact Hdata|]. split.
    + rewrite Hname. vm_compute. reflexivity.
    + cbn in Happ. congruence.
Defined.

(** X4, a scenario.  The administrator creates, and then updates, a Job
    under a name of 99 characters whose escaped form has 107. *)
Lemma escaped_name_beyond_the_schema_is_an_internal_error_witness :
  String.length Sample.long_name = 99%nat
  /\ Server.post_records Sample.empty Sample.create_long_named Sample.login_at
     = (Sample.empty, failure 500 "Failed to create record")
  /\ Server.put_records Sample.empty Sample.create_long_named Sample.login_at
     = (Sample.empty, failure 500 "Failed to update record").
Proof.
  split; [reflexivity|].
  apply escaped_name_beyond_the_schema_is_an_internal_error.
  - apply (login_token_valid _ Sample.login_at); [reflexivity | vm_compute; reflexivity].
  - vm_compute. reflexivity.
  - vm_compute. lia.
Defined.
End EscapeScenarios.

(** ** Create, list, delete and update of Jobs together *)

Section Jobs.
Context `{Env} `{Libs}.

(** What a create that is answered 201 has done. *)
Lemma post_records_created st (req : Request recordSchema.Body.t) now :
  status (Server.post_records st req now).2 = 201 ->
  exists id doc,
    Records st !! id = None
    /\ recordSchema.create now (Server.validateRecord (body req)).1 = Some doc
    /\ Server.post_records st req now
       = (Server.set_Record st (<[id := doc]> (Records st)),
          reply 201 (Some "Record created successfully") (RecordData id doc)).
Proof.
  unfold Server.post_records, Server.protected.
  destruct (Server.authenticateToken req now) as [res|claims] eqn:Hauth.
  { destruct (authenticateToken_cases req now) as [(c & Hc & _)|(_ & r & Hr)];
      [congruence|]. rewrite Hauth in Hr. injection Hr as ->. discriminate. }
  cbn [body with_user].
  destruct (Server.validateRecord (body req)) as [b' errors] eqn:Hval.
  destruct errors as [|e errors]; [|discriminate].
  destruct (recordSchema.create now b') as [doc|] eqn:Hdoc; [|discriminate].
  intros _. exists (fresh (dom (Records st))), doc.
  split; [apply not_elem_of_dom, is_fresh|]. split; [assumption | reflexivity].
Qed.

Lemma set_Record_same st : Server.set_Record st (Records st) = st.
Proof. now destruct st. Qed.

Lemma default_parameters {B} (read : Request B) :
  query read = ∅ ->
  Spec.coerces_to read "page" 1 1 /\ Spec.coerces_to read "limit" 100 100
  /\ query read !! "sortBy" = None /\ query read !! "sortOrder" = None.
Proof.
  intros Hq. unfold Spec.coerces_to, Query.param. rewrite Hq, !lookup_empty.
  cbn [JS.ToNumber]. rewrite !as_integer_of_Z. repeat split; reflexivity.
Qed.

Lemma slice_first_page {A} (l : list A) s :
  (length l <= Z.to_nat s)%nat -> Spec.slice 1 s l = l.
Proof.
  intros Hl. unfold Spec.slice. rewrite Z.sub_diag, Z.mul_0_l.
  cbn [Z.to_nat drop]. now apply take_ge.
Qed.

End Jobs.

(** X5.  A Job that has just been created is listed: on a collection that held
    fewer than 100 Jobs, the list with the default parameters that follows a
    create answers 200 with the new Job and the Jobs held before, and counts
    one Job more. *)
Theorem created_job_is_listed `{Env} `{Libs} {B}
    (st : Store) (req : Request recordSchema.Body.t) (read : Request B)
    (now later : Z) :
  status (Server.post_records st req now).2 = 201 ->
  (size (Records st) < 100)%nat ->
  query read = ∅ ->
  let st' := (Server.post_records st req now).1 in
  exists id doc docs pg,
    data (Server.post_records st req now).2 = RecordData id doc
    /\ Server.get_records st' read later = (st', reply 200 None (RecordPage docs pg))
    /\ (id, doc) ∈ docs
    /\ docs ≡ₚ (id, doc) :: map_to_list (Records st)
    /\ Sorted (Query.newest_first recordSchema.Doc.createdAt) docs
    /\ total pg = S (size (Records st)).
Proof.
  intros Hok Hsize Hq.
  destruct (post_records_created st req now Hok) as (id & doc & Hfresh & _ & ->).
  cbv zeta. cbn [fst snd data reply].
  destruct (default_parameters read Hq) as (Hp & Hs & Hby & Hord).
  destruct (get_records_page
              (Server.set_Record st (<[id := doc]> (Records st))) read later 1 100
              Hp Hs Hby Hord) as (pg & -> & Htotal & _).
  cbn [Records Server.set_Record] in *.
  assert (Hperm : merge_sort (Query.newest_first recordSchema.Doc.createdAt)
                    (map_to_list (<[id := doc]> (Records st)))
                  ≡ₚ (id, doc) :: map_to_list (Records st)).
  { rewrite merge_sort_Permutation. now apply map_to_list_insert. }
  rewrite slice_first_page.
  2:{ rewrite Hperm. cbn [length]. rewrite length_map_to_list.
      change (Z.to_nat 100) with 100%nat. lia. }
  eexists id, doc, _, pg. split; [reflexivity|]. split; [reflexivity|].
  split; [rewrite Hperm; left|]. split; [assumption|].
  split; [apply Sorted_merge_sort; apply _|].
  rewrite Htotal. now rewrite map_size_insert_None.
Qed.

(** X6.  Create and delete are inverse: the delete of the Job that a create
    has just stored, addressed by the id that the create returned, answers 200
    and leaves the store as it was before the create. *)
Theorem delete_undoes_create `{Env} `{Libs} {B}
    (st : Store) (req : Request recordSchema.Body.t) (del : Request B)
    (now later : Z) (id : ObjectId) (doc : recordSchema.Doc.t) :
  (Server.post_records st req now).2
  = reply 201 (Some "Record created successfully") (RecordData id doc) ->
  Spec.valid_credential del later ->
  castObjectId (params_id del) = Some id ->
  Server.delete_records (Server.post_records st req now).1 del later
  = (st, reply 200 (Some "Record deleted successfully") NoData).
Proof.
  intros Hres Hcred Hid.
  destruct (post_records_created st req now) as (id' & doc' & Hfresh & _ & Hrun);
    [now rewrite Hres|].
  rewrite Hrun in Hres |- *. cbn [fst snd] in *. injection Hres as <- <-.
  unfold Server.delete_records.
  pass_protected (Server.set_Record st (<[id' := doc']> (Records st))) del later Hcred.
  cbn [params_id with_user Records Server.set_Record]. rewrite Hid, lookup_insert_eq.
  f_equal. cbn [Server.set_Record Feedback Project Settings AuthLog].
  rewrite delete_insert_id by assumption. now destruct st.
Qed.

Section JobScenarios.
#[local] Existing Instances Sample.env Sample.libs.

(** X5, a scenario.  The administrator adds a Job to two; a visitor lists
    the three. *)
Lemma created_job_is_listed_witness :
  exists id doc docs pg,
    data (Server.post_records (Sample.with_records 2)
            (Sample.create_bracket Sample.admin) Sample.login_at).2
    = RecordData id doc
    /\ (Server.get_records
          (Server.post_records (Sample.with_records 2)
             (Sample.create_bracket Sample.admin) Sample.login_at).1
          Sample.list_all (Sample.login_at + 1000)).2
       = reply 200 None (RecordPage docs pg)
    /\ (id, doc) ∈ docs
    /\ total pg = 3%nat.
Proof.
  destruct (created_job_is_listed (Sample.with_records 2)
              (Sample.create_bracket Sample.admin) Sample.list_all
              Sample.login_at (Sample.login_at + 1000))
    as (id & doc & docs & pg & Hdata & Hlist & Hin & _ & _ & Htotal).
  - vm_compute. reflexivity.
  - vm_compute. lia.
  - reflexivity.
  - exists id, doc, docs, pg. split; [exact Hdata|].
    split; [now rewrite Hlist|]. split; [exact Hin|].
    rewrite Htotal. vm_compute. reflexivity.
Defined.

(** X6, a scenario.  The administrator creates a Job in an empty store and
    deletes it. *)
Lemma delete_undoes_create_witness :
  Server.delete_records
    (Server.post_records Sample.empty (Sample.create_bracket Sample.admin)
       Sample.login_at).1
    Sample.delete_first (Sample.login_at + 1000)
  = (Sample.empty, reply 200 (Some "Record deleted successfully") NoData).
Proof.
  eapply delete_undoes_create.
  - vm_compute. reflexivity.
  - apply (login_token_valid _ Sample.login_at); [reflexivity | vm_compute; reflexivity].
  - vm_compute. reflexivity.
Defined.
End JobScenarios.

(** ** Update by id *)

Section Updates.
Context `{Env} `{Libs}.

(** The instant of creation after an update: the one that the update
    sets, or the one that was stored. *)
Lemma on_update_date (sent : option string) (change : Z -> Z) (old : Z) :
  Schema.on_update (fun o => o ≫= castDate) sent = Some change ->
  match sent with
  | Some text => castDate text = Some (change old)
  | None => change old = old
  end.
Proof.
  unfold Schema.on_update. destruct sent as [text|].
  - cbn [mbind option_bind]. destruct (castDate text) as [t|]; [|discriminate].
    now intros [= <-].
  - now intros [= <-].
Qed.

Lemma record_update_stamps now b change old :
  recordSchema.update now b = Some change ->
  recordSchema.Doc.updatedAt (change old) = now
  /\ match recordSchema.Body.createdAt b with
     | Some text => castDate text = Some (recordSchema.Doc.createdAt (change old))
     | None => recordSchema.Doc.createdAt (change old) = recordSchema.Doc.createdAt old
     end.
Proof.
  unfold recordSchema.update. intros Hc. peel Hc.
  injection Hc as <-. split; [reflexivity|].
  cbn [recordSchema.Doc.createdAt]. now apply on_update_date.
Qed.

Lemma project_update_stamps now b due change old :
  projectSchema.update now b due = Some change ->
  projectSchema.Doc.updatedAt (change old) = now
  /\ match projectSchema.Body.createdAt b with
     | Some text => castDate text = Some (projectSchema.Doc.createdAt (change old))
     | None => projectSchema.Doc.createdAt (change old) = projectSchema.Doc.createdAt old
     end.
Proof.
  unfold projectSchema.update. intros Hc. peel Hc.
  injection Hc as <-. split; [reflexivity|].
  cbn [projectSchema.Doc.createdAt]. now apply on_update_date.
Qed.

(** The validators leave the instant of creation of the body alone. *)
Lemma validateRecord_createdAt b :
  recordSchema.Body.createdAt (Server.validateRecord b).1
  = recordSchema.Body.createdAt b.
Proof. reflexivity. Qed.

Lemma validateProject_createdAt b :
  projectSchema.Body.createdAt (Server.validateProject b).1.1
  = projectSchema.Body.createdAt b.
Proof. reflexivity. Qed.

(** A collection of which one document has been replaced. *)
Lemma rewrites_one_insert {D} (createdAt updatedAt : D -> Z)
    (m : gmap ObjectId D) id old new sent now :
  m !! id = Some old ->
  updatedAt new = now ->
  match sent with
  | Some text => castDate text = Some (createdAt new)
  | None => createdAt new = createdAt old
  end ->
  Notions.rewrites_one createdAt updatedAt m (<[id := new]> m) (Some id) sent now 200.
Proof.
  intros Hold Hu Hc. unfold Notions.rewrites_one.
  split; [now apply dom_insert_lookup_L|].
  split; [intros j Hj; apply lookup_insert_ne; congruence|].
  split; [|congruence].
  intros _. exists id, old, new. rewrite lookup_insert_eq. auto.
Qed.

Lemma rewrites_one_same {D} (createdAt updatedAt : D -> Z)
    (m : gmap ObjectId D) addressed sent now code :
  code <> 200 ->
  Notions.rewrites_one createdAt updatedAt m m addressed sent now code.
Proof.
  intros Hcode. unfold Notions.rewrites_one.
  repeat split; congruence.
Qed.

End Updates.

(** X7.  An update by id changes the one document it addresses, or nothing.
    It never adds or removes a Job; it leaves every Job but the addressed one
    as it was; when it is answered 200, the addressed Job was stored already
    and is now stamped with the instant of the update, and its instant of
    creation is the one that the body carries, or the stored one when the
    body carries none: the update spreads the whole body, so that an update
    can rewrite the instant of creation.  When the update is answered
    otherwise (no credential, a validation error, an id that is not stored, a
    schema error), nothing has changed: an update never creates.  The other
    collections are never touched.  The same holds of the update of a
    Project. *)
Theorem update_changes_the_addressed_document_only `{Env} `{Libs}
    (st : Store) (now : Z) :
  (forall req : Request recordSchema.Body.t,
      let st' := (Server.put_records st req now).1 in
      Notions.rewrites_one recordSchema.Doc.createdAt recordSchema.Doc.updatedAt
        (Records st) (Records st') (castObjectId (params_id req))
        (recordSchema.Body.createdAt (body req)) now
        (status (Server.put_records st req now).2)
      /\ Feedback st' = Feedback st /\ Project st' = Project st
      /\ Settings st' = Settings st /\ AuthLog st' = AuthLog st)
  /\ (forall req : Request projectSchema.Body.t,
         let st' := (Server.put_projects st req now).1 in
         Notions.rewrites_one projectSchema.Doc.createdAt projectSchema.Doc.updatedAt
           (Project st) (Project st') (castObjectId (params_id req))
           (projectSchema.Body.createdAt (body req)) now
           (status (Server.put_projects st req now).2)
         /\ Records st' = Records st /\ Feedback st' = Feedback st
         /\ Settings st' = Settings st /\ AuthLog st' = AuthLog st).
Proof.
  split; intros req; cbv zeta.
  - unfold Server.put_records, Server.protected.
    destruct (Server.authenticateToken req now) as [res|claims] eqn:Hauth.
    { destruct (authenticateToken_cases req now) as [(c & Hc & _)|(_ & r & Hr)];
        [congruence|]. rewrite Hauth in Hr. injection Hr as ->.
      cbn. split; [now apply rewrites_one_same | auto]. }
    cbn [body with_user params_id].
    pose proof (validateRecord_createdAt (body req)) as Hsent.
    destruct (Server.validateRecord (body req)) as [b' [|e errors]];
      [|cbn; split; [now apply rewrites_one_same | auto]].
    destruct (castObjectId (params_id req)) as [id|];
      [|cbn; split; [now apply rewrites_one_same | auto]].
    destruct (recordSchema.update now b') as [change|] eqn:Hchange;
      [|cbn; split; [now apply rewrites_one_same | auto]].
    destruct (Records st !! id) as [old|] eqn:Hold;
      [|cbn; split; [now apply rewrites_one_same | auto]].
    destruct (record_update_stamps now b' change old Hchange) as [Hu Hc].
    cbn [fst] in Hsent. rewrite Hsent in Hc.
    cbn. split; [now apply (rewrites_one_insert _ _ _ id old) | auto].
  - unfold Server.put_projects, Server.protected.
    destruct (Server.authenticateToken req now) as [res|claims] eqn:Hauth.
    { destruct (authenticateToken_cases req now) as [(c & Hc & _)|(_ & r & Hr)];
        [congruence|]. rewrite Hauth in Hr. injection Hr as ->.
      cbn. split; [now apply rewrites_one_same | auto]. }
    cbn [body with_user params_id].
    pose proof (validateProject_createdAt (body req)) as Hsent.
    destruct (Server.validateProject (body req)) as [[b' due] [|e errors]];
      [|cbn; split; [now apply rewrites_one_same | auto]].
    destruct (castObjectId (params_id req)) as [id|];
      [|cbn; split; [now apply rewrites_one_same | auto]].
    destruct (projectSchema.update now b' due) as [change|] eqn:Hchange;
      [|cbn; split; [now apply rewrites_one_same | auto]].
    destruct (Project st !! id) as [old|] eqn:Hold;
      [|cbn; split; [now apply rewrites_one_same | auto]].
    destruct (project_update_stamps now b' due change old Hchange) as [Hu Hc].
    cbn [fst] in Hsent. rewrite Hsent in Hc.
    cbn. split; [now apply (rewrites_one_insert _ _ _ id old) | auto].
Qed.

Section UpdateScenarios.
#[local] Existing Instances Sample.env Sample.libs.

(** X7, a scenario.  The administrator updates the first of two Jobs: it
    keeps its instant of creation and is stamped with the instant of the
    update, and the second Job is as it was.  The same update under a body
    that carries the 15th of January 2024 for instant of creation sets the
    instant of creation of the Job to that day. *)
Lemma update_changes_the_addressed_document_only_witness :
  status (Server.put_records (Sample.with_records 2) Sample.update_bracket
            Sample.login_at).2 = 200
  /\ (exists new,
         Records (Server.put_records (Sample.with_records 2) Sample.update_bracket
                    Sample.login_at).1 !! 0%N = Some new
         /\ recordSchema.Doc.createdAt new = 1000
         /\ recordSchema.Doc.updatedAt new = Sample.login_at)
  /\ Records (Server.put_records (Sample.with_records 2) Sample.update_bracket
                Sample.login_at).1 !! 1%N
     = Records (Sample.with_records 2) !! 1%N
  /\ (exists new,
         Records (Server.put_records (Sample.with_records 2) Sample.update_backdated
                    Sample.login_at).1 !! 0%N = Some new
         /\ recordSchema.Doc.createdAt new = 1705276800000).
Proof.
  destruct (update_changes_the_addressed_document_only (Sample.with_records 2)
              Sample.login_at) as [Hrecords _].
  destruct (Hrecords Sample.update_bracket) as [(_ & Hothers & Hfound & _) _].
  destruct (Hrecords Sample.update_backdated) as [(_ & _ & Hdated & _) _].
  assert (Hok : status (Server.put_records (Sample.with_records 2)
                          Sample.update_bracket Sample.login_at).2 = 200)
    by (vm_compute; reflexivity).
  split; [exact Hok|]. split; [|split].
  - destruct (Hfound Hok) as (id & old & new & Hid & Hold & Hnew & Hstamp & Hkept).
    vm_compute in Hid. injection Hid as <-.
    exists new. split; [exact Hnew|]. split; [|exact Hstamp].
    change (recordSchema.Doc.createdAt new = recordSchema.Doc.createdAt old) in Hkept.
    rewrite Hkept. vm_compute in Hold. injection Hold as <-.
    reflexivity.
  - apply Hothers. vm_compute. discriminate.
  - destruct Hdated as (id & old & new & Hid & _ & Hnew & _ & Hset);
      [vm_compute; reflexivity|].
    vm_compute in Hid. injection Hid as <-.
    exists new. split; [exact Hnew|].
    change (Some 1705276800000 = Some (recordSchema.Doc.createdAt new)) in Hset.
    congruence.
Defined.
End UpdateScenarios.

(** ** The filters of the lists *)

Section Filters.

Lemma matches_lets_through {A} (field : A -> string) wanted (d : ObjectId * A) :
  Query.matches field wanted d = true <-> Notions.lets_through wanted (field d.2).
Proof.
  unfold Query.matches, Notions.lets_through.
  destruct wanted as [[|c w]|]; cbn [JS.truthy default from_option]; unfold id;
    try tauto.
  apply String.eqb_eq.
Qed.

Lemma slice_subseteq {A} p s (l : list A) x : x ∈ Spec.slice p s l -> x ∈ l.
Proof.
  unfold Spec.slice. intros Hx.
  apply elem_of_take in Hx as (i & Hi & _).
  rewrite lookup_drop in Hi. now apply list_elem_of_lookup_2 in Hi.
Qed.

End Filters.

(** X8.  The lists of Feedback and of Projects return stored documents that
    pass their filters, and count the documents that pass them.  The filter on
    [status] (and, for Projects, the one on [priority], both having to pass)
    lets through the documents whose field is the value of the parameter; a
    parameter that is absent or empty filters nothing. *)
Theorem lists_return_what_their_filters_let_through `{Env} `{Libs} {B}
    (st : Store) (req : Request B) (now p s : Z) :
  Spec.coerces_to req "page" 1 p -> Spec.coerces_to req "limit" 100 s ->
  (exists docs pg,
      Server.get_feedback st req now = (st, reply 200 None (FeedbackPage docs pg))
      /\ (forall d, d ∈ docs ->
            Feedback st !! d.1 = Some d.2
            /\ Notions.lets_through (query req !! "status") (feedbackSchema.Doc.status d.2))
      /\ total pg
         = length (filter (fun d => Notions.lets_through (query req !! "status")
                                      (feedbackSchema.Doc.status d.2))
                     (map_to_list (Feedback st))))
  /\ (exists docs pg,
         Server.get_projects st req now = (st, reply 200 None (ProjectPage docs pg))
         /\ (forall d, d ∈ docs ->
               Project st !! d.1 = Some d.2
               /\ Notions.lets_through (query req !! "status") (projectSchema.Doc.status d.2)
               /\ Notions.lets_through (query req !! "priority")
                    (projectSchema.Doc.priority d.2))
         /\ total pg
            = length (filter (fun d => Notions.lets_through (query req !! "status")
                                         (projectSchema.Doc.status d.2)
                                       /\ Notions.lets_through (query req !! "priority")
                                            (projectSchema.Doc.priority d.2))
                        (map_to_list (Project st)))).
Proof.
  intros Hp Hs. split.
  - destruct (get_feedback_page st req now p s Hp Hs) as (pg & -> & Htotal & _).
    eexists _, pg. split; [reflexivity|]. split.
    + intros [id doc] Hd. apply slice_subseteq in Hd.
      rewrite merge_sort_Permutation in Hd.
      apply list_elem_of_filter in Hd as [Hm Hd].
      split; [now apply elem_of_map_to_list in Hd|].
      now apply (matches_lets_through feedbackSchema.Doc.status) in Hm.
    + rewrite Htotal. f_equal. apply list_filter_iff.
      intros d. apply matches_lets_through.
  - destruct (get_projects_page st req now p s Hp Hs) as (pg & -> & Htotal & _).
    eexists _, pg. split; [reflexivity|]. split.
    + intros [id doc] Hd. apply slice_subseteq in Hd.
      rewrite merge_sort_Permutation in Hd.
      apply list_elem_of_filter in Hd as [Hm Hd].
      split; [now apply elem_of_map_to_list in Hd|].
      apply andb_true_iff in Hm as [Hst Hpr].
      split; [now apply (matches_lets_through projectSchema.Doc.status) in Hst
             |now apply (matches_lets_through projectSchema.Doc.priority) in Hpr].
    + rewrite Htotal. f_equal. apply list_filter_iff.
      intros d. rewrite andb_true_iff.
      now rewrite (matches_lets_through projectSchema.Doc.status),
        (matches_lets_through projectSchema.Doc.priority).
Qed.

Section FilterScenarios.
#[local] Existing Instances Sample.env Sample.libs.

(** X8, a scenario.  The list of the new opinions, of three opinions of
    which one is resolved. *)
Lemma lists_return_what_their_filters_let_through_witness :
  exists docs pg,
    (Server.get_feedback Sample.opinions Sample.list_new Sample.login_at).2
    = reply 200 None (FeedbackPage docs pg)
    /\ total pg = 2%nat
    /\ Forall (fun d => feedbackSchema.Doc.status d.2 = "new") docs.
Proof.
  destruct (lists_return_what_their_filters_let_through Sample.opinions
              Sample.list_new Sample.login_at 1 100)
    as [(docs & pg & Hrun & Hall & Htotal) _].
  - split; [vm_compute; reflexivity | lia].
  - split; [vm_compute; reflexivity | lia].
  - exists docs, pg. split; [now rewrite Hrun|].
    split; [rewrite Htotal; vm_compute; reflexivity|].
    apply Forall_forall. intros d Hd. destruct (Hall d Hd) as [_ Hlet]. exact Hlet.
Defined.
End FilterScenarios.

(** ** The figures of the dashboard *)

Section Figures.

Import Notions.

Lemma total_perm l k : l ≡ₚ k -> (total l == total k)%Q.
Proof.
  induction 1 as [|x l k _ IH|x y l|l k m _ IH1 _ IH2]; cbn [total foldr].
  - reflexivity.
  - fold (total l) (total k). now rewrite IH.
  - fold (total l). ring.
  - now rewrite IH1.
Qed.

Lemma total_abs_nonneg l : (0 <= total (Qabs <$> l))%Q.
Proof.
  induction l as [|v l IH]; [apply Qle_refl|].
  cbn [fmap list_fmap total foldr]. fold (total (Qabs <$> l)).
  pose proof (Qabs_nonneg v). apply (Qplus_le_compat 0 _ 0); assumption.
Qed.

Lemma exact_perm k l l' : l ≡ₚ l' -> exact k l -> exact k l'.
Proof.
  intros Hperm (Hk & Hall & Hsum). split; [assumption|]. split.
  - now rewrite <- Hperm.
  - assert (Habs : (Qabs <$> l) ≡ₚ (Qabs <$> l')) by now apply fmap_Permutation.
    now rewrite <- (total_perm _ _ Habs).
Qed.

Lemma exact_tail k v l : exact k (v :: l) -> exact k l.
Proof.
  intros (Hk & Hall & Hsum). split; [assumption|]. split.
  - now apply Forall_cons in Hall as [_ Hall].
  - eapply Qle_lt_trans; [|exact Hsum].
    apply Qmult_le_compat_r.
    + cbn [fmap list_fmap total foldr]. fold (total (Qabs <$> l)).
      pose proof (Qabs_nonneg v). rewrite <- (Qplus_0_l (total (Qabs <$> l))) at 1.
      apply Qplus_le_compat; [assumption | apply Qle_refl].
    + change 0%Q with (inject_Z 0). rewrite <- Zle_Qle.
      apply Z.pow_nonneg. lia.
Qed.

Lemma is_rational_eq n p q : (p == q)%Q -> is_rational n p -> is_rational n q.
Proof.
  intros Hpq. destruct n as [| |r]; cbn; [auto..|]. intros Hr. now rewrite Hr.
Qed.

Context `{Env} `{Libs}.

(** The total that the dashboard shows of a path, over numbers that the
    accumulator adds without rounding. *)
Lemma first_total_exact {A} k (path : A -> Q) (docs : list (ObjectId * A)) :
  sums_exactly -> exact k ((fun d => path d.2) <$> docs) ->
  is_rational (Analytics.first_total (Analytics.group_total path docs))
    (total ((fun d => path d.2) <$> docs)).
Proof.
  intros Hsum Hexact.
  destruct docs as [|d docs]; [cbn; reflexivity|].
  cbn [Analytics.group_total Analytics.first_total].
  pose proof (Hsum k _ Hexact) as Hq.
  destruct (aggregate_sum _) as [| |q]; cbn [is_rational] in Hq; try contradiction.
  cbn [JS.or_zero]. unfold JS.Qzero.
  destruct (Z.eqb_spec (Qnum q) 0) as [Hz|]; cbn [is_rational]; [|assumption].
  transitivity q; [|assumption]. unfold Qeq. rewrite Hz. reflexivity.
Qed.

(** The total of a path before and after a Job has come. *)
Lemma totals_after_insert k (path : recordSchema.Doc.t -> Q) st id doc :
  sums_exactly -> Records st !! id = None ->
  exact k (path doc :: column path st) ->
  is_rational
    (Analytics.first_total (Analytics.group_total path (map_to_list (Records st))))
    (total (column path st))
  /\ is_rational
       (Analytics.first_total
          (Analytics.group_total path
             (map_to_list (<[id := doc]> (Records st)))))
       (total (column path st) + path doc).
Proof.
  intros Hsum Hid Hexact. unfold column in *.
  pose proof (fmap_Permutation (fun d : ObjectId * recordSchema.Doc.t => path d.2) _ _
                (map_to_list_insert (Records st) id doc Hid)) as Hperm.
  cbn [fmap list_fmap snd] in Hperm.
  split.
  - apply (first_total_exact k); [assumption|]. now apply exact_tail in Hexact.
  - eapply is_rational_eq;
      [|apply (first_total_exact k); [assumption|];
        apply (exact_perm k _ _ (Permutation_sym Hperm)); exact Hexact].
    rewrite (total_perm _ _ Hperm). cbn [total foldr].
    fold (total ((fun d : ObjectId * recordSchema.Doc.t => path d.2)
                   <$> map_to_list (Records st))). ring.
Qed.

(** The total of a path before and after a Job has gone. *)
Lemma totals_after_delete k (path : recordSchema.Doc.t -> Q) st id doc :
  sums_exactly -> Records st !! id = Some doc ->
  exact k (column path st) ->
  is_rational
    (Analytics.first_total (Analytics.group_total path (map_to_list (Records st))))
    (total (column path st))
  /\ is_rational
       (Analytics.first_total
          (Analytics.group_total path (map_to_list (delete id (Records st)))))
       (total (column path st) - path doc).
Proof.
  intros Hsum Hid Hexact. unfold column in *.
  pose proof (fmap_Permutation (fun d : ObjectId * recordSchema.Doc.t => path d.2) _ _
                (map_to_list_delete (Records st) id doc Hid)) as Hperm.
  cbn [fmap list_fmap snd] in Hperm.
  split; [now apply (first_total_exact k)|].
  eapply is_rational_eq;
    [|apply (first_total_exact k); [assumption|];
      apply (exact_tail k (path doc));
      apply (exact_perm k _ _ (Permutation_sym Hperm)); exact Hexact].
  rewrite <- (total_perm _ _ Hperm). cbn [total foldr].
  fold (total ((fun d : ObjectId * recordSchema.Doc.t => path d.2)
                 <$> map_to_list (delete id (Records st)))). ring.
Qed.

Lemma create_hours now b doc :
  recordSchema.create now b = Some doc ->
  recordSchema.Body.printingTimeHrs b = Some (recordSchema.Doc.printingTimeHrs doc).
Proof.
  unfold recordSchema.create. intros Hc. peel Hc.
  injection Hc as <-. cbn.
  repeat match goal with
         | E : Schema.required_min _ _ = Some _ |- _ =>
             apply required_min_inv in E as [E _]
         end.
  assumption.
Qed.

(** What a delete that is answered 200 has done. *)
Lemma delete_records_deleted {B} st (req : Request B) now :
  status (Server.delete_records st req now).2 = 200 ->
  exists id doc,
    castObjectId (params_id req) = Some id
    /\ Records st !! id = Some doc
    /\ Server.delete_records st req now
       = (Server.set_Record st (delete id (Records st)),
          reply 200 (Some "Record deleted successfully") NoData).
Proof.
  unfold Server.delete_records, Server.protected.
  destruct (Server.authenticateToken req now) as [res|claims] eqn:Hauth.
  { destruct (authenticateToken_cases req now) as [(c & Hc & _)|(_ & r & Hr)];
      [congruence|]. rewrite Hauth in Hr. injection Hr as ->. discriminate. }
  cbn [params_id with_user].
  destruct (castObjectId (params_id req)) as [id|]; [|discriminate].
  destruct (Records st !! id) as [doc|] eqn:Hdoc; [|discriminate].
  intros _. exists id, doc. auto.
Qed.

End Figures.

(** X9.  The dashboard follows the Jobs.  It reads the store without changing
    it and answers 200, whatever the request.  Over a store without Jobs its
    two totals are 0.  After a create that is answered 201 it counts one Job
    more, after a delete that is answered 200 one Job less; the counts of
    Feedback and of Projects follow neither.  The two totals are what the
    accumulator of the database makes of the stored numbers, which is not
    their sum in general: it adds in binary64.  Where it adds without
    rounding (multiples of [2^-k] whose absolute values sum to less than
    [2^(53-k)]: whole savings, hours counted in halves or quarters), the
    totals after a create are the totals before it and the total savings and
    the printing hours that the client submitted, and the totals after a
    delete are the totals before it less those of the deleted Job. *)
Theorem dashboard_follows_the_jobs `{Env} `{Libs} (k : N) (st : Store) (now later : Z) :
  Notions.sums_exactly ->
  let figures st := (Analytics.get_analytics_dashboard st later).2.2 in
  let savings_of := Notions.column recordSchema.Doc.totalSavings in
  let hours_of := Notions.column recordSchema.Doc.printingTimeHrs in
  Analytics.get_analytics_dashboard st later = (st, (200, figures st))
  /\ (Records st = ∅ ->
      Analytics.recordCount (figures st) = 0%nat
      /\ Analytics.totalSavings (figures st) = JS.Fin 0
      /\ Analytics.totalPrintingTime (figures st) = JS.Fin 0)
  /\ (forall req : Request recordSchema.Body.t,
         status (Server.post_records st req now).2 = 201 ->
         let st' := (Server.post_records st req now).1 in
         exists savings hours,
           recordSchema.Body.totalSavings (body req) = Some savings
           /\ recordSchema.Body.printingTimeHrs (body req) = Some hours
           /\ Analytics.recordCount (figures st') = S (Analytics.recordCount (figures st))
           /\ (Notions.exact k (savings :: savings_of st) ->
               Notions.is_rational (Analytics.totalSavings (figures st))
                 (Notions.total (savings_of st))
               /\ Notions.is_rational (Analytics.totalSavings (figures st'))
                    (Notions.total (savings_of st) + savings))
           /\ (Notions.exact k (hours :: hours_of st) ->
               Notions.is_rational (Analytics.totalPrintingTime (figures st))
                 (Notions.total (hours_of st))
               /\ Notions.is_rational (Analytics.totalPrintingTime (figures st'))
                    (Notions.total (hours_of st) + hours))
           /\ Analytics.feedbackCount (figures st') = Analytics.feedbackCount (figures st)
           /\ Analytics.projectCount (figures st') = Analytics.projectCount (figures st))
  /\ (forall (B : Type) (req : Request B),
         status (Server.delete_records st req now).2 = 200 ->
         let st' := (Server.delete_records st req now).1 in
         exists id doc,
           castObjectId (params_id req) = Some id /\ Records st !! id = Some doc
           /\ Analytics.recordCount (figures st) = S (Analytics.recordCount (figures st'))
           /\ (Notions.exact k (savings_of st) ->
               Notions.is_rational (Analytics.totalSavings (figures st))
                 (Notions.total (savings_of st))
               /\ Notions.is_rational (Analytics.totalSavings (figures st'))
                    (Notions.total (savings_of st) - recordSchema.Doc.totalSavings doc))
           /\ (Notions.exact k (hours_of st) ->
               Notions.is_rational (Analytics.totalPrintingTime (figures st))
                 (Notions.total (hours_of st))
               /\ Notions.is_rational (Analytics.totalPrintingTime (figures st'))
                    (Notions.total (hours_of st) - recordSchema.Doc.printingTimeHrs doc))
           /\ Analytics.feedbackCount (figures st') = Analytics.feedbackCount (figures st)
           /\ Analytics.projectCount (figures st') = Analytics.projectCount (figures st)).
Proof.
  intros Hsum. cbv zeta. split; [reflexivity|]. split; [|split].
  - intros Hempty. unfold Analytics.get_analytics_dashboard. cbn. rewrite Hempty.
    rewrite map_to_list_empty. repeat split.
  - intros req Hok.
    destruct (post_records_created st req now Hok) as (id & doc & Hfresh & Hdoc & ->).
    pose proof (create_keeps now _ doc Hdoc) as (_ & Hsav & _).
    pose proof (create_hours now _ doc Hdoc) as Hhrs.
    cbn in Hsav, Hhrs.
    exists (recordSchema.Doc.totalSavings doc), (recordSchema.Doc.printingTimeHrs doc).
    split; [assumption|]. split; [assumption|].
    unfold Analytics.get_analytics_dashboard. cbn.
    split; [now apply map_size_insert_None|].
    split; [intros Hexact; now apply (totals_after_insert k)|].
    split; [intros Hexact; now apply (totals_after_insert k) | auto].
  - intros B req Hok.
    destruct (delete_records_deleted st req now Hok) as (id & doc & Hid & Hdoc & ->).
    exists id, doc. split; [assumption|]. split; [assumption|].
    unfold Analytics.get_analytics_dashboard. cbn.
    split.
    { rewrite map_size_delete, Hdoc.
      pose proof (map_size_ne_0_lookup_2 (Records st) id ltac:(eauto)).
      lia. }
    split; [intros Hexact; now apply (totals_after_delete k)|].
    split; [intros Hexact; now apply (totals_after_delete k) | auto].
Qed.

Section FigureScenarios.
#[local] Existing Instances Sample.env Sample.libs.

(** X9, a scenario.  The dashboard of two Jobs, and after the administrator
    has created a third: one Job more, and the two printing hours that were
    submitted. *)
Lemma dashboard_follows_the_jobs_witness :
  Analytics.recordCount
    (Analytics.get_analytics_dashboard
       (Server.post_records (Sample.with_records 2)
          (Sample.create_bracket Sample.admin) Sample.login_at).1
       Sample.two_hours_later).2.2
  = 3%nat
  /\ Notions.is_rational
       (Analytics.totalPrintingTime
          (Analytics.get_analytics_dashboard
             (Server.post_records (Sample.with_records 2)
                (Sample.create_bracket Sample.admin) Sample.login_at).1
             Sample.two_hours_later).2.2)
       6.
Proof.
  destruct (dashboard_follows_the_jobs 0 (Sample.with_records 2) Sample.login_at
              Sample.two_hours_later) as (_ & _ & Hcreate & _).
  - intros k values _. apply Qred_correct.
  - destruct (Hcreate (Sample.create_bracket Sample.admin))
      as (savings & hours & _ & Hhours & Hcount & _ & Htime & _).
    + vm_compute. reflexivity.
    + split.
      * rewrite Hcount. vm_compute. reflexivity.
      * change (Some 2%Q = Some hours) in Hhours. injection Hhours as <-.
        destruct Htime as [_ Hafter].
        { split; [lia|]. split; [|vm_compute; reflexivity].
          vm_compute. repeat constructor. }
        revert Hafter. apply is_rational_eq. vm_compute. reflexivity.
Defined.
End FigureScenarios.

(** ** What a sequence of requests can do to the store *)

Section Table.
Context `{Env} `{Libs}.

Lemma dom_upserts now entries (m : gmap string settingsSchema.Doc) :
  dom m ⊆ dom (foldr (Server.upsert now) m entries).
Proof.
  induction entries as [|e entries IH]; cbn [foldr]; [reflexivity|].
  unfold Server.upsert at 1. rewrite dom_insert. set_solver.
Qed.

(** A list route reads. *)
Lemma lists_read {B} st (req : Request B) now :
  (Server.get_records st req now).1 = st
  /\ (Server.get_feedback st req now).1 = st
  /\ (Server.get_projects st req now).1 = st.
Proof.
  unfold Server.get_records, Server.get_feedback, Server.get_projects.
  repeat split;
    match goal with
    | |- context [Query.exec ?a ?b ?c] => destruct (Query.exec a b c)
    end; reflexivity.
Qed.

(** A login writes to the log, at its end, and to nothing else. *)
Lemma login_appends st req now :
  exists entries,
    (Server.post_auth_login st req now).1
    = {| Records := Records st; Feedback := Feedback st; Project := Project st;
         Settings := Settings st; AuthLog := AuthLog st ++ entries |}.
Proof.
  unfold Server.post_auth_login, Server.logAuthAttempt.
  destruct (String.eqb (ip req) "");
    destruct (negb (JS.truthy (body req)));
    try destruct (bcrypt_compare _ _);
    cbn [fst];
    first [ eexists [_]; reflexivity
          | exists []; rewrite app_nil_r; now destruct st ].
Qed.

(** What each route leaves alone: the log is only appended to, and no
    key of the settings is removed; a request without a valid credential
    changes no Job, no Project and no setting, and removes no Feedback. *)
Lemma serve_frame st c now :
  let st' := Api.serve st c now in
  AuthLog st `prefix_of` AuthLog st'
  /\ dom (Settings st) ⊆ dom (Settings st')
  /\ (~ Api.authorized c now ->
      Records st' = Records st /\ Project st' = Project st
      /\ Settings st' = Settings st /\ Feedback st ⊆ Feedback st').
Proof.
  cbv zeta.
  assert (Hsame : forall st' : Store,
             st' = st ->
             AuthLog st `prefix_of` AuthLog st'
             /\ dom (Settings st) ⊆ dom (Settings st')
             /\ (~ Api.authorized c now ->
                 Records st' = Records st /\ Project st' = Project st
                 /\ Settings st' = Settings st /\ Feedback st ⊆ Feedback st')).
  { intros st' ->. repeat split; reflexivity. }
  assert (Hrejected : forall B (h : Handler B) (req : Request B),
             ~ Spec.valid_credential req now ->
             (Server.protected h st req now).1 = st).
  { intros B h req Hno. now destruct (protected_rejects h st req now Hno) as [r ->]. }
  destruct c as [req|req|req|req|req|req|req|req|req|req|req|req|req|req|req|];
    cbn [Api.serve].
  - destruct (login_appends st req now) as [entries ->]. cbn.
    split; [now exists entries|]. repeat split; reflexivity.
  - apply Hsame. unfold Server.post_auth_verify, Server.protected.
    now destruct (Server.authenticateToken req now).
  - apply Hsame, lists_read.
  - unfold Server.post_records, Server.protected.
    destruct (Server.authenticateToken req now) as [res|claims] eqn:Hauth;
      [now apply Hsame|].
    cbn [body with_user].
    destruct (Server.validateRecord (body req)) as [b' [|e errors]];
      [|now apply Hsame].
    destruct (recordSchema.create now b'); [|now apply Hsame].
    cbn. split; [reflexivity|]. split; [reflexivity|].
    intros Hno. exfalso.
    destruct (authenticateToken_cases req now) as [(c & _ & Hyes)|(_ & r & Hr)];
      [exact (Hno Hyes) | congruence].
  - unfold Server.put_records, Server.protected.
    destruct (Server.authenticateToken req now) as [res|claims] eqn:Hauth;
      [now apply Hsame|].
    cbn [body with_user params_id].
    destruct (Server.validateRecord (body req)) as [b' [|e errors]];
      [|now apply Hsame].
    destruct (castObjectId (params_id req)) as [id|]; [|now apply Hsame].
    destruct (recordSchema.update now b'); [|now apply Hsame].
    destruct (Records st !! id); [|now apply Hsame].
    cbn. split; [reflexivity|]. split; [reflexivity|].
    intros Hno. exfalso.
    destruct (authenticateToken_cases req now) as [(c & _ & Hyes)|(_ & r & Hr)];
      [exact (Hno Hyes) | congruence].
  - unfold Server.delete_records, Server.protected.
    destruct (Server.authenticateToken req now) as [res|claims] eqn:Hauth;
      [now apply Hsame|].
    cbn [with_user params_id].
    destruct (castObjectId (params_id req)) as [id|]; [|now apply Hsame].
    destruct (Records st !! id); [|now apply Hsame].
    cbn. split; [reflexivity|]. split; [reflexivity|].
    intros Hno. exfalso.
    destruct (authenticateToken_cases req now) as [(c & _ & Hyes)|(_ & r & Hr)];
      [exact (Hno Hyes) | congruence].
  - apply Hsame, lists_read.
  - unfold Server.post_feedback.
    destruct (Server.validateFeedback (body req)) as [b' [|e errors]];
      [|now apply Hsame].
    destruct (feedbackSchema.create now b'); [|now apply Hsame].
    cbn. split; [reflexivity|]. split; [reflexivity|].
    intros _. repeat split.
    apply insert_subseteq, not_elem_of_dom, is_fresh.
  - unfold Server.delete_feedback, Server.protected.
    destruct (Server.authenticateToken req now) as [res|claims] eqn:Hauth;
      [now apply Hsame|].
    cbn [with_user params_id].
    destruct (castObjectId (params_id req)) as [id|]; [|now apply Hsame].
    destruct (Feedback st !! id); [|now apply Hsame].
    cbn. split; [reflexivity|]. split; [reflexivity|].
    intros Hno. exfalso.
    destruct (authenticateToken_cases req now) as [(c & _ & Hyes)|(_ & r & Hr)];
      [exact (Hno Hyes) | congruence].
  - apply Hsame, lists_read.
  - unfold Server.post_projects, Server.protected.
    destruct (Server.authenticateToken req now) as [res|claims] eqn:Hauth;
      [now apply Hsame|].
    cbn [body with_user].
    destruct (Server.validateProject (body req)) as [[b' due] [|e errors]];
      [|now apply Hsame].
    destruct (projectSchema.create now b' due); [|now apply Hsame].
    cbn. split; [reflexivity|]. split; [reflexivity|].
    intros Hno. exfalso.
    destruct (authenticateToken_cases req now) as [(c & _ & Hyes)|(_ & r & Hr)];
      [exact (Hno Hyes) | congruence].
  - unfold Server.put_projects, Server.protected.
    destruct (Server.authenticateToken req now) as [res|claims] eqn:Hauth;
      [now apply Hsame|].
    cbn [body with_user params_id].
    destruct (Server.validateProject (body req)) as [[b' due] [|e errors]];
      [|now apply Hsame].
    destruct (castObjectId (params_id req)) as [id|]; [|now apply Hsame].
    destruct (projectSchema.update now b' due); [|now apply Hsame].
    destruct (Project st !! id); [|now apply Hsame].
    cbn. split; [reflexivity|]. split; [reflexivity|].
    intros Hno. exfalso.
    destruct (authenticateToken_cases req now) as [(c & _ & Hyes)|(_ & r & Hr)];
      [exact (Hno Hyes) | congruence].
  - unfold Server.delete_projects, Server.protected.
    destruct (Server.authenticateToken req now) as [res|claims] eqn:Hauth;
      [now apply Hsame|].
    cbn [with_user params_id].
    destruct (castObjectId (params_id req)) as [id|]; [|now apply Hsame].
    destruct (Project st !! id); [|now apply Hsame].
    cbn. split; [reflexivity|]. split; [reflexivity|].
    intros Hno. exfalso.
    destruct (authenticateToken_cases req now) as [(c & _ & Hyes)|(_ & r & Hr)];
      [exact (Hno Hyes) | congruence].
  - now apply Hsame.
  - unfold Server.put_settings, Server.protected.
    destruct (Server.authenticateToken req now) as [res|claims] eqn:Hauth;
      [now apply Hsame|].
    cbn [body with_user].
    destruct (body req) as [settings|]; [|now apply Hsame].
    cbn. split; [reflexivity|]. split; [apply dom_upserts|].
    intros Hno. exfalso.
    destruct (authenticateToken_cases req now) as [(c & _ & Hyes)|(_ & r & Hr)];
      [exact (Hno Hyes) | congruence].
  - now apply Hsame.
Qed.

End Table.

(** X10.  Requests without a valid credential, in any number and in any order,
    to any routes, change no Job, no Project and no setting: after them the
    three collections are what they were.  All that such requests can do to
    the store is to add Feedback, none being removed or changed, and to add
    entries to the log of authentications. *)
Theorem requests_without_credential_change_no_job `{Env} `{Libs}
    (st : Store) (calls : list (Api.Call * Z)) :
  Forall (fun c => ~ Api.authorized c.1 c.2) calls ->
  let st' := Api.serve_all st calls in
  Records st' = Records st /\ Project st' = Project st
  /\ Settings st' = Settings st
  /\ Feedback st ⊆ Feedback st'
  /\ AuthLog st `prefix_of` AuthLog st'.
Proof.
  cbv zeta. revert st.
  induction calls as [|[c now] calls IH]; intros st Hall.
  - repeat split; reflexivity.
  - apply Forall_cons in Hall as [Hc Hall]. cbn [fst snd] in Hc.
    unfold Api.serve_all. cbn [foldl fst snd]. fold (Api.serve_all (Api.serve st c now) calls).
    destruct (serve_frame st c now) as (Hlog & _ & Hrest).
    destruct (Hrest Hc) as (Hr & Hp & Hs & Hf).
    destruct (IH (Api.serve st c now) Hall) as (Hr' & Hp' & Hs' & Hf' & Hlog').
    split; [congruence|]. split; [congruence|]. split; [congruence|].
    split; [now transitivity (Feedback (Api.serve st c now))|].
    now transitivity (AuthLog (Api.serve st c now)).
Qed.

(** X11.  Whatever the requests and their credentials, the log of
    authentications is only appended to, and no key of the settings is ever
    removed: the application has no route that deletes either. *)
Theorem log_and_settings_only_grow `{Env} `{Libs}
    (st : Store) (calls : list (Api.Call * Z)) :
  AuthLog st `prefix_of` AuthLog (Api.serve_all st calls)
  /\ dom (Settings st) ⊆ dom (Settings (Api.serve_all st calls)).
Proof.
  revert st. induction calls as [|[c now] calls IH]; intros st.
  - split; reflexivity.
  - unfold Api.serve_all. cbn [foldl fst snd]. fold (Api.serve_all (Api.serve st c now) calls).
    destruct (serve_frame st c now) as (Hlog & Hdom & _).
    destruct (IH (Api.serve st c now)) as (Hlog' & Hdom').
    split; [now transitivity (AuthLog (Api.serve st c now))|].
    now transitivity (dom (Settings (Api.serve st c now))).
Qed.

Section TableScenarios.
#[local] Existing Instances Sample.env Sample.libs.

(** X10, a scenario.  A visitor without a credential tries a create and
    three deletes, guesses a password and leaves a praise: the two Jobs are
    as they were and the praise is stored. *)
Lemma requests_without_credential_change_no_job_witness :
  Records (Api.serve_all (Sample.with_records 2) Sample.intrusion)
  = Records (Sample.with_records 2)
  /\ size (Feedback (Api.serve_all (Sample.with_records 2) Sample.intrusion)) = 1%nat
  /\ length (AuthLog (Api.serve_all (Sample.with_records 2) Sample.intrusion)) = 1%nat.
Proof.
  destruct (requests_without_credential_change_no_job (Sample.with_records 2)
              Sample.intrusion) as (Hrecords & _).
  - unfold Sample.intrusion.
    repeat constructor; cbn [fst snd];
      intros (token & claims & Htoken & Hverify);
      vm_compute in Htoken; try discriminate Htoken;
      injection Htoken as <-; vm_compute in Hverify; discriminate Hverify.
  - split; [exact Hrecords|]. split; vm_compute; reflexivity.
Defined.
End TableScenarios.

(** * Further properties of the client *)

(** ** The sweep, its token and its cache *)

Section SweepToken.
Local Open Scope list_scope.
Context {World : Type} (fetch : World -> Client.Call -> World * Client.Fetched).

(** One request: the token it carries and the token it leaves. *)
Lemma apiRequest_token r endpoint method payload r1 o :
  Client.apiRequest fetch r endpoint method payload = (r1, o) ->
  exists call,
    Client.log r1 = Client.log r ++ [(call, o)]
    /\ call = Notions.request_of r endpoint method payload
    /\ Client.authToken (Client.app r1)
       = Notions.token_after (Client.authToken (Client.app r)) [(call, o)]
    /\ (o = Client.Returned None -> Client.sessionExpiry (Client.app r1) = None).
Proof.
  unfold Client.apiRequest. fold (Notions.request_of r endpoint method payload).
  destruct (fetch _ _) as [w [why|status parsed]].
  - intros [= <- <-]. eexists. cbn. repeat split. discriminate.
  - destruct (status =? 401)%Z; [|destruct (negb (Client.ok status)); destruct parsed];
      intros [= <- <-]; eexists; cbn; repeat split; discriminate.
Qed.

Lemma token_after_app token trace trace' :
  Notions.token_after token (trace ++ trace')
  = Notions.token_after (Notions.token_after token trace) trace'.
Proof.
  revert token. induction trace as [|[c [[v|]|m]] trace IH]; intros token;
    cbn [Notions.token_after app]; auto.
Qed.

Lemma carries_app token trace trace' :
  Notions.carries token (trace ++ trace')
  <-> Notions.carries token trace
      /\ Notions.carries (Notions.token_after token trace) trace'.
Proof.
  revert token. induction trace as [|e trace IH]; intros token.
  - cbn. tauto.
  - cbn [app Notions.carries]. rewrite IH.
    change (e :: trace) with ([e] ++ trace). rewrite (token_after_app token [e] trace).
    tauto.
Qed.

Lemma token_after_none trace : Notions.token_after None trace = None.
Proof. induction trace as [|[c [[v|]|m]] trace IH]; cbn; auto. Qed.

Lemma carries_none trace :
  Notions.carries None trace -> Forall (fun e => Client.bearer e.1 = None) trace.
Proof.
  induction trace as [|e trace IH]; [constructor|].
  cbn [Notions.carries]. intros [He Hrest].
  change (Notions.token_after None [e]) with (Notions.token_after None ([e] ++ []))
    in Hrest.
  rewrite token_after_none in Hrest. constructor; auto.
Qed.

Lemma apiRequest_carries r endpoint method payload r1 o :
  Client.apiRequest fetch r endpoint method payload = (r1, o) ->
  exists entry,
    Client.log r1 = Client.log r ++ [entry]
    /\ Notions.carries (Client.authToken (Client.app r)) [entry]
    /\ Client.authToken (Client.app r1)
       = Notions.token_after (Client.authToken (Client.app r)) [entry]
    /\ (Client.authToken (Client.app r1) = None
        \/ Client.sessionExpiry (Client.app r1) = Client.sessionExpiry (Client.app r)).
Proof.
  intros Hreq.
  destruct (apiRequest_token _ _ _ _ _ _ Hreq) as (call & Hlog & -> & Htok & _).
  eexists. split; [exact Hlog|]. split; [cbn; auto|]. split; [exact Htok|].
  revert Hreq. unfold Client.apiRequest.
  destruct (fetch _ _) as [w [why|status parsed]].
  - intros [= <- <-]. now right.
  - destruct (status =? 401)%Z; [|destruct (negb (Client.ok status)); destruct parsed];
      intros [= <- <-]; cbn; auto.
Qed.

(** The loop: every request carries the token held when it is made. *)
Lemma push_carries records : forall r r' stopped,
  Client.push fetch r records = (r', stopped) ->
  exists trace,
    Client.log r' = Client.log r ++ trace
    /\ Notions.carries (Client.authToken (Client.app r)) trace
    /\ Client.authToken (Client.app r')
       = Notions.token_after (Client.authToken (Client.app r)) trace.
Proof.
  induction records as [|record rest IH]; intros r r' stopped; cbn [Client.push].
  - intros [= <- <-]. exists []. rewrite app_nil_r. cbn. auto.
  - destruct (Client.apiRequest fetch r _ Client.PUT _) as [r1 o] eqn:Hput.
    destruct (apiRequest_carries _ _ _ _ _ _ Hput) as (e & Hlog & Hcar & Htok & _).
    assert (Hgo : forall (r2 : Client.Run (World := World)) trace,
               Client.log r2 = Client.log r1 ++ trace ->
               Notions.carries (Client.authToken (Client.app r1)) trace ->
               Client.authToken (Client.app r2)
               = Notions.token_after (Client.authToken (Client.app r1)) trace ->
               exists trace',
                 Client.log r2 = Client.log r ++ trace'
                 /\ Notions.carries (Client.authToken (Client.app r)) trace'
                 /\ Client.authToken (Client.app r2)
                    = Notions.token_after (Client.authToken (Client.app r)) trace').
    { intros r2 trace Hl Hc Ht. exists ([e] ++ trace).
      rewrite Hl, Hlog, <- app_assoc. split; [reflexivity|].
      rewrite carries_app, token_after_app, <- Htok. auto. }
    destruct o as [value|message].
    + intros Hrest. destruct (IH _ _ _ Hrest) as (trace & Hl & Hc & Ht). eauto.
    + destruct (JS.includes message "not found").
      * destruct (Client.apiRequest fetch r1 _ Client.POST _) as [r2 o'] eqn:Hpost.
        destruct (apiRequest_carries _ _ _ _ _ _ Hpost) as (e' & Hlog' & Hcar' & Htok' & _).
        destruct o' as [value|message'].
        -- intros Hrest. destruct (IH _ _ _ Hrest) as (trace & Hl & Hc & Ht).
           apply (Hgo r' ([e'] ++ trace)).
           ++ now rewrite Hl, Hlog', <- app_assoc.
           ++ rewrite carries_app, <- Htok'. auto.
           ++ now rewrite token_after_app, <- Htok'.
        -- intros [= <- <-]. apply (Hgo r2 [e']); assumption.
      * intros Hrest. destruct (IH _ _ _ Hrest) as (trace & Hl & Hc & Ht). eauto.
Qed.

Lemma set_online_token a b :
  Client.authToken (Client.set_online a b) = Client.authToken a.
Proof. reflexivity. Qed.

(** The whole sweep. *)
Lemma sync_carries r :
  exists trace,
    Client.log (Client.syncWithServer fetch r) = Client.log r ++ trace
    /\ Notions.carries (Client.authToken (Client.app r)) trace
    /\ Client.authToken (Client.app (Client.syncWithServer fetch r))
       = Notions.token_after (Client.authToken (Client.app r)) trace.
Proof.
  unfold Client.syncWithServer.
  destruct (Client.apiRequest fetch r "/health" Client.GET None) as [r1 o] eqn:Hprobe.
  destruct (apiRequest_carries _ _ _ _ _ _ Hprobe) as (e & Hlog & Hcar & Htok & _).
  destruct o as [value|message]; [|exists [e]; cbn; auto].
  cbn [Client.online Client.app Client.storage Client.set_online].
  destruct (Client.storage (Client.app r1)) as [| |localData];
    [exists [e]; cbn; auto | exists [e]; cbn; auto |].
  destruct (Client.push fetch _ (default [] (Client.records localData)))
    as [r3 stopped] eqn:Hpush.
  destruct (push_carries _ _ _ _ Hpush) as (trace & Hl & Hc & Ht).
  unfold Client.online in Hl, Hc, Ht.
  cbn [Client.log Client.app Client.authToken Client.set_online] in Hl, Hc, Ht.
  exists ([e] ++ trace).
  assert (Hlog3 : Client.log r3 = Client.log r ++ [e] ++ trace)
    by now rewrite Hl, Hlog, <- app_assoc.
  assert (Htok3 : Client.authToken (Client.app r3)
                  = Notions.token_after (Client.authToken (Client.app r)) ([e] ++ trace))
    by now rewrite token_after_app, <- Htok.
  assert (Hcar3 : Notions.carries (Client.authToken (Client.app r)) ([e] ++ trace))
    by (rewrite carries_app, <- Htok; auto).
  destruct stopped; cbn; auto.
Qed.

End SweepToken.

(** X12.  A request of the sweep that is answered 401 takes the token of the
    client away without stopping the sweep:  [apiRequest] logs out and returns
    null, which is no exception.  Every request of the sweep carries the token
    that the client holds when it is made, so that no request made after one
    answered 401 carries a token, and the client holds none when the sweep
    ends. *)
Theorem sweep_goes_on_without_token_after_401 {World : Type}
    (fetch : World -> Client.Call -> World * Client.Fetched) (r : Client.Run) :
  exists trace,
    Client.log (Client.syncWithServer fetch r) = (Client.log r ++ trace)%list
    /\ Notions.carries (Client.authToken (Client.app r)) trace
    /\ (forall before call after,
           trace = (before ++ (call, Client.Returned None) :: after)%list ->
           Forall (fun e => Client.bearer e.1 = None) after
           /\ Client.authToken (Client.app (Client.syncWithServer fetch r)) = None).
Proof.
  destruct (sync_carries fetch r) as (trace & Hlog & Hcar & Htok).
  exists trace. split; [assumption|]. split; [assumption|].
  intros before call after ->.
  apply carries_app in Hcar as [_ Hcar]. cbn [Notions.carries] in Hcar.
  destruct Hcar as [_ Hcar]. cbn [Notions.token_after] in Hcar.
  split; [now apply carries_none|].
  rewrite Htok, token_after_app. cbn [Notions.token_after]. apply token_after_none.
Qed.

Section SweepTokenScenarios.

(** X12, a scenario.  The sweep of two cached Jobs against a server for
    which the token has expired: the first update carries the token and is
    answered 401, the second update carries none, and the client ends
    without a token. *)
Lemma sweep_goes_on_without_token_after_401_witness :
  (fun e => (Client.method e.1, Client.bearer e.1, e.2))
    <$> Client.log (Client.syncWithServer Sample.expiring Sample.two_pending)
  = [(Client.GET, Some Sample.token, Client.Returned (Some None));
     (Client.PUT, Some Sample.token, Client.Returned None);
     (Client.PUT, None, Client.Returned None)]
  /\ Client.authToken
       (Client.app (Client.syncWithServer Sample.expiring Sample.two_pending))
     = None.
Proof.
  split; [vm_compute; reflexivity|].
  destruct (sweep_goes_on_without_token_after_401 Sample.expiring Sample.two_pending)
    as (trace & Hlog & _ & Hafter).
  cbn [Client.log Sample.two_pending app] in Hlog.
  refine (proj2 (Hafter [_] _ [_] _)).
  rewrite <- Hlog. vm_compute. reflexivity.
Defined.

End SweepTokenScenarios.

(** ** The cache after the sweep *)

Section SweepCache.
Context {World : Type} (fetch : World -> Client.Call -> World * Client.Fetched).

Lemma sync_storage r :
  Client.storage (Client.app (Client.syncWithServer fetch r))
  = Client.storage (Client.app r).
Proof.
  unfold Client.syncWithServer.
  destruct (Client.apiRequest fetch r "/health" Client.GET None) as [r1 o] eqn:Hprobe.
  destruct (apiRequest_log _ _ _ _ _ _ _ Hprobe) as (_ & _ & _ & _ & _ & _ & Hst).
  destruct o as [value|message]; [|exact Hst].
  cbn [Client.online Client.app Client.storage Client.set_online].
  destruct (Client.storage (Client.app r1)) as [| |localData] eqn:Hr1;
    try (cbn; congruence).
  destruct (Client.push fetch _ (default [] (Client.records localData)))
    as [r3 stopped] eqn:Hpush.
  destruct (push_trace fetch _ _ _ _ Hpush) as (trace & _ & _ & _ & Hst3).
  unfold Client.online in Hst3.
  cbn [Client.app Client.storage Client.set_online] in Hst3.
  destruct stopped; cbn; congruence.
Qed.

Lemma sync_pushes r probed value localData :
  Client.storage (Client.app r) = Client.Saved localData ->
  Client.apiRequest fetch r "/health" Client.GET None = (probed, Client.Returned value) ->
  exists trace stopped,
    Client.log (Client.syncWithServer fetch r) = (Client.log probed ++ trace)%list
    /\ Spec.Pushed (default [] (Client.records localData)) trace stopped.
Proof.
  intros Hsaved Hprobe. unfold Client.syncWithServer. rewrite Hprobe.
  destruct (apiRequest_log _ _ _ _ _ _ _ Hprobe) as (_ & _ & _ & _ & _ & _ & Hst).
  cbn [Client.online Client.app Client.storage Client.set_online].
  rewrite Hst, Hsaved.
  destruct (Client.push fetch _ (default [] (Client.records localData)))
    as [r3 stopped] eqn:Hpush.
  destruct (push_trace fetch _ _ _ _ Hpush) as (trace & Hlog & Hpushed & _).
  unfold Client.online in Hlog. cbn [Client.log] in Hlog.
  exists trace, stopped. split; [now destruct stopped | assumption].
Qed.

End SweepCache.

(** X13.  The sweep never writes to the cache: the item of the local storage
    is after the sweep what it was before, whatever the server answered.  No
    cached Job is removed or marked once it has been pushed, so that a second
    sweep whose probe returns pushes the same cached Jobs again, each by an
    update that is followed by a create when the server does not find the Job.
    *)
Theorem sweep_leaves_the_cache_as_it_was {World : Type}
    (fetch : World -> Client.Call -> World * Client.Fetched) (r : Client.Run) :
  Client.storage (Client.app (Client.syncWithServer fetch r))
  = Client.storage (Client.app r)
  /\ (forall localData probed value probed' value',
         Client.storage (Client.app r) = Client.Saved localData ->
         Client.apiRequest fetch r "/health" Client.GET None
         = (probed, Client.Returned value) ->
         Client.apiRequest fetch (Client.syncWithServer fetch r) "/health" Client.GET None
         = (probed', Client.Returned value') ->
         exists trace stopped trace' stopped',
           Client.log (Client.syncWithServer fetch r)
           = (Client.log probed ++ trace)%list
           /\ Spec.Pushed (default [] (Client.records localData)) trace stopped
           /\ Client.log (Client.syncWithServer fetch (Client.syncWithServer fetch r))
              = (Client.log probed' ++ trace')%list
           /\ Spec.Pushed (default [] (Client.records localData)) trace' stopped').
Proof.
  split; [apply sync_storage|].
  intros localData probed value probed' value' Hsaved Hprobe Hprobe'.
  destruct (sync_pushes fetch r probed value localData Hsaved Hprobe)
    as (trace & stopped & Hlog & Hpushed).
  destruct (sync_pushes fetch (Client.syncWithServer fetch r) probed' value' localData)
    as (trace' & stopped' & Hlog' & Hpushed');
    [now rewrite sync_storage | assumption |].
  exists trace, stopped, trace', stopped'. auto.
Qed.

(** ** Errors without a text *)

Section Bare.
Local Open Scope list_scope.

Lemma includes_needs_the_first_letter s :
  JS.lacks "n" s = true -> JS.includes s "not found" = false.
Proof.
  induction s as [|c s IH]; [reflexivity|].
  cbn [JS.lacks JS.includes JS.starts_with].
  intros [Hc Hs]%andb_prop. apply negb_true_iff in Hc.
  rewrite Ascii.eqb_sym, Hc. now apply IH.
Qed.

Lemma status_message_is_not_not_found status :
  JS.includes ("HTTP error! status: " ++ JS.Z_to_string status)%string "not found"
  = false.
Proof.
  apply includes_needs_the_first_letter. rewrite lacks_app.
  rewrite lacks_decimal by (reflexivity || discriminate). reflexivity.
Qed.

End Bare.

(** X14.  An error answer without an error text makes [apiRequest] throw the
    message [HTTP error! status:  N], which never contains [not found].  So
    the update of a cached Job that the server answers with such an error, a
    bare 404 included, is not followed by a create: the sweep goes on with the
    next cached Job. *)
Theorem error_without_text_is_not_followed_by_a_create {World : Type}
    (fetch : World -> Client.Call -> World * Client.Fetched) (r : Client.Run)
    (record : Client.Cached) (rest : list Client.Cached)
    (w : World) (status : Z) (error : option string) :
  fetch (Client.world r)
    (Notions.request_of r ("/records/" ++ Client.id record) Client.PUT (Some record))
  = (w, Client.Responded status (Client.Json error)) ->
  JS.truthy error = false -> status <> 401 -> Client.ok status = false ->
  exists r1,
    Client.apiRequest fetch r ("/records/" ++ Client.id record) Client.PUT (Some record)
    = (r1, Client.Threw ("HTTP error! status: " ++ JS.Z_to_string status))
    /\ JS.includes ("HTTP error! status: " ++ JS.Z_to_string status) "not found" = false
    /\ Client.push fetch r (record :: rest) = Client.push fetch r1 rest.
Proof.
  intros Hfetch Herror Hstatus Hok.
  assert (Hreq : exists r1,
             Client.apiRequest fetch r ("/records/" ++ Client.id record) Client.PUT
               (Some record)
             = (r1, Client.Threw ("HTTP error! status: " ++ JS.Z_to_string status))).
  { unfold Client.apiRequest.
    fold (Notions.request_of r ("/records/" ++ Client.id record) Client.PUT (Some record)).
    rewrite Hfetch. apply Z.eqb_neq in Hstatus. rewrite Hstatus, Hok, Herror.
    cbn [negb]. eauto. }
  destruct Hreq as [r1 Hreq]. exists r1. split; [exact Hreq|].
  split; [apply status_message_is_not_not_found|].
  cbn [Client.push]. rewrite Hreq. now rewrite status_message_is_not_not_found.
Qed.

Section BareScenarios.

(** X14, a scenario.  The sweep of two cached Jobs against a server that
    answers the updates with a bare 404: two updates, and no create. *)
Lemma error_without_text_is_not_followed_by_a_create_witness :
  exists r1,
    Client.apiRequest Sample.routeless Sample.probed "/records/1705300000001"
      Client.PUT (Some (Sample.job "1705300000001"))
    = (r1, Client.Threw "HTTP error! status: 404")
    /\ (fun e => (Client.method e.1, Client.endpoint e.1))
         <$> Client.log (Client.push Sample.routeless Sample.probed Sample.pending).1
       = [(Client.GET, "/health"); (Client.PUT, "/records/1705300000001");
          (Client.PUT, "/records/1705300000002")].
Proof.
  destruct (error_without_text_is_not_followed_by_a_create Sample.routeless
              Sample.probed (Sample.job "1705300000001")
              [Sample.job "1705300000002"] tt 404 None)
    as (r1 & Hreq & _ & Hpush); try reflexivity; [discriminate|].
  exists r1. split; [exact Hreq|].
  unfold Sample.pending. rewrite Hpush.
  vm_compute in Hreq. injection Hreq as <-. vm_compute. reflexivity.
Defined.

End BareScenarios.

(** ** The two checks of an address *)

(** X15.  The address of a Feedback is checked twice, by [isEmail] of the
    validators and by the pattern of the schema, and the two do not agree.  A
    Feedback that passes every validator and whose normalized address does not
    match the pattern of the schema is refused by the schema: the create is
    answered with the internal error 500, not with a validation error, and
    nothing is stored. *)
Theorem address_that_the_schema_refuses_is_an_internal_error `{Env} `{Libs}
    (st : Store) (req : Request feedbackSchema.Body.t) (now : Z) :
  (Server.validateFeedback (body req)).2 = [] ->
  Regex.test feedbackSchema.email_match
    (normalizeEmail (Validator.text (feedbackSchema.Body.email (body req)))) = false ->
  Server.post_feedback st req now = (st, failure 500 "Failed to submit feedback").
Proof.
  intros Herr Hno. unfold Server.post_feedback.
  destruct (Server.validateFeedback (body req)) as [b' errors] eqn:Hval.
  cbn [snd] in Herr. subst errors.
  assert (Hb' : b' = (Server.validateFeedback (body req)).1) by now rewrite Hval.
  assert (Hnone : feedbackSchema.create now b' = None).
  { unfold feedbackSchema.create.
    destruct (Schema.required_string 100 (feedbackSchema.Body.name b')); [|reflexivity].
    cbn [mbind option_bind].
    destruct (Schema.optional_string 100 (feedbackSchema.Body.partName b'));
      [|reflexivity].
    cbn [mbind option_bind].
    destruct (Schema.required_string 100 (feedbackSchema.Body.email b')) as [email|] eqn:He;
      [|reflexivity].
    cbn [mbind option_bind].
    apply required_string_inv in He as [He _].
    rewrite Hb' in He. cbn in He. injection He as <-.
    rewrite Hno. reflexivity. }
  now rewrite Hnone.
Qed.

Section AddressScenarios.
#[local] Existing Instances Sample.env Sample.lenient.

(** X15, a scenario.  A praise from an address under [.info]. *)
Lemma address_that_the_schema_refuses_is_an_internal_error_witness :
  Server.post_feedback Sample.empty (Sample.praise_from "asha@example.info")
    Sample.login_at
  = (Sample.empty, failure 500 "Failed to submit feedback").
Proof.
  apply address_that_the_schema_refuses_is_an_internal_error;
    vm_compute; reflexivity.
Defined.
End AddressScenarios.

(** ** The direction of the sort *)

#[local] Instance oldest_first_total {A} (c : A -> Z) : Total (Query.oldest_first c).
Proof. intros x y. unfold Query.oldest_first. lia. Qed.

(** X16.  The list of Jobs is sorted newest first only when [sortOrder] is
    spelt [desc]: under any other value of the parameter, [DESC] and a
    misspelling included, the Jobs are listed oldest first. *)
Theorem any_order_but_desc_lists_the_oldest_first `{Env} `{Libs} {B}
    (st : Store) (req : Request B) (now p s : Z) (order : string) :
  Spec.coerces_to req "page" 1 p -> Spec.coerces_to req "limit" 100 s ->
  query req !! "sortBy" = None ->
  query req !! "sortOrder" = Some order -> order <> "desc" ->
  exists sorted pg,
    Server.get_records st req now
    = (st, reply 200 None (RecordPage (Spec.slice p s sorted) pg))
    /\ Sorted (Query.oldest_first recordSchema.Doc.createdAt) sorted
    /\ sorted ≡ₚ map_to_list (Records st).
Proof.
  intros Hp Hs Hby Hord Hne.
  destruct (get_records_ordered st req now p s Hp Hs) as (pg & -> & _).
  unfold Query.text_param, Query.sort. rewrite Hby, Hord.
  cbn [default from_option]. unfold id.
  apply String.eqb_neq in Hne. rewrite Hne.
  cbn [String.eqb Ascii.eqb Bool.eqb].
  eexists _, pg. split; [reflexivity|].
  split; [apply Sorted_merge_sort; apply _ | apply merge_sort_Permutation].
Qed.

Section OrderScenarios.
#[local] Existing Instances Sample.env Sample.libs.

(** X16, a scenario.  Three Jobs listed in the order [DESC]: the oldest
    comes first. *)
Lemma any_order_but_desc_lists_the_oldest_first_witness :
  exists sorted pg,
    Server.get_records (Sample.with_records 3) Sample.list_capitals Sample.login_at
    = (Sample.with_records 3, reply 200 None (RecordPage (Spec.slice 1 100 sorted) pg))
    /\ Sorted (Query.oldest_first recordSchema.Doc.createdAt) sorted
    /\ (recordSchema.Doc.createdAt ∘ snd) <$> Spec.slice 1 100 sorted
       = [1000; 2000; 3000].
Proof.
  destruct (any_order_but_desc_lists_the_oldest_first (Sample.with_records 3)
              Sample.list_capitals Sample.login_at 1 100 "DESC")
    as (sorted & pg & Hrun & Hsorted & _).
  - split; [vm_compute; reflexivity | lia].
  - split; [vm_compute; reflexivity | lia].
  - reflexivity.
  - reflexivity.
  - discriminate.
  - exists sorted, pg. split; [exact Hrun|]. split; [exact Hsorted|].
    pose (listed := fun r : Store * Response =>
                      match data r.2 with
                      | RecordPage docs _ => docs
                      | _ => []
                      end).
    change (Spec.slice 1 100 sorted)
      with (listed (Sample.with_records 3,
                    reply 200 None (RecordPage (Spec.slice 1 100 sorted) pg))).
    rewrite <- Hrun. vm_compute. reflexivity.
Defined.
End OrderScenarios.

(** ** The session of the client *)

Section Sessions.
Context `{Env} `{Libs}.

Lemma sign_is_truthy role timestamp secret expiresIn now :
  JS.truthy (Some (Jwt.sign role timestamp secret expiresIn now)) = true.
Proof.
  unfold Jwt.sign.
  pose proof (encode_not_empty secret
                {| Jwt.role := role; Jwt.timestamp := timestamp;
                   Jwt.iat := now / 1000; Jwt.exp := now / 1000 + expiresIn |}) as Hne.
  destruct (Jwt.encode _ _); [congruence | reflexivity].
Qed.

(** The credential that the token of a login is, until it expires. *)
Lemma login_token_credential {B} (req : Request B) issued now :
  authorization req
  = Some ("Bearer " ++ Jwt.sign "admin" issued JWT_SECRET 3600 issued) ->
  Spec.valid_credential req now <-> (now / 1000 < issued / 1000 + 3600)%Z.
Proof.
  intros Hauth. split; [|now apply login_token_valid].
  intros Hyes.
  pose proof (authenticate_login_token req issued now Hauth) as Hrun.
  destruct (Z.leb_spec (issued / 1000 + 3600) (now / 1000)) as [Hle|]; [|assumption].
  destruct (authenticateToken_cases req now) as [(c & Hc & _)|(Hno & _)];
    [congruence | contradiction].
Qed.

Lemma whole_seconds issued now :
  (now / 1000 < issued / 1000 + 3600 -> now < issued + 3600000)%Z.
Proof.
  intros Hlt.
  pose proof (Z.div_mod now 1000 ltac:(lia)).
  pose proof (Z.mod_pos_bound now 1000 ltac:(lia)).
  pose proof (Z.div_mod issued 1000 ltac:(lia)).
  pose proof (Z.mod_pos_bound issued 1000 ltac:(lia)).
  lia.
Qed.

Lemma last_second issued now :
  (issued / 1000 + 3600 <= now / 1000 -> issued + 3600000 - 1000 < now)%Z.
Proof.
  intros Hle.
  pose proof (Z.div_mod now 1000 ltac:(lia)).
  pose proof (Z.mod_pos_bound now 1000 ltac:(lia)).
  pose proof (Z.div_mod issued 1000 ltac:(lia)).
  pose proof (Z.mod_pos_bound issued 1000 ltac:(lia)).
  lia.
Qed.

End Sessions.

(** X17.  The session of the client and the token of the server do not end
    together.  The server stamps the token with the login instant in whole
    seconds and [expiresAt] with the instant itself, one hour later each.  For
    a client that holds both, [checkAuthStatus] answers true exactly before
    [expiresAt] and logs out from then on; the server accepts the token
    exactly until its expiry in whole seconds.  So the client never drops a
    session whose token the server still accepts, and a session that the
    client holds for valid while the server refuses its token is in its last
    second. *)
Theorem session_outlives_its_token_by_less_than_a_second `{Env} `{Libs} {B}
    (Date_parse : string -> option Z) (a : Client.App) (req : Request B)
    (issued now : Z) (text : string) :
  Client.authToken a = Some (Jwt.sign "admin" issued JWT_SECRET 3600 issued) ->
  Client.sessionExpiry a = Some text -> text <> "" ->
  Date_parse text = Some (issued + 3600000) ->
  authorization req = Notions.header_of (Client.authToken a) ->
  let valid := (Session.checkAuthStatus Date_parse a now).2 in
  (valid = true <-> now < issued + 3600000)
  /\ (Spec.valid_credential req now <-> now / 1000 < issued / 1000 + 3600)
  /\ (Spec.valid_credential req now -> valid = true)
  /\ (valid = true -> ~ Spec.valid_credential req now -> issued + 3600000 - 1000 < now)
  /\ (valid = false -> (Session.checkAuthStatus Date_parse a now).1 = Client.logout a).
Proof.
  intros Htoken Hexpiry Htext Hdate Hauth. cbv zeta.
  assert (Hcheck : Session.checkAuthStatus Date_parse a now
                   = if (now <? issued + 3600000)%Z then (a, true)
                     else (Client.logout a, false)).
  { unfold Session.checkAuthStatus. rewrite Htoken, Hexpiry, sign_is_truthy.
    destruct text as [|c t]; [congruence|].
    cbn [JS.truthy andb default from_option]. unfold id. now rewrite Hdate. }
  assert (Hcred : Spec.valid_credential req now <-> (now / 1000 < issued / 1000 + 3600)%Z).
  { apply login_token_credential. rewrite Hauth, Htoken.
    unfold Notions.header_of. now rewrite sign_is_truthy. }
  rewrite Hcheck.
  destruct (Z.ltb_spec now (issued + 3600000)) as [Hlt|Hge]; cbn [fst snd].
  - split; [tauto|]. split; [exact Hcred|]. split; [tauto|].
    split; [|discriminate].
    intros _ Hno. apply last_second.
    destruct (Z.le_gt_cases (issued / 1000 + 3600) (now / 1000)) as [Hle|Hgt];
      [assumption|]. exfalso. apply Hno, Hcred. lia.
  - split; [split; [discriminate | lia]|]. split; [exact Hcred|].
    split; [|split; [discriminate | reflexivity]].
    intros Hyes. apply Hcred, whole_seconds in Hyes. lia.
Qed.

Section SessionScenarios.
#[local] Existing Instances Sample.env Sample.libs.

(** X17, a scenario.  The session of a login made half a second past the
    second, checked a quarter of a second before [expiresAt]: the client
    holds it for valid, and the server refuses its token. *)
Lemma session_outlives_its_token_by_less_than_a_second_witness :
  (Session.checkAuthStatus Sample.date_of (Client.app Sample.two_pending)
     (Sample.login_at + 3599750)).2 = true
  /\ ~ Spec.valid_credential Sample.verification (Sample.login_at + 3599750).
Proof.
  destruct (session_outlives_its_token_by_less_than_a_second Sample.date_of
              (Client.app Sample.two_pending) Sample.verification
              Sample.login_at (Sample.login_at + 3599750)
              "2024-01-15T11:00:00.500Z")
    as (Hvalid & Hcred & _); try reflexivity; [discriminate|].
  split.
  - apply Hvalid. vm_compute. reflexivity.
  - intros Hyes. apply Hcred in Hyes. vm_compute in Hyes. discriminate Hyes.
Defined.
End SessionScenarios.

(** ** The login of the client, served by the login of the server *)

(** X18.  [authenticate], when its request is served by the login route of the
    server.  Under the right password it answers true, and the client holds
    the token that the server has signed and its [expiresAt]; a request that
    carries this token under [Bearer] is authorized until the token expires.
    Under a wrong password, which the server answers 401, it answers false and
    the client is logged out: it has lost the session that it held before the
    attempt.  Under an empty password, which the server answers 400, it
    answers false and the client keeps what it held. *)
Theorem authenticate_against_the_server `{Env} `{Libs} {World : Type}
    (fetch : World -> Session.Call -> World * Session.Fetched)
    (toISOString : Z -> string) (r : Session.Run) (password : string)
    (st : Store) (req : Request (option string)) (now : Z) (w : World) :
  body req = Some password ->
  fetch (Session.world r)
    (Session.request r "/auth/login" Client.POST (Some password))
  = (w, Session.Responded (status (Server.post_auth_login st req now).2)
          (Session.Json
             (Notions.answer_of toISOString (Server.post_auth_login st req now).2))) ->
  let after := Session.app (Session.authenticate fetch r password).1 in
  let granted := (Session.authenticate fetch r password).2 in
  (password <> "" -> bcrypt_compare password ADMIN_PASSWORD_HASH = true ->
   granted = true
   /\ Client.authToken after = Some (Jwt.sign "admin" now JWT_SECRET 3600 now)
   /\ Client.sessionExpiry after = Some (toISOString (now + 3600000))
   /\ (forall (B : Type) (next : Request B) later,
          authorization next = Notions.header_of (Client.authToken after) ->
          later / 1000 < now / 1000 + 3600 ->
          Spec.valid_credential next later))
  /\ (password <> "" -> bcrypt_compare password ADMIN_PASSWORD_HASH = false ->
      granted = false
      /\ Client.authToken after = None /\ Client.sessionExpiry after = None)
  /\ (password = "" -> granted = false /\ after = Session.app r).
Proof.
  intros Hbody Hfetch. cbv zeta.
  unfold Session.authenticate, Session.apiRequest. rewrite Hfetch.
  unfold Server.post_auth_login. rewrite Hbody.
  destruct password as [|c p].
  - cbn. split; [congruence|]. split; [congruence|]. auto.
  - cbn [JS.truthy negb default from_option]. unfold id.
    destruct (bcrypt_compare (String c p) ADMIN_PASSWORD_HASH); cbn -[Jwt.sign].
    + split; [|split; [congruence | discriminate]].
      intros _ _. repeat split.
      intros B next later Hnext Hlater.
      apply (login_token_valid next now later); [|assumption].
      rewrite Hnext.
      change (match Jwt.sign "admin" now JWT_SECRET 3600 now with
              | "" => false
              | String _ _ => true
              end)
        with (JS.truthy (Some (Jwt.sign "admin" now JWT_SECRET 3600 now))).
      now rewrite sign_is_truthy.
    + split; [congruence|]. split; [auto | discriminate].
Qed.

Section LoginOfTheClient.
#[local] Existing Instances Sample.env Sample.libs.

(** X18, a scenario.  A client that holds a session mistypes the password,
    and a client that holds none types it. *)
Lemma authenticate_against_the_server_witness :
  (Session.authenticate Sample.wire Sample.in_session "3dprinter@aqr").2 = false
  /\ Client.authToken
       (Session.app (Session.authenticate Sample.wire Sample.in_session
                       "3dprinter@aqr").1) = None
  /\ (Session.authenticate Sample.wire Sample.fresh_client "3dprinter@aqrl").2 = true
  /\ Client.authToken
       (Session.app (Session.authenticate Sample.wire Sample.fresh_client
                       "3dprinter@aqrl").1) = Some Sample.token.
Proof.
  destruct (authenticate_against_the_server Sample.wire Sample.iso Sample.in_session
              "3dprinter@aqr" Sample.empty (Sample.login "3dprinter@aqr")
              Sample.login_at tt eq_refl eq_refl)
    as (_ & (Hrefused & Hout & _) & _); [discriminate | reflexivity |].
  destruct (authenticate_against_the_server Sample.wire Sample.iso Sample.fresh_client
              "3dprinter@aqrl" Sample.empty (Sample.login "3dprinter@aqrl")
              Sample.login_at tt eq_refl eq_refl)
    as ((Hgranted & Htoken & _) & _); [discriminate | reflexivity |].
  auto.
Defined.
End LoginOfTheClient.

(** ** The form of a Job *)

Section Decimals.

Lemma read_digits_acc d : forall p cnt,
  JS.read_digits 10 (NilEmpty.string_of_uint d) (N.pos p) cnt
  = (N.pos (Pos.of_uint_acc d p), (cnt + Decimal.nb_digits d)%nat, "").
Proof.
  induction d as [|d IH|d IH|d IH|d IH|d IH|d IH|d IH|d IH|d IH|d IH];
    intros p cnt;
    cbn [NilEmpty.string_of_uint JS.read_digits Decimal.nb_digits Pos.of_uint_acc];
    [now rewrite Nat.add_0_r|..];
    match goal with
    | |- context [JS.digit_in 10 ?c] =>
        let v := eval vm_compute in (JS.digit_in 10 c) in
        change (JS.digit_in 10 c) with v
    end;
    cbv beta iota;
    match goal with
    | |- JS.read_digits _ _ ?acc _ = (N.pos (Pos.of_uint_acc _ ?q), _, _) =>
        replace acc with (N.pos q) by lia
    end;
    rewrite IH; now rewrite Nat.add_succ_r.
Qed.

Lemma read_digits_uint d : forall cnt,
  JS.read_digits 10 (NilEmpty.string_of_uint d) 0 cnt
  = (Pos.of_uint d, (cnt + Decimal.nb_digits d)%nat, "").
Proof.
  induction d as [|d IH|d IH|d IH|d IH|d IH|d IH|d IH|d IH|d IH|d IH];
    intros cnt;
    cbn [NilEmpty.string_of_uint JS.read_digits Decimal.nb_digits Pos.of_uint];
    [now rewrite Nat.add_0_r|..];
    match goal with
    | |- context [JS.digit_in 10 ?c] =>
        let v := eval vm_compute in (JS.digit_in 10 c) in
        change (JS.digit_in 10 c) with v
    end;
    cbv beta iota;
    [change (0 * 10 + 0)%N with 0%N; rewrite IH; now rewrite Nat.add_succ_r|..];
    match goal with
    | |- JS.read_digits _ _ ?acc _ = _ =>
        let v := eval vm_compute in acc in change acc with v
    end;
    rewrite read_digits_acc; now rewrite Nat.add_succ_r.
Qed.

(** [parseInt] reads the decimal spelling of a natural number. *)
Lemma parseInt_uint (neg : bool) d :
  d <> Decimal.Nil ->
  JS.parseInt ((if neg then "-" else "") ++ NilEmpty.string_of_uint d)
  = JS.Fin (JS.signed neg (inject_Z (Z.of_uint d))).
Proof.
  intros Hd. unfold JS.parseInt.
  assert (Hsign : JS.read_sign (JS.drop_space
                    ((if neg then "-" else "") ++ NilEmpty.string_of_uint d))
                  = (neg, NilEmpty.string_of_uint d)).
  { destruct neg; [reflexivity|].
    destruct d; try contradiction; reflexivity. }
  rewrite Hsign.
  assert (Hradix : match NilEmpty.string_of_uint d with
                   | String "0" (String p r') =>
                       if (Ascii.eqb p "x" || Ascii.eqb p "X")%bool then (16%N, r')
                       else (10%N, NilEmpty.string_of_uint d)
                   | _ => (10%N, NilEmpty.string_of_uint d)
                   end = (10%N, NilEmpty.string_of_uint d)).
  { destruct d as [|d|d|d|d|d|d|d|d|d|d]; try reflexivity.
    destruct d; reflexivity. }
  rewrite Hradix, read_digits_uint.
  destruct d; try contradiction; reflexivity.
Qed.

(** [parseInt] reads back the spelling of an integer. *)
Lemma parseInt_Z_to_string z : JS.parseInt (JS.Z_to_string z) = JS.of_Z z.
Proof.
  unfold JS.Z_to_string, JS.of_Z. rewrite <- (DecimalZ.of_to z) at 2.
  destruct z as [|p|p]; cbn [Z.to_int NilEmpty.string_of_int Z.of_int].
  - reflexivity.
  - exact (parseInt_uint false _ (DecimalPos.Unsigned.to_uint_nonnil p)).
  - exact (parseInt_uint true _ (DecimalPos.Unsigned.to_uint_nonnil p)).
Qed.

Lemma add_of_Z a b : JS.add (JS.of_Z a) (JS.of_Z b) = JS.of_Z (a + b).
Proof.
  unfold JS.of_Z. cbn [JS.add]. f_equal.
  rewrite (Qred_complete _ (inject_Z (a + b))) by (now rewrite inject_Z_plus).
  apply Qcanon.Qred_identity, Z.gcd_1_r.
Qed.

(** A counter of the form is an integer. *)
Lemma quantities_integer f l : exists z, Form.quantities f l = JS.of_Z z.
Proof.
  unfold Form.quantities, JS.parseInt.
  destruct (JS.read_sign _) as [neg r].
  destruct (match r with
            | String "0" (String p r') =>
                if (Ascii.eqb p "x" || Ascii.eqb p "X")%bool then (16%N, r')
                else (10%N, r)
            | _ => (10%N, r)
            end) as [radix r1].
  destruct (JS.read_digits radix r1 0 0) as [[n [|k]] rest].
  - now exists 0.
  - destruct neg; cbn [JS.signed JS.or_zero].
    + unfold JS.Qzero. cbn [Qopp inject_Z Qnum].
      destruct (Z.eqb_spec (- Z.of_N n) 0); [now exists 0 | now exists (- Z.of_N n)].
    + unfold JS.Qzero. cbn [inject_Z Qnum].
      destruct (Z.eqb_spec (Z.of_N n) 0); [now exists 0 | now exists (Z.of_N n)].
Qed.

End Decimals.

Section Totalling.
Context (parseFloat : string -> JS.Number).
Context (toFixed2 toString : JS.Number -> string).

(** [calculateCosts] writes to four elements and to no other. *)
Lemma calculateCosts_frame f id :
  id <> "electricity-cost" -> id <> "3d-print-cost" ->
  id <> "savings-per-product" -> id <> "total-savings" ->
  Form.calculateCosts parseFloat toFixed2 f id = f id.
Proof.
  intros H1 H2 H3 H4. unfold Form.calculateCosts, Form.set. cbv zeta beta.
  repeat match goal with
         | |- context [String.eqb id ?s] =>
             destruct (String.eqb_spec id s); [congruence|]
         end.
  reflexivity.
Qed.

Lemma quantities_counted f l :
  Form.quantities f l = JS.of_Z (Notions.counted f l).
Proof.
  destruct (quantities_integer f l) as [z Hz]. unfold Notions.counted.
  now rewrite Hz, as_integer_of_Z.
Qed.

(** The sum that [calculateTotals] computes. *)
Lemma counters_total f :
  foldl JS.add (JS.Fin 0)
    (map (fun l => JS.or_zero (JS.parseInt (f (Form.counter l))))
       recordSchema.locations)
  = JS.of_Z (Notions.counted_sum f).
Proof.
  change (fun l => JS.or_zero (JS.parseInt (f (Form.counter l))))
    with (Form.quantities f).
  unfold Notions.counted_sum, recordSchema.locations. cbn [map foldl foldr].
  rewrite !quantities_counted. change (JS.Fin 0) with (JS.of_Z 0).
  rewrite !add_of_Z. f_equal. lia.
Qed.

Lemma calculateTotals_counter f l :
  Form.calculateTotals parseFloat toFixed2 toString f (Form.counter l)
  = f (Form.counter l).
Proof.
  unfold Form.calculateTotals. cbv zeta.
  rewrite calculateCosts_frame by (destruct l; discriminate).
  unfold Form.set. now destruct l.
Qed.

Lemma calculateTotals_total f :
  Form.calculateTotals parseFloat toFixed2 toString f "total-quantity"
  = toString (JS.of_Z (Notions.counted_sum f)).
Proof.
  unfold Form.calculateTotals. cbv zeta.
  rewrite calculateCosts_frame by discriminate.
  unfold Form.set. cbn [String.eqb Ascii.eqb Bool.eqb]. now rewrite counters_total.
Qed.

(** The recalculations of the costs write neither to a counter nor to
    the total quantity. *)
Lemma recalculated_frame f g id :
  Notions.recalculated parseFloat toFixed2 f g ->
  id <> "electricity-cost" -> id <> "3d-print-cost" ->
  id <> "savings-per-product" -> id <> "total-savings" ->
  id <> "printing-time-hrs" ->
  g id = f id.
Proof.
  intros Hg H1 H2 H3 H4 H5. induction Hg as [|g _ IH|g _ IH]; [reflexivity| |].
  - now rewrite calculateCosts_frame.
  - unfold Form.calculateTimeAndCosts. cbv zeta.
    rewrite calculateCosts_frame by assumption. unfold Form.set.
    now destruct (String.eqb_spec id "printing-time-hrs").
Qed.

End Totalling.

(** X19.  [calculateTotals] keeps the total of the form consistent with its
    counters.  Each of the seven counters is read by [parseInt], a counter
    that does not read as a number counting 0, and the total quantity is set
    to the spelling of their sum; the counters themselves are left as they
    are.  So the record that [saveRecord] builds of the form right after has a
    total quantity that is the sum of its seven quantities: the first of the
    two equations of a Job holds of what the client sends.  The
    recalculations of the costs that may come in between, by [calculateCosts]
    or by [calculateTimeAndCosts], write neither to a counter nor to the
    total, so the total stays the sum of the counters until a counter is
    edited.  (The counters are taken below [10^15], where sums are exact and
    are spelt in decimal digits.) *)
Theorem total_quantity_is_the_sum_of_the_counters
    (parseFloat : string -> JS.Number) (toFixed2 toString : JS.Number -> string)
    (f : Form.t) :
  (forall n, Z.abs n < 2 ^ 53 -> toString (JS.of_Z n) = JS.Z_to_string n) ->
  (forall l, Z.abs (Notions.counted f l) < 10 ^ 15) ->
  let f' := Form.calculateTotals parseFloat toFixed2 toString f in
  f' "total-quantity" = JS.Z_to_string (Notions.counted_sum f)
  /\ Form.totalQuantity f' = JS.of_Z (Notions.counted_sum f)
  /\ (forall l, Form.quantities f' l = Form.quantities f l)
  /\ (forall l, Form.quantities f' l = JS.of_Z (Notions.counted f l))
  /\ (inject_Z (Notions.counted_sum f)
      == Spec.counters_sum (fun l => inject_Z (Notions.counted f l)))%Q
  /\ (forall g,
        Notions.recalculated parseFloat toFixed2 f' g ->
        Form.totalQuantity g = JS.of_Z (Notions.counted_sum f)
        /\ forall l, Form.quantities g l = Form.quantities f l).
Proof.
  intros Hspell Hbound. cbv zeta.
  assert (Hsum : Z.abs (Notions.counted_sum f) < 2 ^ 53).
  { unfold Notions.counted_sum, recordSchema.locations. cbn [foldr].
    pose proof (Hbound recordSchema.bng). pose proof (Hbound recordSchema.sampling).
    pose proof (Hbound recordSchema.rcc). pose proof (Hbound recordSchema.rd).
    pose proof (Hbound recordSchema.kaa). pose proof (Hbound recordSchema.bom).
    pose proof (Hbound recordSchema.other). lia. }
  assert (Htotal : Form.calculateTotals parseFloat toFixed2 toString f "total-quantity"
                   = JS.Z_to_string (Notions.counted_sum f)).
  { rewrite calculateTotals_total. now apply Hspell. }
  assert (Hsame : forall l,
             Form.quantities (Form.calculateTotals parseFloat toFixed2 toString f) l
             = Form.quantities f l).
  { intros l. unfold Form.quantities. now rewrite calculateTotals_counter. }
  split; [exact Htotal|].
  split; [unfold Form.totalQuantity; rewrite Htotal; apply parseInt_Z_to_string|].
  split; [exact Hsame|].
  split; [intros l; rewrite Hsame; apply quantities_counted|].
  split.
  { unfold Notions.counted_sum, Spec.counters_sum, recordSchema.locations.
    cbn [foldr]. rewrite !inject_Z_plus. reflexivity. }
  intros g Hg. split.
  - unfold Form.totalQuantity.
    rewrite (recalculated_frame _ _ _ _ _ Hg) by discriminate.
    rewrite Htotal. apply parseInt_Z_to_string.
  - intros l. rewrite <- Hsame. unfold Form.quantities.
    now rewrite (recalculated_frame _ _ _ _ _ Hg) by (destruct l; discriminate).
Qed.

Section TotalScenarios.

(** X19, a scenario.  The form with three pieces at Bangalore, [2 pcs] at
    RCC and a word at KAA: the total is set to 5. *)
Lemma total_quantity_is_the_sum_of_the_counters_witness :
  Form.calculateTotals JS.StringToNumber Sample.fixed Sample.spelt Sample.entered
    "total-quantity" = "5"
  /\ Form.totalQuantity
       (Form.calculateTotals JS.StringToNumber Sample.fixed Sample.spelt Sample.entered)
     = JS.of_Z 5.
Proof.
  destruct (total_quantity_is_the_sum_of_the_counters JS.StringToNumber
              Sample.fixed Sample.spelt Sample.entered) as (Htext & Htotal & _).
  - intros n _. unfold Sample.spelt. now rewrite as_integer_of_Z.
  - intros l. destruct l; vm_compute; reflexivity.
  - split; [exact Htext | exact Htotal].
Defined.

End TotalScenarios.

(** ** The id of a Project *)

Section Padding.

Lemma length_string_of_list l :
  String.length (string_of_list_ascii l) = length l.
Proof. induction l as [|c l IH]; cbn; [reflexivity | now rewrite IH]. Qed.

Lemma length_append (a b : string) :
  String.length (a ++ b) = (String.length a + String.length b)%nat.
Proof.
  induction a as [|c a IH]; [reflexivity|].
  rewrite append_cons. cbn [String.length]. now rewrite IH.
Qed.

(** Zeros in front of the digits of a number. *)
Lemma zeros_uint k d :
  (string_of_list_ascii (repeat "0"%char k) ++ NilEmpty.string_of_uint d)%string
  = NilEmpty.string_of_uint (Nat.iter k Decimal.D0 d).
Proof.
  induction k as [|k IH]; [reflexivity|].
  cbn [repeat string_of_list_ascii Nat.iter nat_rect NilEmpty.string_of_uint].
  rewrite append_cons. now rewrite IH.
Qed.

Lemma of_uint_zeros k d : Z.of_uint (Nat.iter k Decimal.D0 d) = Z.of_uint d.
Proof. induction k as [|k IH]; [reflexivity | exact IH]. Qed.

End Padding.

(** X20.  The id that [generateProjectId] writes keeps its counter, for the
    counters that a Number holds exactly and spells in decimal digits (whole
    numbers below [2^53]).  The id is the decimal spelling of the counter
    with zeros in front up to five characters, and it is never cut: it is as
    long as the spelling when the spelling has more than five characters.
    The id of a counter that is not negative reads back as the counter, so
    that two such counters never share an id. *)
Theorem project_id_keeps_its_counter (toString : JS.Number -> string) (n m : Z) :
  (forall k, Z.abs k < 2 ^ 53 -> toString (JS.of_Z k) = JS.Z_to_string k) ->
  Z.abs n < 2 ^ 53 -> Z.abs m < 2 ^ 53 ->
  Form.generateProjectId toString (JS.of_Z n) = JS.padStart 5 "0" (JS.Z_to_string n)
  /\ String.length (Form.generateProjectId toString (JS.of_Z n))
     = Nat.max 5 (String.length (JS.Z_to_string n))
  /\ (0 <= n -> JS.Z_of_string (Form.generateProjectId toString (JS.of_Z n)) = Some n)
  /\ (0 <= n -> 0 <= m ->
      Form.generateProjectId toString (JS.of_Z n)
      = Form.generateProjectId toString (JS.of_Z m) ->
      n = m).
Proof.
  intros Hspell Hn Hm.
  assert (Hid : forall k, Z.abs k < 2 ^ 53 ->
                          Form.generateProjectId toString (JS.of_Z k)
                          = JS.padStart 5 "0" (JS.Z_to_string k)).
  { intros k Hk. unfold Form.generateProjectId. now rewrite Hspell. }
  assert (Hback : forall k, 0 <= k ->
                            JS.Z_of_string (JS.padStart 5 "0" (JS.Z_to_string k)) = Some k).
  { intros k Hk. unfold JS.padStart, JS.Z_to_string, JS.Z_of_string.
    destruct k as [|p|p]; [reflexivity| |lia].
    cbn [Z.to_int NilEmpty.string_of_int]. rewrite zeros_uint.
    change (NilEmpty.string_of_uint ?d) with (NilEmpty.string_of_int (Decimal.Pos d)).
    rewrite NilEmpty.isi. cbn [option_map Z.of_int]. rewrite of_uint_zeros.
    f_equal. exact (DecimalZ.of_to (Z.pos p)). }
  split; [now apply Hid|]. split; [|split].
  - rewrite (Hid n Hn). unfold JS.padStart.
    rewrite length_append, length_string_of_list, repeat_length. lia.
  - intros Hpos. rewrite (Hid n Hn). now apply Hback.
  - intros Hpn Hpm. rewrite (Hid n Hn), (Hid m Hm). intros Heq.
    pose proof (Hback n Hpn) as Hbn. rewrite Heq, (Hback m Hpm) in Hbn.
    congruence.
Qed.

Section IdScenarios.

(** X20, a scenario.  The twelfth Project gets the id 00012, which reads
    back as 12. *)
Lemma project_id_keeps_its_counter_witness :
  Form.generateProjectId Sample.spelt (JS.of_Z 12) = "00012"
  /\ JS.Z_of_string (Form.generateProjectId Sample.spelt (JS.of_Z 12)) = Some 12.
Proof.
  destruct (project_id_keeps_its_counter Sample.spelt 12 7) as (Hid & _ & Hback & _).
  - intros k _. unfold Sample.spelt. now rewrite as_integer_of_Z.
  - vm_compute. reflexivity.
  - vm_compute. reflexivity.
  - split; [rewrite Hid; vm_compute; reflexivity | apply Hback; lia].
Defined.

End IdScenarios.

(** * The sweep against the server *)

Section Uncastable.
Local Open Scope list_scope.
Context `{Env} `{Libs}.

(** The update of a Job under a path parameter that is no id: the
    answer is 401, or it is an error whose text is not a not-found. *)
Lemma put_records_uncastable st (req : Request recordSchema.Body.t) now :
  castObjectId (params_id req) = None ->
  status (Server.put_records st req now).2 = 401
  \/ (Client.ok (status (Server.put_records st req now).2) = false
      /\ exists text,
           error (Server.put_records st req now).2 = Some text
           /\ JS.truthy (Some text) = true
           /\ JS.includes text "not found" = false).
Proof.
  intros Hid. unfold Server.put_records, Server.protected.
  destruct (Server.authenticateToken req now) as [res|claims] eqn:Hauth.
  { left. destruct (authenticateToken_cases req now) as [(c & Hc & _)|(_ & r & Hr)];
      [congruence|]. rewrite Hauth in Hr. now injection Hr as ->. }
  cbn [body with_user params_id]. rewrite Hid.
  destruct (Server.validateRecord (body req)) as [b' [|e errors]];
    right; (split; [reflexivity|]); eexists; repeat split.
Qed.

Context {World : Type} (fetch : World -> Client.Call -> World * Client.Fetched).

(** The update of a cached Job, served by the update route. *)
Definition served (records : list Client.Cached) : Prop :=
  forall (w : World) call record,
    record ∈ records -> Spec.is_update record call ->
    exists w' st (req : Request recordSchema.Body.t) now,
      params_id req = Client.id record
      /\ fetch w call
         = (w', Client.Responded (status (Server.put_records st req now).2)
                  (Client.Json (error (Server.put_records st req now).2))).

Lemma push_uncastable records : forall r,
  (forall record, record ∈ records -> castObjectId (Client.id record) = None) ->
  served records ->
  exists trace r',
    Client.push fetch r records = (r', false)
    /\ Client.log r' = Client.log r ++ trace
    /\ length trace = length records
    /\ Forall (fun e => Client.method e.1 = Client.PUT) trace
    /\ Client.isOnline (Client.app r') = Client.isOnline (Client.app r).
Proof.
  induction records as [|record rest IH]; intros r Hids Hserved.
  - exists [], r. rewrite app_nil_r. cbn. auto.
  - destruct (Client.apiRequest fetch r ("/records/" ++ Client.id record) Client.PUT
                (Some record)) as [r1 o] eqn:Hput.
    destruct (apiRequest_log _ _ _ _ _ _ _ Hput)
      as (call & Hlog & Hm & He & Hp & Hon & _).
    assert (Hnext : Client.push fetch r (record :: rest) = Client.push fetch r1 rest).
    { cbn [Client.push]. rewrite Hput.
      destruct o as [value|message]; [reflexivity|].
      assert (Hno : JS.includes message "not found" = false); [|now rewrite Hno].
      revert Hput. unfold Client.apiRequest.
      destruct (Hserved (Client.world r)
                  (Notions.request_of r ("/records/" ++ Client.id record) Client.PUT
                     (Some record)) record)
        as (w' & st & req & now & Hparam & Hfetch);
        [left | repeat split |].
      fold (Notions.request_of r ("/records/" ++ Client.id record) Client.PUT
              (Some record)).
      rewrite Hfetch.
      destruct (put_records_uncastable st req now) as [H401|(Hok & text & Htext & Htruthy & Hinc)];
        [rewrite Hparam; apply Hids; left | |].
      - rewrite H401. cbn. discriminate.
      - destruct (status (Server.put_records st req now).2 =? 401)%Z; [discriminate|].
        rewrite Hok, Htext, Htruthy. cbn [negb default from_option]. unfold id.
        now intros [= _ <-]. }
    destruct (IH r1) as (trace & r' & Hpush & Hlog' & Hlen & Hall & Hon').
    { intros x Hx. apply Hids. now right. }
    { intros w c x Hx. apply Hserved. now right. }
    exists ((call, o) :: trace), r'. rewrite Hnext.
    split; [assumption|]. split; [now rewrite Hlog', Hlog, <- app_assoc|].
    split; [cbn; congruence|]. split; [constructor; assumption | congruence].
Qed.

End Uncastable.

(** X21.  The sweep never creates, on this server, a cached Job whose id is
    no id of the store.  The update of such a Job is answered 401, or 400 by
    the validators, or 500 by the cast of the id, never 404, and none of
    these answers carries a text that contains [not found]: the create that
    is to follow an update that fails not-found never follows.  When the
    probe returns and each update is served by the update route, the sweep
    makes one update a cached Job and no other request, and the client stays
    online.  ([saveRecord] and [handleOfflineSave] give a new Job the instant
    of its creation in milliseconds for id.) *)
Theorem sweep_never_creates_a_job_whose_id_is_no_object_id `{Env} `{Libs}
    {World : Type} (fetch : World -> Client.Call -> World * Client.Fetched)
    (r probed : Client.Run) (value : option (option string))
    (localData : Client.LocalData) :
  Client.apiRequest fetch r "/health" Client.GET None = (probed, Client.Returned value) ->
  Client.storage (Client.app r) = Client.Saved localData ->
  (forall record,
      record ∈ default [] (Client.records localData) ->
      castObjectId (Client.id record) = None) ->
  (forall (w : World) call record,
      record ∈ default [] (Client.records localData) ->
      Spec.is_update record call ->
      exists w' st (req : Request recordSchema.Body.t) now,
        params_id req = Client.id record
        /\ fetch w call
           = (w', Client.Responded (status (Server.put_records st req now).2)
                    (Client.Json (error (Server.put_records st req now).2)))) ->
  exists trace,
    Client.log (Client.syncWithServer fetch r) = (Client.log probed ++ trace)%list
    /\ length trace = length (default [] (Client.records localData))
    /\ Forall (fun e => Client.method e.1 = Client.PUT) trace
    /\ Client.isOnline (Client.app (Client.syncWithServer fetch r)) = true.
Proof.
  intros Hprobe Hsaved Hids Hserved.
  unfold Client.syncWithServer. rewrite Hprobe.
  destruct (apiRequest_log _ _ _ _ _ _ _ Hprobe) as (_ & _ & _ & _ & _ & _ & Hst).
  cbn [Client.online Client.app Client.storage Client.set_online].
  rewrite Hst, Hsaved.
  destruct (push_uncastable fetch (default [] (Client.records localData))
              (Client.online probed) Hids Hserved)
    as (trace & r' & -> & Hlog & Hlen & Hall & Hon).
  exists trace. auto.
Qed.

Section UncastableScenarios.
#[local] Existing Instances Sample.env Sample.libs.

(** X21, a scenario.  The sweep of the two Jobs that the client has
    cached under the instants of their creation, against the server: two
    updates, both answered 500, and no create. *)
Lemma sweep_never_creates_a_job_whose_id_is_no_object_id_witness :
  (fun e => (Client.method e.1, Client.endpoint e.1, e.2))
    <$> Client.log (Client.syncWithServer Sample.serving Sample.two_pending)
  = [(Client.GET, "/health", Client.Returned (Some None));
     (Client.PUT, "/records/1705300000001", Client.Threw "Failed to update record");
     (Client.PUT, "/records/1705300000002", Client.Threw "Failed to update record")]
  /\ Client.isOnline (Client.app (Client.syncWithServer Sample.serving Sample.two_pending))
     = true.
Proof.
  split; [vm_compute; reflexivity|].
  destruct (sweep_never_creates_a_job_whose_id_is_no_object_id Sample.serving
              Sample.two_pending _ (Some None)
              {| Client.records := Some Sample.pending;
                 Client.feedback := [Sample.job "1705300000003"];
                 Client.projects := [Sample.job "00012"] |} eq_refl eq_refl)
    as (trace & _ & _ & _ & Hon); [| |exact Hon].
  - intros record Hin. cbn [default from_option Client.records] in Hin.
    unfold id, Sample.pending in Hin.
    repeat (apply elem_of_cons in Hin as [->|Hin]); [..|now apply elem_of_nil in Hin];
      vm_compute; reflexivity.
  - intros w call record Hin (Hm & He & Hp).
    exists tt, Sample.empty,
      (Sample.request (Notions.header_of (Client.bearer call)) (Client.id record) []
         Sample.bracket), Sample.login_at.
    split; [reflexivity|]. destruct w. unfold Sample.serving. rewrite Hm.
    unfold Sample.updated. rewrite He.
    cbn [default from_option Client.records] in Hin. unfold id, Sample.pending in Hin.
    repeat (apply elem_of_cons in Hin as [->|Hin]); [..|now apply elem_of_nil in Hin];
      reflexivity.
Defined.
End UncastableScenarios.
